(** * CloudWatch auto-alarms: the tag-to-alarm compiler of [src/actions.py]

    A shallow embedding of [actions.py] and the properties of its tag
    grammar, alarm naming, platform classification and error propagation.

    Conventions of the embedding:
    - Python [str] is [string]; the text handled here (tag keys, platform
      details, periods, thresholds) is taken to be ASCII.
    - Python exceptions are values of [PyExc]; a computation either returns
      ([Ok]) or raises ([Raise]).
    - Calls to the boto3 clients and to [logger] are effects: they are
      recorded in the state, and the answers of the clients come from a
      [Client] whose answers may depend on the calls made so far.
    - [default_alarms] is a dict the caller owns and passes by reference; it
      lives in the state so that in-place [append]s stay visible.
    - [instance_info] holds strings, the list of tags and other objects;
      an object that is not a string is kept as its truth value and its
      [repr], which is all the module uses of it.
    - [boto3_client] is plumbing: the construction of a client is part of
      the call made through it. [check_alarm_tag] has a client and a state
      of its own, in the module [Ec2]. *)

From Stdlib Require Import ZArith NArith Ascii String DecimalString DecimalNat DecimalFacts.
From stdpp Require Import gmap strings list fin_maps.

Local Open Scope string_scope.
Local Open Scope list_scope.

(** ** Python strings *)

Module PyStr.

(** [s.split(sep)] for a one-character separator: never returns the empty
    list, keeps empty fields. *)
Fixpoint split (sep : ascii) (s : string) : list string :=
  match s with
  | EmptyString => [EmptyString]
  | String c s' =>
      if Ascii.eqb c sep then EmptyString :: split sep s'
      else match split sep s' with
           | [] => [String c EmptyString]
           | t :: ts => String c t :: ts
           end
  end.

(** [sep.join(toks)] *)
Fixpoint join (sep : string) (toks : list string) : string :=
  match toks with
  | [] => EmptyString
  | [t] => t
  | t :: ts => t +:+ sep +:+ join sep ts
  end.

(** [s.startswith(p)] *)
Definition startswith (s p : string) : bool := String.prefix p s.

(** [needle in hay] on strings. *)
Fixpoint contains (needle hay : string) : bool :=
  String.prefix needle hay ||
  match hay with
  | EmptyString => false
  | String _ hay' => contains needle hay'
  end.

Definition lower_char (c : ascii) : ascii :=
  let n := nat_of_ascii c in
  if (65 <=? n)%nat && (n <=? 90)%nat then ascii_of_nat (n + 32) else c.

(** [s.lower()] on ASCII text. *)
Fixpoint lower (s : string) : string :=
  match s with
  | EmptyString => EmptyString
  | String c s' => String (lower_char c) (lower s')
  end.

(** The character [c] does not occur in [s]. *)
Fixpoint free_of (c : ascii) (s : string) : bool :=
  match s with
  | EmptyString => true
  | String d s' => negb (Ascii.eqb d c) && free_of c s'
  end.

(** Truthiness of a string: [if s:] *)
Definition truthy (s : string) : bool :=
  match s with EmptyString => false | _ => true end.

End PyStr.

(** ** Python number parsing: [int(str)] and [float(str)] *)

Module PyNum.

(** White space of ASCII text as [int] and [float] skip it: tab, line feed,
    vertical tab, form feed, carriage return and space. *)
Definition is_space (c : ascii) : bool :=
  let n := nat_of_ascii c in
  ((9 <=? n)%nat && (n <=? 13)%nat) || (n =? 32)%nat.

Definition is_digit (c : ascii) : bool :=
  let n := nat_of_ascii c in (48 <=? n)%nat && (n <=? 57)%nat.

Definition digit_val (c : ascii) : N := (N_of_ascii c - 48)%N.

Fixpoint lstrip (cs : list ascii) : list ascii :=
  match cs with
  | c :: cs' => if is_space c then lstrip cs' else cs
  | [] => []
  end.

Definition strip (cs : list ascii) : list ascii :=
  rev (lstrip (rev (lstrip cs))).

(** An optional sign, and the rest. *)
Definition take_sign (cs : list ascii) : bool * list ascii :=
  match cs with
  | "-"%char :: r => (true, r)
  | "+"%char :: r => (false, r)
  | _ => (false, cs)
  end.

(** Where the scan of a digit group stands. *)
Inductive prev_char := AtStart | AfterDigit | AfterUnderscore.

(** Decimal digits with single underscores between digits, up to the end of
    the text: the body of an [int] literal. *)
Fixpoint int_digits (cs : list ascii) (prev : prev_char) (acc : N) : option N :=
  match cs with
  | [] => match prev with AfterDigit => Some acc | _ => None end
  | c :: cs' =>
      if is_digit c then int_digits cs' AfterDigit (10 * acc + digit_val c)%N
      else if Ascii.eqb c "_" then
        match prev with
        | AfterDigit => int_digits cs' AfterUnderscore acc
        | _ => None
        end
      else None
  end.

(** [int(s)] in base 10: [None] stands for [ValueError]. The limit some
    interpreters put on the number of digits is not modelled. *)
Definition int (s : string) : option Z :=
  let (neg, body) := take_sign (strip (list_ascii_of_string s)) in
  match int_digits body AtStart 0 with
  | Some n => Some (if neg then - Z.of_N n else Z.of_N n)%Z
  | None => None
  end.

(** The value [float(s)] denotes: the double nearest to
    [(-1)^neg * mant * 10^exp10], an infinity or a NaN. The rounding to
    binary64 is not modelled; the decimal literal is kept instead. *)
Inductive PyFloat :=
| FNum (neg : bool) (mant : N) (exp10 : Z)
| FInf (neg : bool)
| FNan.

(** Underscores of a [float] literal: each must stand between two digits;
    they are removed before the literal is read. *)
Fixpoint drop_underscores (cs : list ascii) (prev : option ascii) : option (list ascii) :=
  match cs with
  | [] => match prev with
          | Some p => if Ascii.eqb p "_" then None else Some []
          | None => Some []
          end
  | c :: cs' =>
      if Ascii.eqb c "_" then
        match prev with
        | Some p => if is_digit p then drop_underscores cs' (Some c) else None
        | None => None
        end
      else
        let after_us := match prev with Some p => Ascii.eqb p "_" | None => false end in
        if after_us && negb (is_digit c) then None
        else option_map (cons c) (drop_underscores cs' (Some c))
  end.

(** The longest run of digits at the front: its value on top of [acc], its
    length on top of [n], and what follows. *)
Fixpoint take_digits (cs : list ascii) (acc : N) (n : nat) : N * nat * list ascii :=
  match cs with
  | c :: cs' =>
      if is_digit c then take_digits cs' (10 * acc + digit_val c)%N (S n)
      else (acc, n, cs)
  | [] => (acc, n, [])
  end.

Definition lower_list (cs : list ascii) : string :=
  PyStr.lower (string_of_list_ascii cs).

(** A decimal literal [digits [. digits] [(e|E) [sign] digits]] with at
    least one mantissa digit, covering the whole text. *)
Definition float_decimal (neg : bool) (cs : list ascii) : option PyFloat :=
  let '(ip, ni, r1) := take_digits cs 0 0 in
  let '(m, nf, r2) :=
    match r1 with
    | "."%char :: r1' => take_digits r1' ip 0
    | _ => (ip, 0%nat, r1)
    end in
  if (ni + nf =? 0)%nat then None
  else match r2 with
       | [] => Some (FNum neg m (- Z.of_nat nf))
       | e :: r3 =>
           if Ascii.eqb e "e" || Ascii.eqb e "E" then
             let (eneg, r4) := take_sign r3 in
             let '(ev, ne, r5) := take_digits r4 0 0 in
             match ne, r5 with
             | S _, [] =>
                 Some (FNum neg m ((if eneg then - Z.of_N ev else Z.of_N ev) - Z.of_nat nf))
             | _, _ => None
             end
           else None
       end.

(** [float(s)]: [None] stands for [ValueError]. *)
Definition float (s : string) : option PyFloat :=
  match drop_underscores (list_ascii_of_string s) None with
  | None => None
  | Some cs =>
      let (neg, body) := take_sign (strip cs) in
      let w := lower_list body in
      if String.eqb w "inf" || String.eqb w "infinity" then Some (FInf neg)
      else if String.eqb w "nan" then Some FNan
      else float_decimal neg body
  end.

End PyNum.

(** ** Exceptions, effects and the state they act on *)

Inductive PyExc :=
| KeyError
| IndexError
| ValueError
| TypeError
| AttributeError
| PlainException                (* [raise Exception] *)
| ClientError (code : string).  (* raised by a boto3 client *)

Inductive Result (A : Type) :=
| Ok (a : A)
| Raise (e : PyExc).
Arguments Ok {A} a.
Arguments Raise {A} e.

(** What a Python function of this module returns when it is not a value of
    its own: [True] or, falling off its end, [None]. *)
Inductive PyRet := PyTrue | PyNone.

(** *** Data of the alarm compiler *)

(** A tag [{'Key': k, 'Value': v}]. *)
Record Tag := { tag_Key : string; tag_Value : string }.

(** A value of [instance_info] that is neither a string nor the list of
    tags: a number, a boolean, a datetime, a dict or a list. The module only
    tests such a value for truth and passes it on, so it is kept as its
    truth value and its [repr]. *)
Record PyObject := { obj_truth : bool; obj_repr : string }.

(** The values [instance_info] holds, and with them the values of a
    dimension. A string stands for its value ([VStr] is a coercion). *)
Inductive PyVal :=
| VStr (s : string)
| VTags (tags : list Tag)
| VObject (o : PyObject).

Coercion VStr : string >-> PyVal.

(** [bool(v)] *)
Definition truthy_value (v : PyVal) : bool :=
  match v with
  | VStr s => PyStr.truthy s
  | VTags tags => match tags with [] => false | _ :: _ => true end
  | VObject o => obj_truth o
  end.

(** A metric dimension [{'Name': n, 'Value': v}]: the value is a string when
    it comes from a tag, and whatever [instance_info] holds when it comes
    from there. *)
Record Dimension := { dim_Name : string; dim_Value : PyVal }.

(** [create_alarm] passes on as ['Period'] either the seconds it computed or,
    when the conversion failed, the text it was given. *)
Inductive PeriodArg :=
| PeriodSeconds (n : Z)
| PeriodText (s : string).

(** The keyword arguments of [put_metric_alarm]. *)
Record Alarm := {
  AlarmName : string;
  AlarmDescription : string;
  MetricName : string;
  Namespace : string;
  Dimensions : list Dimension;
  Period : PeriodArg;
  EvaluationPeriods : Z;
  Threshold : PyNum.PyFloat;
  ComparisonOperator : string;
  Statistic : string;
  AlarmActions : option (list string)
}.

(** An entry of [default_alarms]: a list of tags (as for ['AWS/EC2'] and
    ['AWS/Lambda']) or a dict from platform to a list of tags (as for the
    agent namespace). A platform is a string or [None]. *)
Inductive AlarmSet :=
| TagList (l : list Tag)
| PerPlatform (m : gmap (option string) (list Tag)).

(** [instance_info]: the ['Tags'] entry, the string-valued attributes
    (['ImageId'], ['InstanceId'], ['InstanceType'], ...) and the attributes
    whose value is not a string (['Placement'], ['Monitoring'],
    ['LaunchTime'], ...), the entries absent when the dict lacks the key.
    ['Tags'] is read from the first field only and ['ImageId'] from the
    second only (see [info_get]): the one is a list of tags and the other a
    string in every answer of [describe_instances]. *)
Record InstanceInfo := {
  info_Tags : option (list Tag);
  info_attrs : list (string * string);
  info_objects : list (string * PyObject)
}.

(** *** The boto3 clients *)

Module Boto3.

(** An image of a [describe_images] response; a field is [None] when the
    dict lacks the key. *)
Record Image := {
  PlatformDetails : option string;
  Description : option string;
  Name : option string
}.

Record ImagesResponse := { Images : option (list Image) }.

Record MetricAlarm := { MetricAlarmName : option string }.

Record AlarmsResponse := { MetricAlarms : option (list MetricAlarm) }.

(** The calls the module makes. *)
Inductive Call :=
| DescribeImages (ImageIds : list string)
| PutMetricAlarm (alarm : Alarm)
| DescribeAlarms (AlarmNamePrefix : string)
| DeleteAlarms (AlarmNames : list string).

(** The answers of the services: each may depend on the calls made before
    it. A [Raise] stands for any exception of the call, the construction of
    the client by [boto3_client] included (it sits in the same [try]). *)
Record Client := {
  describe_images : list Call -> list string -> Result ImagesResponse;
  put_metric_alarm : list Call -> Alarm -> Result unit;
  describe_alarms : list Call -> string -> Result AlarmsResponse;
  delete_alarms : list Call -> list string -> Result unit
}.

End Boto3.

(** *** The log *)

Inductive Level := DEBUG | INFO | WARNING | ERROR.

(** One constructor per [logger] call of the module, with the values its
    message is formatted from. *)
Inductive LogMsg :=
| ActivationTagNotFound (function_name : string)
| ProcessingFunctionAlarms
| ImageIdIs (ImageId : string)
| PlatformIs (platform : option string)
| DimensionWithoutValue (dimension_name instance_id : string)
| CwagentDimensions (dims : list Dimension)
| UnableToDetermineDimensions (tag : Tag)
| PlatformDetailsOfImage (platform_details : string)
| FailureDescribingImage (imageid : string) (e : PyExc)
| ErrorConvertingThresholdString (s : string)
| ErrorConvertingPeriod (Period AlarmName : string) (e : PyExc)
| CreatedAlarm (AlarmName : string)
| ErrorCreatingAlarm (AlarmName : string) (e : PyExc)
| CallingDescribeAlarms (AlarmNamePrefix : string)
| ResponseFromDescribeAlarms
| DeletingAlarms (alarm_list : list string) (name : string)
| ErrorDeletingAlarms (name : string) (e : PyExc).

(** *** The state *)

Record State := {
  calls : list Boto3.Call;
  logs : list (Level * LogMsg);
  default_alarms : gmap string AlarmSet
}.

Definition with_calls (st : State) (c : list Boto3.Call) : State :=
  {| calls := c; logs := logs st; default_alarms := default_alarms st |}.

Definition with_logs (st : State) (l : list (Level * LogMsg)) : State :=
  {| calls := calls st; logs := l; default_alarms := default_alarms st |}.

Definition with_default_alarms (st : State) (d : gmap string AlarmSet) : State :=
  {| calls := calls st; logs := logs st; default_alarms := d |}.

(** *** The monad of state and exceptions *)

Definition M (A : Type) : Type := State -> Result A * State.

Definition ret {A} (a : A) : M A := fun st => (Ok a, st).

Definition raise {A} (e : PyExc) : M A := fun st => (Raise e, st).

Definition bind {A B} (m : M A) (k : A -> M B) : M B :=
  fun st =>
    match m st with
    | (Ok a, st') => k a st'
    | (Raise e, st') => (Raise e, st')
    end.

(** [try: m except Exception as e: h e] *)
Definition try_except {A} (m : M A) (h : PyExc -> M A) : M A :=
  fun st =>
    match m st with
    | (Ok a, st') => (Ok a, st')
    | (Raise e, st') => h e st'
    end.

Declare Scope py_scope.
Delimit Scope py_scope with py.
Notation "x <- m ;; k" := (bind m (fun x => k))
  (at level 100, m at next level, right associativity) : py_scope.
Notation "m ;; k" := (bind m (fun _ => k))
  (at level 100, right associativity) : py_scope.
Local Open Scope py_scope.

(** A pure computation that may raise. *)
Definition lift {A} (r : Result A) : M A := fun st => (r, st).

(** [d[k]] where the lookup gave [o]: [KeyError] when absent. *)
Definition getitem {A} (o : option A) : M A :=
  match o with Some a => ret a | None => raise KeyError end.

(** [l[i]]: [IndexError] when out of range. *)
Definition index {A} (l : list A) (i : nat) : M A :=
  match nth_error l i with Some a => ret a | None => raise IndexError end.

Definition log (lvl : Level) (msg : LogMsg) : M unit :=
  fun st => (Ok tt, with_logs st (logs st ++ [(lvl, msg)])).

(** [for x in l: body x] *)
Fixpoint for_each {A} (l : list A) (body : A -> M unit) : M unit :=
  match l with
  | [] => ret tt
  | x :: l' => body x ;; for_each l' body
  end.

(** [d.get(k)] on a dict kept as an association list. *)
Fixpoint dict_get (d : list (string * string)) (k : string) : option string :=
  match d with
  | [] => None
  | (k', v) :: d' => if String.eqb k' k then Some v else dict_get d' k
  end.

(** [instance_info.get(k, None)] *)
Fixpoint object_get (d : list (string * PyObject)) (k : string) : option PyObject :=
  match d with
  | [] => None
  | (k', o) :: d' => if String.eqb k' k then Some o else object_get d' k
  end.

Definition info_get (instance_info : InstanceInfo) (k : string) : option PyVal :=
  if String.eqb k "Tags" then option_map VTags (info_Tags instance_info)
  else
    match dict_get (info_attrs instance_info) k with
    | Some s => Some (VStr s)
    | None =>
        if String.eqb k "ImageId" then None
        else option_map VObject (object_get (info_objects instance_info) k)
    end.

(** ** The module [actions.py] *)

Definition valid_comparators : list string :=
  ["GreaterThanOrEqualToThreshold"; "GreaterThanThreshold"; "LessThanThreshold";
   "LessThanOrEqualToThreshold"].

(** [prop in valid_comparators] *)
Definition is_comparator (prop : string) : bool :=
  existsb (String.eqb prop) valid_comparators.

(** The positional arguments of a [create_alarm] call, [sns_topic_arn]
    apart. *)
Record AlarmCall := {
  ac_AlarmName : string;
  ac_MetricName : string;
  ac_ComparisonOperator : string;
  ac_Period : string;
  ac_Threshold : string;
  ac_Statistic : string;
  ac_Namespace : string;
  ac_Dimensions : list Dimension
}.

(** *** [convert_to_seconds] *)

Definition seconds_per_unit (u : ascii) : option Z :=
  if Ascii.eqb u "s" then Some 1%Z
  else if Ascii.eqb u "m" then Some 60%Z
  else if Ascii.eqb u "h" then Some 3600%Z
  else if Ascii.eqb u "d" then Some 86400%Z
  else if Ascii.eqb u "w" then Some 604800%Z
  else None.

(** [s[:-1]] *)
Fixpoint but_last (s : string) : string :=
  match s with
  | EmptyString => EmptyString
  | String c EmptyString => EmptyString
  | String c s' => String c (but_last s')
  end.

(** [s[-1]], when there is one. *)
Fixpoint last_char (s : string) : option ascii :=
  match s with
  | EmptyString => None
  | String c EmptyString => Some c
  | String _ s' => last_char s'
  end.

(** [int(s[:-1]) * seconds_per_unit[s[-1]]], the operands evaluated from
    left to right. *)
Definition seconds_of (s : string) : Result Z :=
  match PyNum.int (but_last s) with
  | None => Raise ValueError
  | Some n =>
      match last_char s with
      | None => Raise IndexError
      | Some u =>
          match seconds_per_unit u with
          | None => Raise KeyError
          | Some k => Ok (n * k)%Z
          end
      end
  end.

Definition convert_to_seconds (s : string) : M Z :=
  try_except (lift (seconds_of s))
    (fun e => log ERROR (ErrorConvertingThresholdString s) ;; raise e).

(** *** The pure parts of the loops over alarm tags *)

(** ['AutoAlarm-{}-{}-{}-{}-{}-{}'.format(a, b, c, d, e, f)] *)
Definition format_alarm_name6 (a b c d e f : string) : string :=
  "AutoAlarm-" +:+ a +:+ "-" +:+ b +:+ "-" +:+ c +:+ "-" +:+ d +:+ "-" +:+ e +:+ "-" +:+ f.

(** [l[i]] in a pure context. *)
Definition item (l : list string) (i : nat) : Result string :=
  match nth_error l i with Some a => Ok a | None => Raise IndexError end.

Definition rbind {A B} (r : Result A) (k : A -> Result B) : Result B :=
  match r with Ok a => k a | Raise e => Raise e end.

(** The body of the loop of [process_lambda_alarms] up to its
    [create_alarm] call. *)
Definition lambda_alarm_args (function_name : string) (dimensions : list Dimension)
    (tag : Tag) : Result AlarmCall :=
  let alarm_properties := PyStr.split "-" (tag_Key tag) in
  rbind (item alarm_properties 1) (fun Namespace =>
  rbind (item alarm_properties 2) (fun MetricName =>
  rbind (item alarm_properties 3) (fun ComparisonOperator =>
  rbind (item alarm_properties 4) (fun Period =>
  rbind (item alarm_properties 5) (fun Statistic =>
  let AlarmName :=
    format_alarm_name6 function_name Namespace MetricName ComparisonOperator Period
      Statistic in
  Ok {| ac_AlarmName := AlarmName; ac_MetricName := MetricName;
        ac_ComparisonOperator := ComparisonOperator; ac_Period := Period;
        ac_Threshold := tag_Value tag; ac_Statistic := Statistic;
        ac_Namespace := Namespace; ac_Dimensions := dimensions |}))))).

(** The body of the ['AWS/EC2'] loop of [process_alarm_tags] up to its
    [create_alarm] call. *)
Definition ec2_alarm_args (instance_id : string) (dimensions : list Dimension)
    (tag : Tag) : Result AlarmCall :=
  let alarm_properties := PyStr.split "-" (tag_Key tag) in
  rbind (item alarm_properties 1) (fun Namespace =>
  rbind (item alarm_properties 2) (fun MetricName =>
  rbind (item alarm_properties 3) (fun ComparisonOperator =>
  rbind (item alarm_properties 4) (fun Period =>
  rbind (item alarm_properties 5) (fun Statistic =>
  let AlarmName :=
    format_alarm_name6 instance_id Namespace MetricName ComparisonOperator
      (tag_Value tag) Period in
  Ok {| ac_AlarmName := AlarmName; ac_MetricName := MetricName;
        ac_ComparisonOperator := ComparisonOperator; ac_Period := Period;
        ac_Threshold := tag_Value tag; ac_Statistic := Statistic;
        ac_Namespace := Namespace; ac_Dimensions := dimensions |}))))).

(** [for index, prop in enumerate(props, start=index): if prop in
    valid_comparators: prop_end_index = index; break] with [None] from the
    [else] of the loop. *)
Fixpoint find_comparator (props : list string) (index : nat) : option nat :=
  match props with
  | [] => None
  | prop :: rest =>
      if is_comparator prop then Some index else find_comparator rest (S index)
  end.

(** [l[::2]] *)
Fixpoint evens (l : list string) : list string :=
  match l with
  | [] => []
  | x :: rest => x :: match rest with [] => [] | _ :: r => evens r end
  end.

(** The loop over [enumerate(additional_dimensions[::2])], from [num] on:
    it carries [total_dimensions], [AlarmName] and [properties_offset]. *)
Fixpoint dimension_loop (additional_dimensions items : list string) (num : nat)
    (acc : list Dimension * string * nat) : Result (list Dimension * string * nat) :=
  match items with
  | [] => Ok acc
  | dim :: items' =>
      match nth_error additional_dimensions (num * 2 + 1) with
      | None => Raise IndexError
      | Some val =>
          let '(total_dimensions, AlarmName, properties_offset) := acc in
          dimension_loop additional_dimensions items' (S num)
            (total_dimensions ++ [{| dim_Name := dim; dim_Value := val |}],
             AlarmName +:+ "-" +:+ dim +:+ "-" +:+ val,
             properties_offset + 2)
      end
  end.

(** The body of the agent-namespace loop of [process_alarm_tags] up to its
    [create_alarm] call. *)
Definition agent_alarm_args (instance_id : string) (cw_agent_dimensions : list Dimension)
    (tag : Tag) : M AlarmCall :=
  let total_dimensions := cw_agent_dimensions in
  let alarm_properties := PyStr.split "-" (tag_Key tag) in
  Namespace <- index alarm_properties 1 ;;
  MetricName <- index alarm_properties 2 ;;
  let prop_end_index := find_comparator (drop 3 alarm_properties) 3 in
  additional_dimensions <-
    match prop_end_index with
    | Some (S _ as e) => ret (take (e - 3) (drop 3 alarm_properties))
    | _ => log ERROR (UnableToDetermineDimensions tag) ;; raise PlainException
    end ;;
  let AlarmName := "AutoAlarm-" +:+ instance_id +:+ "-" +:+ Namespace +:+ "-" +:+ MetricName in
  acc <- lift
    match additional_dimensions with
    | [] => Ok (total_dimensions, AlarmName, 0)
    | _ => dimension_loop additional_dimensions (evens additional_dimensions) 0
             (total_dimensions, AlarmName, 0)
    end ;;
  let '(total_dimensions, AlarmName, properties_offset) := acc in
  ComparisonOperator <- index alarm_properties (properties_offset + 3) ;;
  Period <- index alarm_properties (properties_offset + 4) ;;
  Statistic <- index alarm_properties (properties_offset + 5) ;;
  let AlarmName :=
    AlarmName +:+ "-" +:+ ComparisonOperator +:+ "-" +:+ Period +:+ "-" +:+ Statistic in
  ret {| ac_AlarmName := AlarmName; ac_MetricName := MetricName;
         ac_ComparisonOperator := ComparisonOperator; ac_Period := Period;
         ac_Threshold := tag_Value tag; ac_Statistic := Statistic;
         ac_Namespace := Namespace; ac_Dimensions := total_dimensions |}.

(** *** Access to [default_alarms] *)

(** [default_alarms[ns].append(tag)] *)
Definition append_tag (ns : string) (tag : Tag) : M unit :=
  fun st =>
    match default_alarms st !! ns with
    | None => (Raise KeyError, st)
    | Some (TagList l) =>
        (Ok tt, with_default_alarms st (<[ns := TagList (l ++ [tag])]> (default_alarms st)))
    | Some (PerPlatform _) => (Raise AttributeError, st)
    end.

(** [default_alarms[ns][platform].append(tag)] *)
Definition append_platform_tag (ns : string) (platform : option string) (tag : Tag) : M unit :=
  fun st =>
    match default_alarms st !! ns with
    | None => (Raise KeyError, st)
    | Some (TagList _) => (Raise TypeError, st)
    | Some (PerPlatform m) =>
        match m !! platform with
        | None => (Raise KeyError, st)
        | Some l =>
            (Ok tt,
             with_default_alarms st
               (<[ns := PerPlatform (<[platform := l ++ [tag]]> m)]> (default_alarms st)))
        end
    end.

(** The tags [for tag in default_alarms[ns]] runs over. Over a dict the
    loop would run over its keys, and [tag['Key']], the first thing the body
    evaluates, raises [TypeError] on a key. *)
Definition tags_of (ns : string) : M (list Tag) :=
  fun st =>
    match default_alarms st !! ns with
    | None => (Raise KeyError, st)
    | Some (TagList l) => (Ok l, st)
    | Some (PerPlatform m) =>
        if decide (m = ∅) then (Ok [], st) else (Raise TypeError, st)
    end.

(** The tags [for tag in default_alarms[ns][platform]] runs over. *)
Definition platform_tags_of (ns : string) (platform : option string) : M (list Tag) :=
  fun st =>
    match default_alarms st !! ns with
    | None => (Raise KeyError, st)
    | Some (TagList _) => (Raise TypeError, st)
    | Some (PerPlatform m) =>
        match m !! platform with
        | None => (Raise KeyError, st)
        | Some l => (Ok l, st)
        end
    end.

Section Actions.

(** The services behind [boto3_client('ec2')] and
    [boto3_client('cloudwatch')]. *)
Variable client : Boto3.Client.

Definition call_describe_images (ImageIds : list string) : M Boto3.ImagesResponse :=
  fun st =>
    (Boto3.describe_images client (calls st) ImageIds,
     with_calls st (calls st ++ [Boto3.DescribeImages ImageIds])).

Definition call_put_metric_alarm (alarm : Alarm) : M unit :=
  fun st =>
    (Boto3.put_metric_alarm client (calls st) alarm,
     with_calls st (calls st ++ [Boto3.PutMetricAlarm alarm])).

Definition call_describe_alarms (AlarmNamePrefix : string) : M Boto3.AlarmsResponse :=
  fun st =>
    (Boto3.describe_alarms client (calls st) AlarmNamePrefix,
     with_calls st (calls st ++ [Boto3.DescribeAlarms AlarmNamePrefix])).

Definition call_delete_alarms (AlarmNames : list string) : M unit :=
  fun st =>
    (Boto3.delete_alarms client (calls st) AlarmNames,
     with_calls st (calls st ++ [Boto3.DeleteAlarms AlarmNames])).

(** *** [create_alarm] *)

Definition alarm_of (AlarmName MetricName ComparisonOperator : string) (Period : PeriodArg)
    (Threshold : PyNum.PyFloat) (Statistic Namespace : string)
    (Dimensions : list Dimension) (sns_topic_arn : option string) : Alarm :=
  {| AlarmName := AlarmName;
     AlarmDescription := "Alarm created by lambda function CloudWatchAutoAlarms";
     MetricName := MetricName;
     Namespace := Namespace;
     Dimensions := Dimensions;
     Period := Period;
     EvaluationPeriods := 1;
     Threshold := Threshold;
     ComparisonOperator := ComparisonOperator;
     Statistic := Statistic;
     AlarmActions := option_map (fun arn => [arn]) sns_topic_arn |}.

Definition create_alarm (AlarmName MetricName ComparisonOperator Period Threshold
    Statistic Namespace : string) (Dimensions : list Dimension)
    (sns_topic_arn : option string) : M unit :=
  Period' <-
    try_except
      (seconds <- convert_to_seconds Period ;; ret (PeriodSeconds seconds))
      (fun e =>
         log ERROR (ErrorConvertingPeriod Period AlarmName e) ;;
         ret (PeriodText Period)) ;;
  Threshold' <-
    match PyNum.float Threshold with
    | Some x => ret x
    | None => raise ValueError
    end ;;
  try_except
    (let alarm :=
       alarm_of AlarmName MetricName ComparisonOperator Period' Threshold' Statistic
         Namespace Dimensions sns_topic_arn in
     call_put_metric_alarm alarm ;;
     log INFO (CreatedAlarm AlarmName))
    (fun e => log ERROR (ErrorCreatingAlarm AlarmName e)).

Definition call_create_alarm (a : AlarmCall) (sns_topic_arn : option string) : M unit :=
  create_alarm (ac_AlarmName a) (ac_MetricName a) (ac_ComparisonOperator a) (ac_Period a)
    (ac_Threshold a) (ac_Statistic a) (ac_Namespace a) (ac_Dimensions a) sns_topic_arn.

(** *** [determine_platform] *)

(** What [determine_platform] does with the response of [describe_images]. *)
Definition classify_image (image_info : Boto3.ImagesResponse) : M (option string) :=
  match Boto3.Images image_info with
  | Some (image :: _) =>
      platform_details <- getitem (Boto3.PlatformDetails image) ;;
      log DEBUG (PlatformDetailsOfImage platform_details) ;;
      if PyStr.contains "Windows" platform_details
         || PyStr.contains "SQL Server" platform_details then ret (Some "Windows")
      else if PyStr.contains "Red Hat" platform_details then ret (Some "Red Hat")
      else if PyStr.contains "SUSE" platform_details then ret (Some "SUSE")
      else if PyStr.contains "Linux/UNIX" platform_details then
        description <- getitem (Boto3.Description image) ;;
        if PyStr.contains "ubuntu" (PyStr.lower description) then ret (Some "Ubuntu")
        else
          name <- getitem (Boto3.Name image) ;;
          if PyStr.contains "ubuntu" (PyStr.lower name) then ret (Some "Ubuntu")
          else ret (Some "Amazon Linux")
      else ret None
  | _ => ret None
  end.

Definition determine_platform (imageid : string) : M (option string) :=
  try_except
    (image_info <- call_describe_images [imageid] ;;
     classify_image image_info)
    (fun e => log ERROR (FailureDescribingImage imageid e) ;; raise e).

(** *** [process_lambda_alarms] *)

(** [tags] is the dict of the function's tags, in its iteration order;
    [default_alarms] is the dict of the state. *)
Definition process_lambda_alarms (function_name : string) (tags : list (string * string))
    (activation_tag : string) (sns_topic_arn : option string) : M PyRet :=
  let activation_tag := default "not_found" (dict_get tags activation_tag) in
  if String.eqb activation_tag "not_found" then
    log DEBUG (ActivationTagNotFound function_name) ;;
    ret PyTrue
  else
    log DEBUG ProcessingFunctionAlarms ;;
    for_each (map fst tags) (fun tag_key =>
      if PyStr.startswith tag_key "AutoAlarm" then
        value <- getitem (dict_get tags tag_key) ;;
        append_tag "AWS/Lambda" {| tag_Key := tag_key; tag_Value := value |}
      else ret tt) ;;
    let dimensions := [{| dim_Name := "FunctionName"; dim_Value := function_name |}] in
    lambda_tags <- tags_of "AWS/Lambda" ;;
    for_each lambda_tags (fun tag =>
      a <- lift (lambda_alarm_args function_name dimensions tag) ;;
      call_create_alarm a sns_topic_arn) ;;
    ret PyNone.

(** *** [process_alarm_tags] *)

(** The first loop: the instance's alarm tags are added to [default_alarms]. *)
Definition collect_instance_tags (instance_tags : list Tag) (platform : option string)
    (cw_namespace : string) : M unit :=
  for_each instance_tags (fun instance_tag =>
    if PyStr.startswith (tag_Key instance_tag) "AutoAlarm" then
      let custom_alarm_properties := PyStr.split "-" (tag_Key instance_tag) in
      custom_alarm_namespace <- index custom_alarm_properties 1 ;;
      if PyStr.startswith custom_alarm_namespace "AWS/EC2" then
        append_tag custom_alarm_namespace instance_tag
      else if String.eqb custom_alarm_namespace cw_namespace then
        append_platform_tag custom_alarm_namespace platform instance_tag
      else ret tt
    else ret tt).

(** The default dimensions for ['AWS/EC2']: a name without a (truthy) value
    is left out. *)
Fixpoint static_dimensions (instance_info : InstanceInfo) (dimension_names : list string)
    : list Dimension :=
  match dimension_names with
  | [] => []
  | dim :: rest =>
      match info_get instance_info dim with
      | Some dimension_value =>
          if truthy_value dimension_value
          then {| dim_Name := dim; dim_Value := dimension_value |}
               :: static_dimensions instance_info rest
          else static_dimensions instance_info rest
      | None => static_dimensions instance_info rest
      end
  end.

(** [next((tag['Value'] for tag in instance_tags if tag['Key'] == key), None)] *)
Fixpoint first_tag_value (instance_tags : list Tag) (key : string) : option string :=
  match instance_tags with
  | [] => None
  | tag :: rest =>
      if String.eqb (tag_Key tag) key then Some (tag_Value tag)
      else first_tag_value rest key
  end.

Definition is_truthy (o : option string) : option string :=
  match o with
  | Some v => if PyStr.truthy v then Some v else None
  | None => None
  end.

(** The same test on a value of [instance_info]. *)
Definition is_truthy_value (o : option PyVal) : option PyVal :=
  match o with
  | Some v => if truthy_value v then Some v else None
  | None => None
  end.

(** The loop that builds [cw_agent_dimensions], which it carries. *)
Fixpoint agent_dimensions (instance_id : string) (instance_info : InstanceInfo)
    (instance_tags : list Tag) (dimension_names : list string)
    (cw_agent_dimensions : list Dimension) : M (list Dimension) :=
  match dimension_names with
  | [] => ret cw_agent_dimensions
  | dimension_name :: rest =>
      if String.eqb dimension_name "AutoScalingGroupName" then
        match is_truthy (first_tag_value instance_tags "aws:autoscaling:groupName") with
        | Some instance_asg =>
            agent_dimensions instance_id instance_info instance_tags rest
              (cw_agent_dimensions
                 ++ [{| dim_Name := dimension_name; dim_Value := instance_asg |}])
        | None =>
            agent_dimensions instance_id instance_info instance_tags rest
              cw_agent_dimensions
        end
      else
        match is_truthy_value (info_get instance_info dimension_name) with
        | Some dimension_value =>
            agent_dimensions instance_id instance_info instance_tags rest
              (cw_agent_dimensions
                 ++ [{| dim_Name := dimension_name; dim_Value := dimension_value |}])
        | None =>
            log WARNING (DimensionWithoutValue dimension_name instance_id) ;;
            agent_dimensions instance_id instance_info instance_tags rest
              cw_agent_dimensions
        end
  end.

(** The loop over [default_alarms['AWS/EC2']]. *)
Definition ec2_loop (instance_id : string) (dimensions : list Dimension)
    (sns_topic_arn : option string) (tags : list Tag) : M unit :=
  for_each tags (fun tag =>
    a <- lift (ec2_alarm_args instance_id dimensions tag) ;;
    call_create_alarm a sns_topic_arn).

(** The loop over [default_alarms[cw_namespace][platform]]. *)
Definition agent_loop (instance_id : string) (cw_agent_dimensions : list Dimension)
    (sns_topic_arn : option string) (tags : list Tag) : M unit :=
  for_each tags (fun tag =>
    a <- agent_alarm_args instance_id cw_agent_dimensions tag ;;
    call_create_alarm a sns_topic_arn).

Definition process_alarm_tags (instance_id : string) (instance_info : InstanceInfo)
    (metric_dimensions_map : gmap string (list string))
    (sns_topic_arn : option string) (cw_namespace : string) : M PyRet :=
  instance_tags <- getitem (info_Tags instance_info) ;;
  ImageId <- getitem (dict_get (info_attrs instance_info) "ImageId") ;;
  log INFO (ImageIdIs ImageId) ;;
  platform <- determine_platform ImageId ;;
  log INFO (PlatformIs platform) ;;
  collect_instance_tags instance_tags platform cw_namespace ;;
  let dimension_names := default [] (metric_dimensions_map !! "AWS/EC2") in
  let dimensions := static_dimensions instance_info dimension_names in
  ec2_tags <- tags_of "AWS/EC2" ;;
  ec2_loop instance_id dimensions sns_topic_arn ec2_tags ;;
  cw_agent_dimensions <-
    agent_dimensions instance_id instance_info instance_tags
      (default [] (metric_dimensions_map !! cw_namespace)) [] ;;
  log DEBUG (CwagentDimensions cw_agent_dimensions) ;;
  agent_tags <- platform_tags_of cw_namespace platform ;;
  agent_loop instance_id cw_agent_dimensions sns_topic_arn agent_tags ;;
  ret PyNone.

(** *** [delete_alarms] *)

(** [for alarm in response['MetricAlarms']: alarm_list.append(alarm['AlarmName'])] *)
Fixpoint alarm_names (alarms : list Boto3.MetricAlarm) (alarm_list : list string)
    : M (list string) :=
  match alarms with
  | [] => ret alarm_list
  | alarm :: rest =>
      alarm_name <- getitem (Boto3.MetricAlarmName alarm) ;;
      alarm_names rest (alarm_list ++ [alarm_name])
  end.

Definition delete_alarms (name : string) : M PyRet :=
  try_except
    (let AlarmNamePrefix := "AutoAlarm-" +:+ name in
     log INFO (CallingDescribeAlarms AlarmNamePrefix) ;;
     response <- call_describe_alarms AlarmNamePrefix ;;
     log INFO ResponseFromDescribeAlarms ;;
     alarm_list <-
       match Boto3.MetricAlarms response with
       | Some alarms => alarm_names alarms []
       | None => ret []
       end ;;
     log INFO (DeletingAlarms alarm_list name) ;;
     call_delete_alarms alarm_list ;;
     ret PyTrue)
    (fun e => log ERROR (ErrorDeletingAlarms name e) ;; ret PyNone).

End Actions.

(** ** Vocabulary of the statements *)

(** A token of a tag key: it holds no dash. *)
Definition dash_free (t : string) : Prop := PyStr.free_of "-" t = true.

(** The tokens of a run of dimension pairs, and the dimensions they denote. *)
Definition pair_tokens (pairs : list (string * string)) : list string :=
  flat_map (fun p => [fst p; snd p]) pairs.

Definition dimensions_of (pairs : list (string * string)) : list Dimension :=
  map (fun p : string * string => {| dim_Name := fst p; dim_Value := snd p |}) pairs.

(** The names of the alarms put, in call order. *)
Fixpoint put_names (cs : list Boto3.Call) : list string :=
  match cs with
  | [] => []
  | Boto3.PutMetricAlarm alarm :: cs' => AlarmName alarm :: put_names cs'
  | _ :: cs' => put_names cs'
  end.

(** What [create_alarm] passes on as ['Period']. *)
Definition period_arg (Period : string) : PeriodArg :=
  match seconds_of Period with
  | Ok seconds => PeriodSeconds seconds
  | Raise _ => PeriodText Period
  end.

(** What [create_alarm] logs about the period. *)
Definition period_logs (Period AlarmName : string) : list (Level * LogMsg) :=
  match seconds_of Period with
  | Ok _ => []
  | Raise e =>
      [(ERROR, ErrorConvertingThresholdString Period);
       (ERROR, ErrorConvertingPeriod Period AlarmName e)]
  end.

(** The alarm [create_alarm] puts for the arguments [a], once the threshold
    has been read as [x]. *)
Definition alarm_for (a : AlarmCall) (x : PyNum.PyFloat) (sns_topic_arn : option string)
    : Alarm :=
  alarm_of (ac_AlarmName a) (ac_MetricName a) (ac_ComparisonOperator a)
    (period_arg (ac_Period a)) x (ac_Statistic a) (ac_Namespace a) (ac_Dimensions a)
    sns_topic_arn.

(** The period has a magnitude [int] does not read, or a unit that is none
    of [s], [m], [h], [d], [w]. *)
Definition period_malformed (Period : string) : Prop :=
  PyNum.int (but_last Period) = None \/
  (exists u, last_char Period = Some u /\ seconds_per_unit u = None).

(** The alarm the ['AWS/EC2'] loop puts for a tag: the key has its six
    fields and the value is a threshold [float] reads. *)
Definition ec2_alarm_of (instance_id : string) (dimensions : list Dimension)
    (sns_topic_arn : option string) (tag : Tag) (alarm : Alarm) : Prop :=
  exists a x,
    ec2_alarm_args instance_id dimensions tag = Ok a /\
    PyNum.float (ac_Threshold a) = Some x /\
    alarm = alarm_for a x sns_topic_arn.

(** [PlatformDetails] names Windows or SQL Server: the first rule of
    [determine_platform]. *)
Definition is_windows (platform_details : string) : bool :=
  PyStr.contains "Windows" platform_details || PyStr.contains "SQL Server" platform_details.

(** The entries of a [describe_alarms] response for the given names. *)
Definition listed (names : list string) : list Boto3.MetricAlarm :=
  map (fun n => {| Boto3.MetricAlarmName := Some n |}) names.

(** A computation that leaves [default_alarms] as it found it, whether it
    returns or raises. *)
Definition keeps_defaults {A} (m : M A) : Prop :=
  forall st, default_alarms (snd (m st)) = default_alarms st.

(** The alarm tags of a function, in the order of its tags. *)
Definition function_alarm_tags (tags : list (string * string)) : list Tag :=
  flat_map
    (fun kv =>
       if PyStr.startswith (fst kv) "AutoAlarm"
       then [{| tag_Key := fst kv; tag_Value := snd kv |}] else [])
    tags.

(** The namespace token of an alarm tag of an instance, when the key has
    one. *)
Definition custom_namespace (tag : Tag) : option string :=
  if PyStr.startswith (tag_Key tag) "AutoAlarm"
  then nth_error (PyStr.split "-" (tag_Key tag)) 1
  else None.

(** The instance tags that [process_alarm_tags] files under the namespace
    [ns]. *)
Definition instance_alarm_tags (ns : string) (instance_tags : list Tag) : list Tag :=
  filter (fun tag => custom_namespace tag = Some ns) instance_tags.

(** Every alarm tag of the instance has a namespace token, and it is
    ['AWS/EC2'], the agent namespace, or one the first loop passes over. *)
Definition namespaces_known (cw_namespace : string) (instance_tags : list Tag) : Prop :=
  Forall
    (fun tag =>
       PyStr.startswith (tag_Key tag) "AutoAlarm" = true ->
       exists ns,
         custom_namespace tag = Some ns /\
         (ns = "AWS/EC2" \/ ns = cw_namespace \/ PyStr.startswith ns "AWS/EC2" = false))
    instance_tags.

(** ** Services, resources and states to run the module on *)

(** Services that answer the same whatever was called before. *)
Definition fixed_client (images : Result Boto3.ImagesResponse)
    (put : Alarm -> Result unit) (listing : string -> Result Boto3.AlarmsResponse)
    (deletion : list string -> Result unit) : Boto3.Client :=
  {| Boto3.describe_images := fun _ _ => images;
     Boto3.put_metric_alarm := fun _ alarm => put alarm;
     Boto3.describe_alarms := fun _ prefix => listing prefix;
     Boto3.delete_alarms := fun _ names => deletion names |}.

Definition one_image (platform_details description name : string) : Result Boto3.ImagesResponse :=
  Ok {| Boto3.Images :=
          Some [{| Boto3.PlatformDetails := Some platform_details;
                   Boto3.Description := Some description;
                   Boto3.Name := Some name |}] |}.

(** An account with one Amazon Linux image, an alarm store that accepts
    every alarm and holds the given alarm names. *)
Definition linux_account (stored : list string) : Boto3.Client :=
  fixed_client (one_image "Linux/UNIX" "Amazon Linux 2 AMI" "amzn2-ami-hvm")
    (fun _ => Ok tt)
    (fun prefix =>
       Ok {| Boto3.MetricAlarms :=
               Some (map (fun n => {| Boto3.MetricAlarmName := Some n |})
                       (filter (fun n => Is_true (PyStr.startswith n prefix)) stored)) |})
    (fun _ => Ok tt).

(** The same account with an alarm store that rejects every alarm. *)
Definition rejecting_account : Boto3.Client :=
  fixed_client (one_image "Linux/UNIX" "Amazon Linux 2 AMI" "amzn2-ami-hvm")
    (fun _ => Raise (ClientError "LimitExceeded"))
    (fun _ => Ok {| Boto3.MetricAlarms := Some [] |})
    (fun _ => Ok tt).

(** An account whose only image is Red Hat Enterprise Linux with SQL Server. *)
Definition rhel_sql_account : Boto3.Client :=
  fixed_client
    (one_image "Red Hat Enterprise Linux with SQL Server Standard" "RHEL 8 with SQL Server"
       "RHEL-8.4-SQL-2019-Standard")
    (fun _ => Ok tt)
    (fun _ => Ok {| Boto3.MetricAlarms := Some [] |})
    (fun _ => Ok tt).

Definition initial_state (d : gmap string AlarmSet) : State :=
  {| calls := []; logs := []; default_alarms := d |}.

Definition cpu_tag : Tag :=
  {| tag_Key := "AutoAlarm-AWS/EC2-CPUUtilization-GreaterThanThreshold-5m-Average";
     tag_Value := "80" |}.

Definition status_tag : Tag :=
  {| tag_Key := "AutoAlarm-AWS/EC2-StatusCheckFailed-GreaterThanThreshold-5m-Maximum";
     tag_Value := "0" |}.

Definition disk_tag : Tag :=
  {| tag_Key :=
       "AutoAlarm-CWAgent-disk_used_percent-device-xvda1-fstype-xfs-path-/-GreaterThanThreshold-5m-Average";
     tag_Value := "90" |}.

(** An agent-namespace tag whose comparator is misspelt. *)
Definition misspelt_tag : Tag :=
  {| tag_Key := "AutoAlarm-CWAgent-mem_used_percent-GreaterThan-5m-Average";
     tag_Value := "20" |}.

Definition errors_tag : Tag :=
  {| tag_Key := "AutoAlarm-AWS/Lambda-Errors-GreaterThanThreshold-5m-Sum"; tag_Value := "1" |}.

(** A function with the activation tag and one alarm tag of its own. *)
Definition function_tags : list (string * string) :=
  [("Create_Auto_Alarms", "true");
   ("AutoAlarm-AWS/Lambda-Errors-GreaterThanThreshold-5m-Sum", "1")].

(** A web server with no alarm tag of its own. *)
Definition web_server : InstanceInfo :=
  {| info_Tags := Some [{| tag_Key := "Name"; tag_Value := "web" |}];
     info_attrs := [("ImageId", "ami-1"); ("InstanceId", "i-1")];
     info_objects := [] |}.

(** An instance with an alarm tag of its own, and another without. *)
Definition tagged_server : InstanceInfo :=
  {| info_Tags := Some [{| tag_Key := "Name"; tag_Value := "db" |}; status_tag];
     info_attrs := [("ImageId", "ami-1"); ("InstanceId", "i-2")];
     info_objects := [] |}.

Definition ec2_dimension_map : gmap string (list string) :=
  <["AWS/EC2" := ["InstanceId"] ]> ∅.

(** The [default_alarms] of a deployment: the given lists for ['AWS/EC2']
    and for the Amazon Linux bucket of the agent namespace ['CWAgent']. *)
Definition defaults (ec2 agent : list Tag) : gmap string AlarmSet :=
  <["AWS/EC2" := TagList ec2 ]>
    (<["CWAgent" := PerPlatform (<[Some "Amazon Linux" := agent ]> ∅) ]> ∅).

(** ** Vocabulary of the further properties *)

(** [str(n)] for an integer: its decimal digits, after a minus sign when it
    is negative. *)
Definition str_of_nat (n : nat) : string := NilEmpty.string_of_uint (Nat.to_uint n).

Definition str_of_Z (z : Z) : string :=
  (if (z <? 0)%Z then "-" else "") +:+ str_of_nat (Z.abs_nat z).


(** Every call a computation makes satisfies [P]. *)
Definition calls_only {A} (P : Boto3.Call -> Prop) (m : M A) : Prop :=
  forall st, exists new, calls (snd (m st)) = calls st ++ new /\ Forall P new.

(** The call puts an alarm of the resource: its name starts with
    [AutoAlarm-<resource>-], it is evaluated over one period, and it
    notifies the configured topic, if any, and nothing else. *)
Definition puts_alarm_of (resource : string) (sns_topic_arn : option string)
    (c : Boto3.Call) : Prop :=
  exists alarm,
    c = Boto3.PutMetricAlarm alarm /\
    PyStr.startswith (AlarmName alarm) ("AutoAlarm-" +:+ resource +:+ "-") = true /\
    EvaluationPeriods alarm = 1%Z /\
    AlarmActions alarm = option_map (fun arn => [arn]) sns_topic_arn.


(** Every value a computation returns satisfies [Q]. *)
Definition returns_only {A} (Q : A -> Prop) (m : M A) : Prop :=
  forall st a st', m st = (Ok a, st') -> Q a.


(** An account whose alarm store cannot be listed. *)
Definition unlistable_account : Boto3.Client :=
  fixed_client (one_image "Linux/UNIX" "Amazon Linux 2 AMI" "amzn2-ami-hvm")
    (fun _ => Ok tt)
    (fun _ => Raise (ClientError "AccessDenied"))
    (fun _ => Ok tt).

(** An account whose alarm store lists its alarms but refuses to delete. *)
Definition undeletable_account (stored : list string) : Boto3.Client :=
  fixed_client (one_image "Linux/UNIX" "Amazon Linux 2 AMI" "amzn2-ami-hvm")
    (fun _ => Ok tt)
    (fun prefix =>
       Ok {| Boto3.MetricAlarms :=
               Some (listed (filter (fun n => Is_true (PyStr.startswith n prefix)) stored)) |})
    (fun _ => Raise (ClientError "AccessDenied")).


(** The platforms [determine_platform] knows. *)
Definition known_platforms : list string :=
  ["Windows"; "Red Hat"; "SUSE"; "Ubuntu"; "Amazon Linux"].

(** An account whose images cannot be described. *)
Definition imageless_account : Boto3.Client :=
  fixed_client (Raise (ClientError "InvalidAMIID.NotFound"))
    (fun _ => Ok tt)
    (fun _ => Ok {| Boto3.MetricAlarms := Some [] |})
    (fun _ => Ok tt).

(** An account whose image has the given details and name but no
    description. *)
Definition undescribed_image_account (platform_details name : string) : Boto3.Client :=
  fixed_client
    (Ok {| Boto3.Images :=
             Some [{| Boto3.PlatformDetails := Some platform_details;
                      Boto3.Description := None;
                      Boto3.Name := Some name |}] |})
    (fun _ => Ok tt)
    (fun _ => Ok {| Boto3.MetricAlarms := Some [] |})
    (fun _ => Ok tt).


(** The alarm a loop puts for a tag, when the body of the loop builds the
    arguments [a] of [create_alarm] from the tag without touching the state
    and the value of the tag is a threshold [float] reads. *)
Definition built_alarm (body : Tag -> M AlarmCall) (sns_topic_arn : option string)
    (tag : Tag) (alarm : Alarm) : Prop :=
  exists a x,
    (forall st, body tag st = (Ok a, st)) /\
    PyNum.float (ac_Threshold a) = Some x /\
    alarm = alarm_for a x sns_topic_arn.

(** The alarm [process_lambda_alarms] puts for a tag. *)
Definition lambda_alarm_of (function_name : string) (sns_topic_arn : option string)
    (tag : Tag) (alarm : Alarm) : Prop :=
  exists a x,
    lambda_alarm_args function_name
      [{| dim_Name := "FunctionName"; dim_Value := function_name |}] tag = Ok a /\
    PyNum.float (ac_Threshold a) = Some x /\
    alarm = alarm_for a x sns_topic_arn.

(** The alarm the agent loop of [process_alarm_tags] puts for a tag. *)
Definition agent_alarm_of (instance_id : string) (cw_agent_dimensions : list Dimension)
    (sns_topic_arn : option string) (tag : Tag) (alarm : Alarm) : Prop :=
  built_alarm (agent_alarm_args instance_id cw_agent_dimensions) sns_topic_arn tag alarm.

(** A function whose only tag is the activation tag. *)
Definition plain_function_tags : list (string * string) := [("Create_Auto_Alarms", "true")].


(** An account whose image matches none of the platform rules. *)
Definition bsd_account : Boto3.Client :=
  fixed_client (one_image "FreeBSD" "FreeBSD 13" "freebsd-13")
    (fun _ => Ok tt)
    (fun _ => Ok {| Boto3.MetricAlarms := Some [] |})
    (fun _ => Ok tt).

(** A database server in an autoscaling group, with an EC2 alarm tag and an
    agent alarm tag of its own. *)
Definition db_server : InstanceInfo :=
  {| info_Tags :=
       Some [{| tag_Key := "aws:autoscaling:groupName"; tag_Value := "db-asg" |};
             status_tag;
             {| tag_Key := "AutoAlarm-CWAgent-mem_used_percent-GreaterThanThreshold-5m-Average";
                tag_Value := "75" |}];
     info_attrs := [("ImageId", "ami-1"); ("InstanceId", "i-3"); ("InstanceType", "")];
     info_objects := [] |}.

Definition agent_dimension_map : gmap string (list string) :=
  <["CWAgent" := ["InstanceId"; "AutoScalingGroupName"; "InstanceType"] ]>
    (<["AWS/EC2" := ["InstanceId"] ]> ∅).


(** The value [process_alarm_tags] resolves an agent dimension name to: the
    autoscaling group from the instance's tags, any other name from
    [instance_info]. *)
Definition agent_dimension_value (instance_info : InstanceInfo) (instance_tags : list Tag)
    (dimension_name : string) : option PyVal :=
  if String.eqb dimension_name "AutoScalingGroupName"
  then option_map VStr (first_tag_value instance_tags "aws:autoscaling:groupName")
  else info_get instance_info dimension_name.

(** The configured names the agent loop warns about: those, other than the
    autoscaling group, for which the instance has no value or one that
    counts as false. *)
Definition unresolved_names (instance_info : InstanceInfo) (dimension_names : list string)
    : list string :=
  List.filter
    (fun n =>
       negb (String.eqb n "AutoScalingGroupName")
       && match is_truthy_value (info_get instance_info n) with
          | Some _ => false
          | None => true
          end)
    dimension_names.


(** ** [check_alarm_tag] and the EC2 client

    [check_alarm_tag] shares nothing with the functions above but the
    logger: it has a client, a log and a state of its own. *)

Module Ec2.

(** A reservation of a [describe_instances] response; the field is [None]
    when the dict lacks the key. *)
Record Reservation := { Instances : option (list InstanceInfo) }.

Record InstancesResponse := { Reservations : option (list Reservation) }.

(** The calls [check_alarm_tag] makes: [describe_instances] with the values
    of its one filter, named ['tag-key'], and [create_tags]. *)
Inductive Call :=
| DescribeInstances (tag_key_values : list string) (InstanceIds : list string)
| CreateTags (Resources : list string) (Tags : list Tag).

(** The answers of the service, each of which may depend on the calls made
    before it. A [Raise] stands for any exception of the call, the
    construction of the client by [boto3_client] included (it sits in the
    same [try]). *)
Record Client := {
  describe_instances : list Call -> list string -> list string -> Result InstancesResponse;
  create_tags : list Call -> list string -> list Tag -> Result unit
}.

Inductive LogMsg :=
| FailureDescribingInstance (instance_id tag_key : string) (e : PyExc).

Record State := {
  calls : list Call;
  logs : list (Level * LogMsg)
}.

(** What [check_alarm_tag] returns: the instance, or [False]. *)
Inductive Answer :=
| Instance (instance : InstanceInfo)
| PyFalse.

Section CheckAlarmTag.

Variable client : Client.

(** [str(datetime.utcnow())] as read when the tag is written. *)
Variable utcnow : string.

(** The handler of the function's [try]: the error is logged and raised
    again. *)
Definition log_and_reraise (instance_id tag_key : string) (e : PyExc) (st : State)
    : Result Answer * State :=
  (Raise e,
   {| calls := calls st;
      logs := logs st ++ [(ERROR, FailureDescribingInstance instance_id tag_key e)] |}).

Definition check_alarm_tag (instance_id tag_key : string) (st : State)
    : Result Answer * State :=
  let st1 := {| calls := calls st ++ [DescribeInstances [tag_key] [instance_id]];
                logs := logs st |} in
  match describe_instances client (calls st) [tag_key] [instance_id] with
  | Raise e => log_and_reraise instance_id tag_key e st1
  | Ok instance =>
      match Reservations instance with
      | Some (reservation :: _) =>
          match Instances reservation with
          | None => log_and_reraise instance_id tag_key KeyError st1
          | Some (first :: _) =>
              let tags := [{| tag_Key := tag_key; tag_Value := utcnow |}] in
              let st2 := {| calls := calls st1 ++ [CreateTags [instance_id] tags];
                            logs := logs st1 |} in
              match create_tags client (calls st1) [instance_id] tags with
              | Raise e => log_and_reraise instance_id tag_key e st2
              | Ok _ => (Ok (Instance first), st2)
              end
          | Some [] => (Ok PyFalse, st1)
          end
      | Some [] | None => (Ok PyFalse, st1)
      end
  end.

End CheckAlarmTag.

(** The instance [check_alarm_tag] looks at in a response: the first of the
    first reservation. *)
Definition first_instance (response : InstancesResponse) : option InstanceInfo :=
  match Reservations response with
  | Some (reservation :: _) =>
      match Instances reservation with
      | Some (first :: _) => Some first
      | _ => None
      end
  | _ => None
  end.

(** The first reservation of the response has no ['Instances']. *)
Definition without_instances (response : InstancesResponse) : Prop :=
  exists reservation others,
    Reservations response = Some (reservation :: others) /\
    Instances reservation = None.

End Ec2.


(** * Properties *)

(** ** The string and number primitives on examples *)

Example split_key :
  PyStr.split "-" "AutoAlarm-AWS/EC2-CPUUtilization-GreaterThanThreshold-5m-Average"
  = ["AutoAlarm"; "AWS/EC2"; "CPUUtilization"; "GreaterThanThreshold"; "5m"; "Average"].
Proof. reflexivity. Qed.

Example split_empty_fields : PyStr.split "-" "a--b-" = ["a"; ""; "b"; ""].
Proof. reflexivity. Qed.

Example int_examples :
  PyNum.int "300" = Some 300%Z /\ PyNum.int " -1_0 " = Some (-10)%Z /\
  PyNum.int "" = None /\ PyNum.int "1__0" = None /\ PyNum.int "5x" = None.
Proof. repeat split; reflexivity. Qed.

Example convert_to_seconds_examples :
  seconds_of "5m" = Ok 300%Z /\ seconds_of "1h" = Ok 3600%Z /\
  seconds_of "2d" = Ok 172800%Z /\ seconds_of "1w" = Ok 604800%Z /\
  seconds_of "5x" = Raise KeyError /\ seconds_of "m" = Raise ValueError /\
  seconds_of "" = Raise ValueError /\ seconds_of "300" = Raise KeyError.
Proof. repeat split; reflexivity. Qed.

Example float_examples :
  PyNum.float "80" = Some (PyNum.FNum false 80 0) /\
  PyNum.float "-1.5e3" = Some (PyNum.FNum true 15 2) /\
  PyNum.float ".5" = Some (PyNum.FNum false 5 (-1)) /\
  PyNum.float "Infinity" = Some (PyNum.FInf false) /\
  PyNum.float "abc" = None /\ PyNum.float "1e" = None /\ PyNum.float "." = None.
Proof. repeat split; reflexivity. Qed.

(** ** Facts about splitting and joining *)

Section SplitJoin.

Lemma append_cons (c : ascii) (s t : string) : String c s +:+ t = String c (s +:+ t).
Proof. reflexivity. Qed.

Lemma append_empty (t : string) : "" +:+ t = t.
Proof. reflexivity. Qed.

Lemma append_assoc (s1 s2 s3 : string) : (s1 +:+ s2) +:+ s3 = s1 +:+ (s2 +:+ s3).
Proof.
  induction s1 as [|c s1 IH]; [reflexivity |].
  now rewrite !append_cons, IH.
Qed.

Lemma split_free (c : ascii) (t : string) :
  PyStr.free_of c t = true -> PyStr.split c t = [t].
Proof.
  induction t as [|d t IH]; simpl; [reflexivity |].
  intros [Hd Ht]%andb_prop.
  apply negb_true_iff in Hd. rewrite Hd, (IH Ht). reflexivity.
Qed.

Lemma split_field (c : ascii) (t s : string) :
  PyStr.free_of c t = true ->
  PyStr.split c (t +:+ String c s) = t :: PyStr.split c s.
Proof.
  induction t as [|d t IH].
  - intros _. rewrite append_empty. simpl. now rewrite Ascii.eqb_refl.
  - intros [Hd Ht]%andb_prop. rewrite append_cons. simpl.
    apply negb_true_iff in Hd. rewrite Hd, (IH Ht). reflexivity.
Qed.

(** A key put together from dash-free tokens splits back into them. *)
Lemma split_join (toks : list string) :
  toks <> [] ->
  Forall (fun t => PyStr.free_of "-" t = true) toks ->
  PyStr.split "-" (PyStr.join "-" toks) = toks.
Proof.
  induction toks as [|t toks IH]; [congruence |].
  intros _ Hall. inversion Hall as [|? ? Ht Hrest]; subst.
  destruct toks as [|t' toks].
  - simpl. now apply split_free.
  - change (PyStr.join "-" (t :: t' :: toks))
      with (t +:+ String "-" (PyStr.join "-" (t' :: toks))).
    rewrite (split_field _ _ _ Ht), IH; [reflexivity | congruence | assumption].
Qed.

Lemma join_cons (t : string) (toks : list string) :
  toks <> [] ->
  PyStr.join "-" (t :: toks) = t +:+ "-" +:+ PyStr.join "-" toks.
Proof. destruct toks; [congruence | reflexivity]. Qed.

Lemma join_snoc (toks : list string) (t : string) :
  toks <> [] ->
  PyStr.join "-" (toks ++ [t]) = PyStr.join "-" toks +:+ "-" +:+ t.
Proof.
  induction toks as [|u toks IH]; [congruence |]. intros _.
  destruct toks as [|u' toks]; [reflexivity |].
  change ((u :: u' :: toks) ++ [t]) with (u :: (u' :: toks) ++ [t]).
  rewrite join_cons by (simpl; congruence).
  rewrite IH by congruence.
  rewrite (join_cons u (u' :: toks)) by congruence.
  now rewrite !append_assoc.
Qed.

End SplitJoin.

(** ** The fixed-arity grammar and the alarm name *)

Lemma fixed_arity_split (prefix Namespace MetricName ComparisonOperator Period Statistic : string) :
  Forall dash_free [prefix; Namespace; MetricName; ComparisonOperator; Period; Statistic] ->
  PyStr.split "-"
    (PyStr.join "-" [prefix; Namespace; MetricName; ComparisonOperator; Period; Statistic])
  = [prefix; Namespace; MetricName; ComparisonOperator; Period; Statistic].
Proof. intros H. apply split_join; [congruence | exact H]. Qed.

(** C1, as the code has it. For a fixed-arity key
    [prefix-Namespace-MetricName-ComparisonOperator-Period-Statistic],
    [process_lambda_alarms] names the alarm
    [AutoAlarm-<function>-Namespace-MetricName-ComparisonOperator-Period-Statistic],
    while the ['AWS/EC2'] loop of [process_alarm_tags] names it
    [AutoAlarm-<instance>-Namespace-MetricName-ComparisonOperator-<tag value>-Period]:
    the threshold stands before the period. Both pass the five parsed
    fields on to [create_alarm] unchanged. *)
Theorem fixed_arity_alarm_names
    (resource_id prefix Namespace MetricName ComparisonOperator Period Statistic value : string)
    (dimensions : list Dimension) :
  Forall dash_free [prefix; Namespace; MetricName; ComparisonOperator; Period; Statistic] ->
  let tag :=
    {| tag_Key :=
         PyStr.join "-" [prefix; Namespace; MetricName; ComparisonOperator; Period; Statistic];
       tag_Value := value |} in
  lambda_alarm_args resource_id dimensions tag =
    Ok {| ac_AlarmName :=
            PyStr.join "-"
              ["AutoAlarm"; resource_id; Namespace; MetricName; ComparisonOperator; Period;
               Statistic];
          ac_MetricName := MetricName; ac_ComparisonOperator := ComparisonOperator;
          ac_Period := Period; ac_Threshold := value; ac_Statistic := Statistic;
          ac_Namespace := Namespace; ac_Dimensions := dimensions |}
  /\
  ec2_alarm_args resource_id dimensions tag =
    Ok {| ac_AlarmName :=
            PyStr.join "-"
              ["AutoAlarm"; resource_id; Namespace; MetricName; ComparisonOperator; value;
               Period];
          ac_MetricName := MetricName; ac_ComparisonOperator := ComparisonOperator;
          ac_Period := Period; ac_Threshold := value; ac_Statistic := Statistic;
          ac_Namespace := Namespace; ac_Dimensions := dimensions |}.
Proof.
  intros Htoks tag.
  unfold lambda_alarm_args, ec2_alarm_args, tag; cbn [tag_Key tag_Value].
  rewrite (fixed_arity_split _ _ _ _ _ _ Htoks).
  split; reflexivity.
Qed.

Lemma fixed_arity_alarm_names_witness :
  lambda_alarm_args "my-fn" []
    {| tag_Key := "AutoAlarm-AWS/Lambda-Errors-GreaterThanThreshold-5m-Sum"; tag_Value := "1" |}
  = Ok {| ac_AlarmName := "AutoAlarm-my-fn-AWS/Lambda-Errors-GreaterThanThreshold-5m-Sum";
          ac_MetricName := "Errors"; ac_ComparisonOperator := "GreaterThanThreshold";
          ac_Period := "5m"; ac_Threshold := "1"; ac_Statistic := "Sum";
          ac_Namespace := "AWS/Lambda"; ac_Dimensions := [] |}
  /\
  ec2_alarm_args "my-fn" []
    {| tag_Key := "AutoAlarm-AWS/Lambda-Errors-GreaterThanThreshold-5m-Sum"; tag_Value := "1" |}
  = Ok {| ac_AlarmName := "AutoAlarm-my-fn-AWS/Lambda-Errors-GreaterThanThreshold-1-5m";
          ac_MetricName := "Errors"; ac_ComparisonOperator := "GreaterThanThreshold";
          ac_Period := "5m"; ac_Threshold := "1"; ac_Statistic := "Sum";
          ac_Namespace := "AWS/Lambda"; ac_Dimensions := [] |}.
Proof.
  apply (fixed_arity_alarm_names "my-fn" "AutoAlarm" "AWS/Lambda" "Errors"
           "GreaterThanThreshold" "5m" "Sum" "1" []).
  repeat constructor.
Defined.

(** The ['AWS/EC2'] loop at work: the alarm of the CPU tag is named with the
    threshold before the period and without the statistic, not as the
    fixed-arity key reads. *)
Lemma ec2_alarm_name_counterexample :
  let run :=
    process_alarm_tags (linux_account []) "i-1" web_server ec2_dimension_map None "CWAgent"
      (initial_state (defaults [cpu_tag] [])) in
  fst run = Ok PyNone /\
  put_names (calls (snd run))
    = ["AutoAlarm-i-1-AWS/EC2-CPUUtilization-GreaterThanThreshold-80-5m"] /\
  put_names (calls (snd run))
    <> [PyStr.join "-"
          ["AutoAlarm"; "i-1"; "AWS/EC2"; "CPUUtilization"; "GreaterThanThreshold"; "5m";
           "Average"]].
Proof. vm_compute. repeat split; congruence. Qed.

(** ** The variable-arity grammar of the agent namespace *)

Section AgentGrammar.

Lemma find_comparator_first (dims rest : list string) (c : string) (i : nat) :
  Forall (fun t => is_comparator t = false) dims ->
  is_comparator c = true ->
  find_comparator (dims ++ c :: rest) i = Some (i + length dims).
Proof.
  intros Hdims Hc. revert i.
  induction Hdims as [|d dims Hd _ IH]; intros i; simpl.
  - rewrite Hc. f_equal. lia.
  - rewrite Hd, IH. f_equal. lia.
Qed.

Lemma find_comparator_none (props : list string) (i : nat) :
  Forall (fun t => is_comparator t = false) props ->
  find_comparator props i = None.
Proof.
  intros H. revert i. induction H as [|p props Hp _ IH]; intros i; simpl.
  - reflexivity.
  - now rewrite Hp.
Qed.

Lemma length_pair_tokens (pairs : list (string * string)) :
  length (pair_tokens pairs) = 2 * length pairs.
Proof. induction pairs as [|p pairs IH]; simpl; lia. Qed.

Lemma pair_tokens_app (p q : list (string * string)) :
  pair_tokens (p ++ q) = pair_tokens p ++ pair_tokens q.
Proof. unfold pair_tokens. apply flat_map_app. Qed.

(** The value of the pair that follows [pre] sits at index
    [2 * length pre + 1]. *)
Lemma nth_pair_value (pre pairs : list (string * string)) (n v : string) :
  nth_error (pair_tokens (pre ++ (n, v) :: pairs)) (length pre * 2 + 1) = Some v.
Proof.
  rewrite pair_tokens_app.
  rewrite nth_error_app2 by (rewrite length_pair_tokens; lia).
  rewrite length_pair_tokens.
  replace (length pre * 2 + 1 - 2 * length pre) with 1 by lia.
  reflexivity.
Qed.

(** The loop over the pairs: one dimension and two name fields per pair. *)
Lemma dimension_loop_pairs (pairs pre : list (string * string)) (toks : list string)
    (total : list Dimension) (off : nat) :
  toks <> [] ->
  dimension_loop (pair_tokens (pre ++ pairs)) (evens (pair_tokens pairs)) (length pre)
    (total, PyStr.join "-" toks, off)
  = Ok (total ++ dimensions_of pairs, PyStr.join "-" (toks ++ pair_tokens pairs),
        off + 2 * length pairs).
Proof.
  revert pre toks total off.
  induction pairs as [|[n v] pairs IH]; intros pre toks total off Htoks.
  - simpl. rewrite !app_nil_r. do 3 f_equal. lia.
  - change (evens (pair_tokens ((n, v) :: pairs))) with (n :: evens (pair_tokens pairs)).
    cbn [dimension_loop]. rewrite nth_pair_value.
    replace (pre ++ (n, v) :: pairs) with ((pre ++ [(n, v)]) ++ pairs)
      by now rewrite <- app_assoc.
    replace (S (length pre)) with (length (pre ++ [(n, v)]))
      by (rewrite length_app; simpl; lia).
    replace (PyStr.join "-" toks +:+ "-" +:+ n +:+ "-" +:+ v)
      with (PyStr.join "-" ((toks ++ [n]) ++ [v])).
    + rewrite IH by (destruct toks; simpl; congruence).
      do 2 f_equal; [f_equal |].
      * now rewrite <- app_assoc.
      * rewrite <- !app_assoc. reflexivity.
      * simpl. lia.
    + rewrite !join_snoc by (destruct toks; simpl; congruence).
      now rewrite !append_assoc.
Qed.

Lemma nth_error_suffix (dims suffix : list string) (i : nat) :
  nth_error (dims ++ suffix) (length dims + i) = nth_error suffix i.
Proof. rewrite nth_error_app2 by lia. f_equal. lia. Qed.

Lemma nth_error_key (p n m : string) (dims suffix : list string) (i : nat) :
  nth_error (p :: n :: m :: dims ++ suffix) (length dims + S (S (S i)))
  = nth_error suffix i.
Proof.
  replace (length dims + S (S (S i))) with (S (S (S (length dims + i)))) by lia.
  cbn [nth_error]. apply nth_error_suffix.
Qed.

End AgentGrammar.

(** C2. A key of the agent namespace whose tokens after
    [prefix; Namespace; MetricName] are [k] dimension name/value pairs (none
    of them a comparator, so that the scan stops at the comparator after
    them), a comparator and two more tokens: the scan of [process_alarm_tags]
    yields exactly the [k] pairs, in order, as dimensions after the agent's
    own, and the three suffix tokens as [ComparisonOperator], [Period] and
    [Statistic]; the name carries every token in key order. *)
Theorem agent_key_parse
    (instance_id prefix Namespace MetricName ComparisonOperator Period Statistic value : string)
    (pairs : list (string * string)) (cw_agent_dimensions : list Dimension) (st : State) :
  Forall dash_free
    (prefix :: Namespace :: MetricName
       :: pair_tokens pairs ++ [ComparisonOperator; Period; Statistic]) ->
  Forall (fun t => is_comparator t = false) (pair_tokens pairs) ->
  is_comparator ComparisonOperator = true ->
  agent_alarm_args instance_id cw_agent_dimensions
    {| tag_Key :=
         PyStr.join "-"
           (prefix :: Namespace :: MetricName
              :: pair_tokens pairs ++ [ComparisonOperator; Period; Statistic]);
       tag_Value := value |} st
  = (Ok {| ac_AlarmName :=
             PyStr.join "-"
               ("AutoAlarm" :: instance_id :: Namespace :: MetricName
                  :: pair_tokens pairs ++ [ComparisonOperator; Period; Statistic]);
           ac_MetricName := MetricName;
           ac_ComparisonOperator := ComparisonOperator;
           ac_Period := Period;
           ac_Threshold := value;
           ac_Statistic := Statistic;
           ac_Namespace := Namespace;
           ac_Dimensions := cw_agent_dimensions ++ dimensions_of pairs |},
     st).
Proof.
  intros Hfree Hdims Hcmp.
  unfold agent_alarm_args; cbn [tag_Key tag_Value].
  rewrite split_join by (congruence || exact Hfree).
  cbn [drop]. rewrite !drop_0, (find_comparator_first _ _ _ _ Hdims Hcmp).
  unfold bind, index, ret, lift; cbn [nth_error Nat.add Nat.sub].
  rewrite Nat.sub_0_r, take_app_length.
  change ("AutoAlarm-" +:+ instance_id +:+ "-" +:+ Namespace +:+ "-" +:+ MetricName)
    with (PyStr.join "-" ["AutoAlarm"; instance_id; Namespace; MetricName]).
  assert (Hloop :
    match pair_tokens pairs with
    | [] => Ok (cw_agent_dimensions,
                PyStr.join "-" ["AutoAlarm"; instance_id; Namespace; MetricName], 0)
    | _ :: _ =>
        dimension_loop (pair_tokens pairs) (evens (pair_tokens pairs)) 0
          (cw_agent_dimensions,
           PyStr.join "-" ["AutoAlarm"; instance_id; Namespace; MetricName], 0)
    end
    = Ok (cw_agent_dimensions ++ dimensions_of pairs,
          PyStr.join "-"
            (["AutoAlarm"; instance_id; Namespace; MetricName] ++ pair_tokens pairs),
          2 * length pairs)).
  { destruct pairs as [|p pairs'] eqn:E.
    - simpl. now rewrite app_nil_r.
    - rewrite <- E.
      destruct (pair_tokens pairs) eqn:Et; [subst; discriminate |]. rewrite <- Et.
      apply (dimension_loop_pairs pairs [] _ cw_agent_dimensions 0). congruence. }
  rewrite Hloop. clear Hloop.
  rewrite <- (length_pair_tokens pairs).
  rewrite !nth_error_key. cbn [nth_error].
  do 2 f_equal.
  replace ("AutoAlarm" :: instance_id :: Namespace :: MetricName
             :: pair_tokens pairs ++ [ComparisonOperator; Period; Statistic])
    with ((((["AutoAlarm"; instance_id; Namespace; MetricName] ++ pair_tokens pairs)
              ++ [ComparisonOperator]) ++ [Period]) ++ [Statistic])
    by (rewrite <- !app_assoc; reflexivity).
  rewrite !join_snoc by (simpl; congruence).
  now rewrite !append_assoc.
Qed.

Lemma agent_key_parse_witness :
  agent_alarm_args "i-1" []
    {| tag_Key :=
         "AutoAlarm-CWAgent-mem_used_percent-disk_device-xvda-GreaterThanThreshold-300-Average";
       tag_Value := "20" |} (initial_state ∅)
  = (Ok {| ac_AlarmName :=
             "AutoAlarm-i-1-CWAgent-mem_used_percent-disk_device-xvda-GreaterThanThreshold-300-Average";
           ac_MetricName := "mem_used_percent";
           ac_ComparisonOperator := "GreaterThanThreshold";
           ac_Period := "300";
           ac_Threshold := "20";
           ac_Statistic := "Average";
           ac_Namespace := "CWAgent";
           ac_Dimensions := [{| dim_Name := "disk_device"; dim_Value := "xvda" |}] |},
     initial_state ∅).
Proof.
  apply (agent_key_parse "i-1" "AutoAlarm" "CWAgent" "mem_used_percent"
           "GreaterThanThreshold" "300" "Average" "20" [("disk_device", "xvda")] []
           (initial_state ∅)).
  - repeat constructor.
  - repeat constructor.
  - reflexivity.
Defined.

(** An odd number of tokens before the comparator: the last one has no
    value to go with, and the loop over the pairs raises [IndexError]. *)
Example odd_dimension_tokens :
  fst (agent_alarm_args "i-1" []
         {| tag_Key := "AutoAlarm-CWAgent-disk_used_percent-device-GreaterThanThreshold-5m-Average";
            tag_Value := "90" |} (initial_state ∅))
  = Raise IndexError.
Proof. reflexivity. Qed.

(** ** Loops and what an exception does to them *)

Section Loops.

Context {A : Type}.

Lemma for_each_app (l1 l2 : list A) (body : A -> M unit) (st : State) :
  for_each (l1 ++ l2) body st =
  match for_each l1 body st with
  | (Ok _, st') => for_each l2 body st'
  | (Raise e, st') => (Raise e, st')
  end.
Proof.
  revert st. induction l1 as [|x l1 IH]; intros st; simpl.
  - reflexivity.
  - unfold bind. destruct (body x st) as [[[]|e] st1]; [apply IH | reflexivity].
Qed.

(** A body that raises ends the loop there: nothing after it is run. *)
Lemma for_each_raise (x : A) (rest : list A) (body : A -> M unit) (st st' : State)
    (e : PyExc) :
  body x st = (Raise e, st') ->
  for_each (x :: rest) body st = (Raise e, st').
Proof. intros H. simpl. unfold bind. now rewrite H. Qed.

End Loops.

(** ** A key of the agent namespace without a comparator *)

(** C3, as the code has it. An agent-namespace tag with a namespace and a
    metric name but no comparator among the tokens from index 3 on: the loop
    over the agent tags logs the error and raises [Exception]; the tags
    before it have been processed, the tags after it are not. *)
Theorem agent_key_without_comparator_aborts
    (client : Boto3.Client) (instance_id : string) (cw_agent_dimensions : list Dimension)
    (sns_topic_arn : option string) (before after : list Tag) (tag : Tag)
    (st st' : State) :
  3 <= length (PyStr.split "-" (tag_Key tag)) ->
  Forall (fun t => is_comparator t = false) (drop 3 (PyStr.split "-" (tag_Key tag))) ->
  agent_loop client instance_id cw_agent_dimensions sns_topic_arn before st = (Ok tt, st') ->
  agent_loop client instance_id cw_agent_dimensions sns_topic_arn (before ++ tag :: after) st
  = (Raise PlainException,
     with_logs st' (logs st' ++ [(ERROR, UnableToDetermineDimensions tag)])).
Proof.
  intros Hlen Hnone Hbefore. unfold agent_loop in *.
  rewrite for_each_app, Hbefore.
  apply for_each_raise.
  unfold agent_alarm_args.
  rewrite (find_comparator_none _ _ Hnone).
  destruct (PyStr.split "-" (tag_Key tag)) as [|p [|n [|m props]]];
    simpl in Hlen; try lia.
  reflexivity.
Qed.

Lemma agent_key_without_comparator_aborts_witness :
  agent_loop (linux_account []) "i-1" [] None ([] ++ misspelt_tag :: [disk_tag])
    (initial_state ∅)
  = (Raise PlainException,
     with_logs (initial_state ∅)
       (logs (initial_state ∅) ++ [(ERROR, UnableToDetermineDimensions misspelt_tag)])).
Proof.
  apply (agent_key_without_comparator_aborts (linux_account []) "i-1" [] None []
           [disk_tag] misspelt_tag (initial_state ∅) (initial_state ∅)).
  - vm_compute. lia.
  - vm_compute. repeat constructor.
  - reflexivity.
Defined.

(** The malformed tag is not skipped: [process_alarm_tags] raises, and the
    alarm of the well-formed tag after it, which is created when the
    malformed tag is absent, is never put. *)
Lemma agent_grammar_error_counterexample :
  let run tags :=
    process_alarm_tags (linux_account []) "i-1" web_server ec2_dimension_map None "CWAgent"
      (initial_state (defaults [] tags)) in
  fst (run [misspelt_tag; disk_tag]) = Raise PlainException /\
  put_names (calls (snd (run [misspelt_tag; disk_tag]))) = [] /\
  fst (run [disk_tag]) = Ok PyNone /\
  put_names (calls (snd (run [disk_tag])))
  = ["AutoAlarm-i-1-CWAgent-disk_used_percent-device-xvda1-fstype-xfs-path-/-GreaterThanThreshold-5m-Average"].
Proof. vm_compute. repeat split. Qed.

(** ** [create_alarm] *)

Section CreateAlarm.

Variable client : Boto3.Client.

Lemma period_malformed_raises (Period : string) :
  period_malformed Period -> exists e, seconds_of Period = Raise e.
Proof.
  unfold seconds_of. intros [Hint | (u & Hu & Hunit)].
  - rewrite Hint. eauto.
  - destruct (PyNum.int (but_last Period)); [| eauto].
    rewrite Hu, Hunit. eauto.
Qed.

(** The first [try] of [create_alarm]: it never raises. *)
Lemma period_conversion (Period AlarmName : string) (st : State) :
  try_except
    (seconds <- convert_to_seconds Period ;; ret (PeriodSeconds seconds))
    (fun e => log ERROR (ErrorConvertingPeriod Period AlarmName e) ;; ret (PeriodText Period))
    st
  = (Ok (period_arg Period), with_logs st (logs st ++ period_logs Period AlarmName)).
Proof.
  unfold try_except, bind, convert_to_seconds, try_except, lift, log, ret, raise,
    period_arg, period_logs.
  destruct (seconds_of Period) as [n|e]; cbn.
  - rewrite app_nil_r. now destruct st.
  - unfold with_logs; cbn. now rewrite <- app_assoc.
Qed.

(** With a threshold [float] reads, [create_alarm] returns, whatever the
    store answers; it has made one call, the put of the alarm. *)
Lemma create_alarm_returns (a : AlarmCall) (x : PyNum.PyFloat)
    (sns_topic_arn : option string) (st : State) :
  PyNum.float (ac_Threshold a) = Some x ->
  let alarm := alarm_for a x sns_topic_arn in
  let answer := Boto3.put_metric_alarm client (calls st) alarm in
  call_create_alarm client a sns_topic_arn st
  = (Ok tt,
     {| calls := calls st ++ [Boto3.PutMetricAlarm alarm];
        logs := (logs st ++ period_logs (ac_Period a) (ac_AlarmName a))
                  ++ [match answer with
                      | Ok _ => (INFO, CreatedAlarm (ac_AlarmName a))
                      | Raise e => (ERROR, ErrorCreatingAlarm (ac_AlarmName a) e)
                      end];
        default_alarms := default_alarms st |}).
Proof.
  intros Hx alarm answer. unfold call_create_alarm, create_alarm.
  unfold bind at 1. rewrite period_conversion.
  unfold bind at 1. rewrite Hx.
  unfold ret at 1. unfold try_except, bind, call_put_metric_alarm, log; cbn.
  change (alarm_of _ _ _ _ _ _ _ _ _) with alarm.
  subst answer. now destruct (Boto3.put_metric_alarm client (calls st) alarm).
Qed.

(** With a threshold [float] does not read, [create_alarm] raises
    [ValueError] before any call. *)
Lemma create_alarm_raises (a : AlarmCall) (sns_topic_arn : option string) (st : State) :
  PyNum.float (ac_Threshold a) = None ->
  call_create_alarm client a sns_topic_arn st
  = (Raise ValueError,
     with_logs st (logs st ++ period_logs (ac_Period a) (ac_AlarmName a))).
Proof.
  intros Hx. unfold call_create_alarm, create_alarm.
  unfold bind at 1. rewrite period_conversion.
  unfold bind at 1. now rewrite Hx.
Qed.

End CreateAlarm.

(** ** Periods and thresholds that cannot be read *)

(** C4 on the code. A period with an unknown unit or an unreadable
    magnitude is logged by [create_alarm], which then goes on: with a
    readable threshold it puts the alarm all the same, with the text of the
    period in place of the seconds, and returns. *)
Theorem malformed_period_is_still_put
    (client : Boto3.Client)
    (AlarmName MetricName ComparisonOperator Period Threshold Statistic Namespace : string)
    (Dimensions : list Dimension) (sns_topic_arn : option string)
    (x : PyNum.PyFloat) (st : State) :
  period_malformed Period ->
  PyNum.float Threshold = Some x ->
  let run :=
    create_alarm client AlarmName MetricName ComparisonOperator Period Threshold Statistic
      Namespace Dimensions sns_topic_arn st in
  fst run = Ok tt /\
  calls (snd run)
  = calls st
      ++ [Boto3.PutMetricAlarm
            (alarm_of AlarmName MetricName ComparisonOperator (PeriodText Period) x
               Statistic Namespace Dimensions sns_topic_arn)] /\
  exists e, In (ERROR, ErrorConvertingPeriod Period AlarmName e) (logs (snd run)).
Proof.
  intros Hbad Hx run.
  destruct (period_malformed_raises _ Hbad) as [e He].
  pose (a := {| ac_AlarmName := AlarmName; ac_MetricName := MetricName;
                ac_ComparisonOperator := ComparisonOperator; ac_Period := Period;
                ac_Threshold := Threshold; ac_Statistic := Statistic;
                ac_Namespace := Namespace; ac_Dimensions := Dimensions |}).
  assert (Hrun : run = call_create_alarm client a sns_topic_arn st) by reflexivity.
  rewrite Hrun, (create_alarm_returns client a x sns_topic_arn st Hx).
  cbn [fst snd calls logs]. unfold alarm_for, period_arg, period_logs; cbn [ac_Period ac_AlarmName a].
  rewrite He. repeat split.
  exists e. rewrite !in_app_iff. left. right. simpl. auto.
Qed.

Lemma malformed_period_is_still_put_witness :
  let run :=
    create_alarm (linux_account [])
      "AutoAlarm-i-1-AWS/EC2-CPUUtilization-GreaterThanThreshold-80-5x" "CPUUtilization"
      "GreaterThanThreshold" "5x" "80" "Average" "AWS/EC2" [] None (initial_state ∅) in
  fst run = Ok tt /\
  calls (snd run)
  = calls (initial_state ∅)
      ++ [Boto3.PutMetricAlarm
            (alarm_of "AutoAlarm-i-1-AWS/EC2-CPUUtilization-GreaterThanThreshold-80-5x"
               "CPUUtilization" "GreaterThanThreshold" (PeriodText "5x")
               (PyNum.FNum false 80 0) "Average" "AWS/EC2" [] None)] /\
  exists e,
    In (ERROR,
        ErrorConvertingPeriod "5x"
          "AutoAlarm-i-1-AWS/EC2-CPUUtilization-GreaterThanThreshold-80-5x" e)
       (logs (snd run)).
Proof.
  apply (malformed_period_is_still_put (linux_account [])
           "AutoAlarm-i-1-AWS/EC2-CPUUtilization-GreaterThanThreshold-80-5x"
           "CPUUtilization" "GreaterThanThreshold" "5x" "80" "Average" "AWS/EC2" [] None
           (PyNum.FNum false 80 0) (initial_state ∅)).
  - right. exists "x"%char. split; reflexivity.
  - reflexivity.
Defined.

Lemma ec2_alarm_args_threshold (instance_id : string) (dimensions : list Dimension)
    (tag : Tag) (a : AlarmCall) :
  ec2_alarm_args instance_id dimensions tag = Ok a -> ac_Threshold a = tag_Value tag.
Proof.
  unfold ec2_alarm_args, rbind, item. intros H.
  repeat match type of H with
         | context [nth_error ?l ?i] => destruct (nth_error l i); try discriminate
         end.
  now inversion H.
Qed.

(** C5 on the code. A threshold [float] does not read makes [create_alarm]
    raise [ValueError] without a put; the exception leaves the ['AWS/EC2']
    loop of [process_alarm_tags] at that tag, and no later tag is
    processed. *)
Theorem unreadable_threshold_raises
    (client : Boto3.Client) (instance_id : string) (dimensions : list Dimension)
    (sns_topic_arn : option string) (tag : Tag) (rest : list Tag) (a : AlarmCall)
    (st : State) :
  ec2_alarm_args instance_id dimensions tag = Ok a ->
  PyNum.float (tag_Value tag) = None ->
  let alone :=
    create_alarm client (ac_AlarmName a) (ac_MetricName a) (ac_ComparisonOperator a)
      (ac_Period a) (tag_Value tag) (ac_Statistic a) (ac_Namespace a) (ac_Dimensions a)
      sns_topic_arn st in
  let run := ec2_loop client instance_id dimensions sns_topic_arn (tag :: rest) st in
  (fst alone = Raise ValueError /\ calls (snd alone) = calls st) /\
  (fst run = Raise ValueError /\ calls (snd run) = calls st).
Proof.
  intros Hargs Hnone alone run.
  pose proof (ec2_alarm_args_threshold _ _ _ _ Hargs) as Hthr.
  assert (Halone : alone = call_create_alarm client a sns_topic_arn st).
  { unfold alone, call_create_alarm. now rewrite Hthr. }
  rewrite <- Hthr in Hnone.
  pose proof (create_alarm_raises client a sns_topic_arn st Hnone) as Hraise.
  split.
  - rewrite Halone, Hraise. split; reflexivity.
  - unfold run, ec2_loop.
    rewrite (for_each_raise tag rest _ st
               (with_logs st (logs st ++ period_logs (ac_Period a) (ac_AlarmName a)))
               ValueError); [split; reflexivity |].
    unfold bind at 1, lift. rewrite Hargs. exact Hraise.
Qed.

Lemma unreadable_threshold_raises_witness :
  let tag :=
    {| tag_Key := "AutoAlarm-AWS/EC2-CPUUtilization-GreaterThanThreshold-5m-Average";
       tag_Value := "eighty" |} in
  let alone :=
    create_alarm (linux_account [])
      "AutoAlarm-i-1-AWS/EC2-CPUUtilization-GreaterThanThreshold-eighty-5m" "CPUUtilization"
      "GreaterThanThreshold" "5m" "eighty" "Average" "AWS/EC2" [] None (initial_state ∅) in
  let run := ec2_loop (linux_account []) "i-1" [] None (tag :: [status_tag]) (initial_state ∅) in
  (fst alone = Raise ValueError /\ calls (snd alone) = calls (initial_state ∅)) /\
  (fst run = Raise ValueError /\ calls (snd run) = calls (initial_state ∅)).
Proof.
  apply (unreadable_threshold_raises (linux_account []) "i-1" [] None
           {| tag_Key := "AutoAlarm-AWS/EC2-CPUUtilization-GreaterThanThreshold-5m-Average";
              tag_Value := "eighty" |}
           [status_tag]
           {| ac_AlarmName := "AutoAlarm-i-1-AWS/EC2-CPUUtilization-GreaterThanThreshold-eighty-5m";
              ac_MetricName := "CPUUtilization";
              ac_ComparisonOperator := "GreaterThanThreshold"; ac_Period := "5m";
              ac_Threshold := "eighty"; ac_Statistic := "Average";
              ac_Namespace := "AWS/EC2"; ac_Dimensions := [] |}
           (initial_state ∅)).
  - reflexivity.
  - reflexivity.
Defined.

(** ** Errors of the alarm store *)

Section StoreErrors.

Variable client : Boto3.Client.
Variables (instance_id : string) (dimensions : list Dimension).
Variable sns_topic_arn : option string.

(** The loop over well-formed tags, whatever the store answers: every alarm
    is put, in tag order, the log only grows, and each refusal is logged. *)
Lemma ec2_loop_puts_all (tags : list Tag) (alarms : list Alarm) :
  Forall2 (ec2_alarm_of instance_id dimensions sns_topic_arn) tags alarms ->
  forall st, exists st',
    ec2_loop client instance_id dimensions sns_topic_arn tags st = (Ok tt, st') /\
    calls st' = calls st ++ map Boto3.PutMetricAlarm alarms /\
    (forall entry, In entry (logs st) -> In entry (logs st')) /\
    (forall i alarm e,
        nth_error alarms i = Some alarm ->
        Boto3.put_metric_alarm client
          (calls st ++ map Boto3.PutMetricAlarm (take i alarms)) alarm = Raise e ->
        In (ERROR, ErrorCreatingAlarm (AlarmName alarm) e) (logs st')).
Proof.
  induction 1 as [|tag alarm tags alarms (a & x & Hargs & Hx & ->) _ IH]; intros st.
  - exists st. repeat split; cbn.
    + now rewrite app_nil_r.
    + auto.
    + intros [|i] ? ? ?; discriminate.
  - pose proof (create_alarm_returns client a x sns_topic_arn st Hx) as Hone.
    cbv zeta in Hone.
    set (st1 := {| calls := calls st ++ [Boto3.PutMetricAlarm (alarm_for a x sns_topic_arn)];
                   logs := _; default_alarms := _ |}) in Hone.
    destruct (IH st1) as (st' & Hloop & Hcalls & Hmono & Hlogged).
    exists st'. split; [| split; [| split]].
    + unfold ec2_loop in *. cbn [for_each].
      unfold bind at 1. unfold bind at 1, lift. rewrite Hargs, Hone. exact Hloop.
    + rewrite Hcalls. cbn [calls st1 map]. now rewrite <- app_assoc.
    + intros entry Hin. apply Hmono. cbn [logs st1]. rewrite !in_app_iff. auto.
    + intros [|i] alarm e Hnth Hput.
      * injection Hnth as <-. cbn [take map] in Hput. rewrite app_nil_r in Hput.
        apply Hmono. cbn [logs st1]. rewrite Hput.
        rewrite !in_app_iff. right. left. reflexivity.
      * apply (Hlogged i); [exact Hnth |].
        cbn [calls st1]. cbn [take map] in Hput. now rewrite <- app_assoc.
Qed.

End StoreErrors.

(** C8. For tags with well-formed keys and thresholds, the ['AWS/EC2'] loop
    returns whatever the alarm store answers to each put: every alarm is
    put, in tag order, and each error of the store is logged by
    [create_alarm] under the name of its alarm. *)
Theorem store_errors_do_not_stop_siblings
    (client : Boto3.Client) (instance_id : string) (dimensions : list Dimension)
    (sns_topic_arn : option string) (tags : list Tag) (alarms : list Alarm) (st : State) :
  Forall2 (ec2_alarm_of instance_id dimensions sns_topic_arn) tags alarms ->
  let run := ec2_loop client instance_id dimensions sns_topic_arn tags st in
  fst run = Ok tt /\
  calls (snd run) = calls st ++ map Boto3.PutMetricAlarm alarms /\
  (forall i alarm e,
      nth_error alarms i = Some alarm ->
      Boto3.put_metric_alarm client
        (calls st ++ map Boto3.PutMetricAlarm (take i alarms)) alarm = Raise e ->
      In (ERROR, ErrorCreatingAlarm (AlarmName alarm) e) (logs (snd run))).
Proof.
  intros Htags run.
  destruct (ec2_loop_puts_all client instance_id dimensions sns_topic_arn tags alarms
              Htags st) as (st' & Hrun & Hcalls & _ & Hlogged).
  unfold run. rewrite Hrun. cbn [fst snd]. auto.
Qed.

Lemma store_errors_do_not_stop_siblings_witness :
  let alarms :=
    [alarm_of "AutoAlarm-i-1-AWS/EC2-CPUUtilization-GreaterThanThreshold-80-5m"
       "CPUUtilization" "GreaterThanThreshold" (PeriodSeconds 300) (PyNum.FNum false 80 0)
       "Average" "AWS/EC2" [] None;
     alarm_of "AutoAlarm-i-1-AWS/EC2-StatusCheckFailed-GreaterThanThreshold-0-5m"
       "StatusCheckFailed" "GreaterThanThreshold" (PeriodSeconds 300) (PyNum.FNum false 0 0)
       "Maximum" "AWS/EC2" [] None] in
  let run := ec2_loop rejecting_account "i-1" [] None [cpu_tag; status_tag] (initial_state ∅) in
  fst run = Ok tt /\
  calls (snd run) = calls (initial_state ∅) ++ map Boto3.PutMetricAlarm alarms /\
  (forall i alarm e,
      nth_error alarms i = Some alarm ->
      Boto3.put_metric_alarm rejecting_account
        (calls (initial_state ∅) ++ map Boto3.PutMetricAlarm (take i alarms)) alarm
      = Raise e ->
      In (ERROR, ErrorCreatingAlarm (AlarmName alarm) e) (logs (snd run))).
Proof.
  apply (store_errors_do_not_stop_siblings rejecting_account "i-1" [] None
           [cpu_tag; status_tag]).
  repeat constructor; eexists _, _; repeat split; reflexivity.
Defined.

(** ** Platform classification *)

(** Once [describe_images] has answered, the platform is read off the
    response. *)
Lemma determine_platform_run (client : Boto3.Client) (imageid : string) (st : State)
    (response : Boto3.ImagesResponse) :
  Boto3.describe_images client (calls st) [imageid] = Ok response ->
  determine_platform client imageid st
  = try_except (classify_image response)
      (fun e => log ERROR (FailureDescribingImage imageid e) ;; raise e)
      (with_calls st (calls st ++ [Boto3.DescribeImages [imageid]])).
Proof.
  intros Hcall. unfold determine_platform, try_except, bind at 1, call_describe_images.
  now rewrite Hcall.
Qed.




(** ** Deletion by prefix *)

Lemma alarm_names_listed (names acc : list string) (st : State) :
  alarm_names (listed names) acc st = (Ok (acc ++ names), st).
Proof.
  revert acc. induction names as [|n names IH]; intros acc; cbn.
  - now rewrite app_nil_r.
  - unfold bind, getitem; cbn. rewrite IH. now rewrite <- app_assoc.
Qed.

(** The run of [delete_alarms] when the store carries out both calls. *)
Lemma delete_alarms_run
    (client : Boto3.Client) (name : string) (names : list string)
    (response : Boto3.AlarmsResponse) (st : State) :
  let AlarmNamePrefix := "AutoAlarm-" +:+ name in
  Boto3.describe_alarms client (calls st) AlarmNamePrefix = Ok response ->
  (Boto3.MetricAlarms response = Some (listed names)
   \/ (Boto3.MetricAlarms response = None /\ names = [])) ->
  Boto3.delete_alarms client (calls st ++ [Boto3.DescribeAlarms AlarmNamePrefix]) names
  = Ok tt ->
  delete_alarms client name st
  = (Ok PyTrue,
     {| calls := (calls st ++ [Boto3.DescribeAlarms AlarmNamePrefix])
                   ++ [Boto3.DeleteAlarms names];
        logs := ((logs st ++ [(INFO, CallingDescribeAlarms AlarmNamePrefix)])
                   ++ [(INFO, ResponseFromDescribeAlarms)])
                  ++ [(INFO, DeletingAlarms names name)];
        default_alarms := default_alarms st |}).
Proof.
  intros AlarmNamePrefix Hlist Hnames Hdelete.
  unfold delete_alarms, try_except. fold AlarmNamePrefix.
  unfold bind at 1. unfold log at 1. cbv beta iota.
  unfold bind at 1. unfold call_describe_alarms at 1. cbn [calls with_logs with_calls].
  rewrite Hlist.
  unfold bind at 1. unfold log at 1. cbv beta iota.
  unfold bind at 1.
  assert (Hacc : forall st0,
    match Boto3.MetricAlarms response with
    | Some alarms => alarm_names alarms []
    | None => ret []
    end st0 = (Ok names, st0)).
  { intros st0. destruct Hnames as [-> | [-> ->]].
    - apply alarm_names_listed.
    - reflexivity. }
  rewrite Hacc.
  unfold bind, log, call_delete_alarms, ret; cbn.
  now rewrite Hdelete.
Qed.

(** C7. [delete_alarms r] asks the store for the alarms under the prefix
    [AutoAlarm-r] and then asks it to delete exactly the names of the answer,
    in one call; with no alarm in the answer (an empty list, or no
    ['MetricAlarms'] at all) the delete call is made with the empty list.
    When the store carries out both calls the result is [True]. *)
Theorem delete_alarms_by_prefix
    (client : Boto3.Client) (name : string) (names : list string)
    (response : Boto3.AlarmsResponse) (st : State) :
  Boto3.describe_alarms client (calls st) ("AutoAlarm-" +:+ name) = Ok response ->
  (Boto3.MetricAlarms response = Some (listed names)
   \/ (Boto3.MetricAlarms response = None /\ names = [])) ->
  Boto3.delete_alarms client (calls st ++ [Boto3.DescribeAlarms ("AutoAlarm-" +:+ name)])
    names = Ok tt ->
  let run := delete_alarms client name st in
  fst run = Ok PyTrue /\
  calls (snd run)
  = calls st ++ [Boto3.DescribeAlarms ("AutoAlarm-" +:+ name); Boto3.DeleteAlarms names].
Proof.
  intros Hlist Hnames Hdelete run. unfold run.
  rewrite (delete_alarms_run client name names response st Hlist Hnames Hdelete).
  cbn [fst snd calls]. split; [reflexivity |]. now rewrite <- app_assoc.
Qed.

Lemma delete_alarms_by_prefix_witness :
  let run :=
    delete_alarms (linux_account ["AutoAlarm-i-2-AWS/EC2-CPUUtilization-GreaterThanThreshold-80-5m"])
      "i-1" (initial_state ∅) in
  fst run = Ok PyTrue /\
  calls (snd run)
  = calls (initial_state ∅)
      ++ [Boto3.DescribeAlarms ("AutoAlarm-" +:+ "i-1"); Boto3.DeleteAlarms []].
Proof.
  apply (delete_alarms_by_prefix
           (linux_account ["AutoAlarm-i-2-AWS/EC2-CPUUtilization-GreaterThanThreshold-80-5m"])
           "i-1" [] {| Boto3.MetricAlarms := Some [] |} (initial_state ∅)).
  - reflexivity.
  - left. reflexivity.
  - reflexivity.
Defined.

(** On a store that lists every alarm it holds under a prefix,
    [delete_alarms r] asks for the deletion of exactly the stored alarms
    whose name starts with [AutoAlarm-r], in the order the store lists
    them. *)
Corollary delete_alarms_on_store (stored : list string) (name : string) :
  delete_alarms (linux_account stored) name (initial_state ∅)
  = (Ok PyTrue,
     {| calls :=
          [Boto3.DescribeAlarms ("AutoAlarm-" +:+ name);
           Boto3.DeleteAlarms
             (filter (fun n => Is_true (PyStr.startswith n ("AutoAlarm-" +:+ name))) stored)];
        logs :=
          [(INFO, CallingDescribeAlarms ("AutoAlarm-" +:+ name));
           (INFO, ResponseFromDescribeAlarms);
           (INFO,
            DeletingAlarms
              (filter (fun n => Is_true (PyStr.startswith n ("AutoAlarm-" +:+ name))) stored)
              name)];
        default_alarms := ∅ |}).
Proof.
  apply (delete_alarms_run (linux_account stored) name _
           {| Boto3.MetricAlarms :=
                Some (listed
                        (filter (fun n => Is_true (PyStr.startswith n ("AutoAlarm-" +:+ name)))
                           stored)) |}
           (initial_state ∅)).
  - reflexivity.
  - left. reflexivity.
  - reflexivity.
Qed.

(** ** The activation tag of a function *)

(** C10. When [tags.get(activation_tag, 'not_found')] is ['not_found'],
    the tag being absent or present with that very value,
    [process_lambda_alarms] returns [True] at once: it logs one debug line,
    calls no service and leaves [default_alarms] as it was. *)
Theorem lambda_without_activation_tag
    (client : Boto3.Client) (function_name activation_tag : string)
    (tags : list (string * string)) (sns_topic_arn : option string) (st : State) :
  dict_get tags activation_tag = None \/ dict_get tags activation_tag = Some "not_found" ->
  process_lambda_alarms client function_name tags activation_tag sns_topic_arn st
  = (Ok PyTrue, with_logs st (logs st ++ [(DEBUG, ActivationTagNotFound function_name)])).
Proof.
  intros H. unfold process_lambda_alarms.
  assert (Hget : default "not_found" (dict_get tags activation_tag) = "not_found")
    by (destruct H as [-> | ->]; reflexivity).
  rewrite Hget. reflexivity.
Qed.

Lemma lambda_without_activation_tag_witness :
  process_lambda_alarms rejecting_account "my-fn"
    [("Create_Auto_Alarms", "not_found");
     ("AutoAlarm-AWS/Lambda-Errors-GreaterThanThreshold-5m-Sum", "1")]
    "Create_Auto_Alarms" None (initial_state (<["AWS/Lambda" := TagList [] ]> ∅))
  = (Ok PyTrue,
     with_logs (initial_state (<["AWS/Lambda" := TagList [] ]> ∅))
       (logs (initial_state (<["AWS/Lambda" := TagList [] ]> ∅))
          ++ [(DEBUG, ActivationTagNotFound "my-fn")])).
Proof.
  apply (lambda_without_activation_tag rejecting_account "my-fn" "Create_Auto_Alarms").
  right. reflexivity.
Defined.

(** ** What happens to [default_alarms] *)

Section Frame.

Variable client : Boto3.Client.

Lemma keeps_ret {A} (a : A) : keeps_defaults (ret a).
Proof. intros st. reflexivity. Qed.

Lemma keeps_raise {A} (e : PyExc) : keeps_defaults (@raise A e).
Proof. intros st. reflexivity. Qed.

Lemma keeps_lift {A} (r : Result A) : keeps_defaults (lift r).
Proof. intros st. reflexivity. Qed.

Lemma keeps_log (lvl : Level) (msg : LogMsg) : keeps_defaults (log lvl msg).
Proof. intros st. reflexivity. Qed.

Lemma keeps_getitem {A} (o : option A) : keeps_defaults (getitem o).
Proof. intros st. now destruct o. Qed.

Lemma keeps_index {A} (l : list A) (i : nat) : keeps_defaults (index l i).
Proof. intros st. unfold index. now destruct (nth_error l i). Qed.

Lemma keeps_bind {A B} (m : M A) (k : A -> M B) :
  keeps_defaults m -> (forall a, keeps_defaults (k a)) -> keeps_defaults (bind m k).
Proof.
  intros Hm Hk st. unfold bind. specialize (Hm st).
  destruct (m st) as [[a|e] st1]; cbn in *; [| exact Hm].
  now rewrite Hk.
Qed.

Lemma keeps_try {A} (m : M A) (h : PyExc -> M A) :
  keeps_defaults m -> (forall e, keeps_defaults (h e)) -> keeps_defaults (try_except m h).
Proof.
  intros Hm Hh st. unfold try_except. specialize (Hm st).
  destruct (m st) as [[a|e] st1]; cbn in *; [exact Hm |].
  now rewrite Hh.
Qed.

Lemma keeps_for_each {A} (l : list A) (body : A -> M unit) :
  (forall x, keeps_defaults (body x)) -> keeps_defaults (for_each l body).
Proof.
  intros Hbody. induction l as [|x l IH]; cbn.
  - apply keeps_ret.
  - apply keeps_bind; auto.
Qed.

Lemma keeps_describe_images (ids : list string) :
  keeps_defaults (call_describe_images client ids).
Proof. intros st. reflexivity. Qed.

Lemma keeps_put_metric_alarm (alarm : Alarm) :
  keeps_defaults (call_put_metric_alarm client alarm).
Proof. intros st. reflexivity. Qed.

Lemma keeps_tags_of (ns : string) : keeps_defaults (tags_of ns).
Proof.
  intros st. unfold tags_of.
  destruct (default_alarms st !! ns) as [[l|m]|]; try reflexivity.
  now destruct (decide (m = ∅)).
Qed.

Lemma keeps_platform_tags_of (ns : string) (platform : option string) :
  keeps_defaults (platform_tags_of ns platform).
Proof.
  intros st. unfold platform_tags_of.
  destruct (default_alarms st !! ns) as [[l|m]|]; try reflexivity.
  now destruct (m !! platform).
Qed.

End Frame.

Create HintDb frame.
#[export] Hint Resolve keeps_ret keeps_raise keeps_lift keeps_log keeps_getitem keeps_index
  keeps_describe_images keeps_put_metric_alarm keeps_tags_of keeps_platform_tags_of : frame.

(** Goes through a computation built from the monad's operations. *)
Ltac frame :=
  repeat first
    [ solve [auto with frame]
    | apply keeps_bind; [| intros ?]
    | apply keeps_try; [| intros ?]
    | apply keeps_for_each; intros ?
    | match goal with
      | |- keeps_defaults (match ?x with _ => _ end) => destruct x
      end ].

Section FrameOfActions.

Variable client : Boto3.Client.

Lemma keeps_create_alarm (a : AlarmCall) (sns_topic_arn : option string) :
  keeps_defaults (call_create_alarm client a sns_topic_arn).
Proof. unfold call_create_alarm, create_alarm, convert_to_seconds. frame. Qed.

Lemma keeps_determine_platform (imageid : string) :
  keeps_defaults (determine_platform client imageid).
Proof. unfold determine_platform, classify_image. frame. Qed.

Lemma keeps_agent_alarm_args (instance_id : string) (dims : list Dimension) (tag : Tag) :
  keeps_defaults (agent_alarm_args instance_id dims tag).
Proof. unfold agent_alarm_args. frame. Qed.

Lemma keeps_agent_dimensions (instance_id : string) (instance_info : InstanceInfo)
    (instance_tags : list Tag) (names : list string) (acc : list Dimension) :
  keeps_defaults (agent_dimensions instance_id instance_info instance_tags names acc).
Proof.
  revert acc. induction names as [|n names IH]; intros acc; cbn [agent_dimensions].
  - apply keeps_ret.
  - destruct (String.eqb n "AutoScalingGroupName").
    + destruct (is_truthy _); apply IH.
    + destruct (is_truthy_value _); [apply IH |]. apply keeps_bind; [apply keeps_log | auto].
Qed.

Lemma keeps_ec2_loop (instance_id : string) (dims : list Dimension)
    (sns_topic_arn : option string) (tags : list Tag) :
  keeps_defaults (ec2_loop client instance_id dims sns_topic_arn tags).
Proof. unfold ec2_loop. frame. Qed.

Lemma keeps_agent_loop (instance_id : string) (dims : list Dimension)
    (sns_topic_arn : option string) (tags : list Tag) :
  keeps_defaults (agent_loop client instance_id dims sns_topic_arn tags).
Proof.
  unfold agent_loop. apply keeps_for_each. intros tag.
  apply keeps_bind; [apply keeps_agent_alarm_args | intros a; apply keeps_create_alarm].
Qed.

End FrameOfActions.

(** ** The alarm tags of a resource are added to [default_alarms] *)

Section Collect.

Variable client : Boto3.Client.

Lemma bind_ok {A B} (m : M A) (k : A -> M B) (st st1 : State) (a : A) :
  m st = (Ok a, st1) -> bind m k st = k a st1.
Proof. intros H. unfold bind. now rewrite H. Qed.

(** In a dict a key has the value it is paired with. *)
Lemma dict_get_in (tags : list (string * string)) (k v : string) :
  NoDup (map fst tags) -> In (k, v) tags -> dict_get tags k = Some v.
Proof.
  induction tags as [|[k' v'] tags IH]; cbn; [tauto |].
  intros Hnd [Heq | Hin].
  - injection Heq as -> ->. now rewrite String.eqb_refl.
  - apply NoDup_cons in Hnd as [Hfresh Hnd].
    destruct (String.eqb_spec k' k) as [-> | _]; [| now apply IH].
    exfalso. apply Hfresh. apply list_elem_of_In.
    change k with (fst (k, v)). now apply in_map.
Qed.

(** The first loop of [process_lambda_alarms], over the keys [keys] of the
    dict [tags]. *)
Lemma collect_function_tags (tags suffix : list (string * string)) (l : list Tag) (st : State) :
  (forall k v, In (k, v) suffix -> dict_get tags k = Some v) ->
  default_alarms st !! "AWS/Lambda" = Some (TagList l) ->
  for_each (map fst suffix)
    (fun tag_key =>
       if PyStr.startswith tag_key "AutoAlarm" then
         value <- getitem (dict_get tags tag_key) ;;
         append_tag "AWS/Lambda" {| tag_Key := tag_key; tag_Value := value |}
       else ret tt) st
  = (Ok tt,
     with_default_alarms st
       (<["AWS/Lambda" := TagList (l ++ function_alarm_tags suffix)]> (default_alarms st))).
Proof.
  revert l st. induction suffix as [|[k v] suffix IH]; intros l st Hget Hl.
  - cbn. rewrite app_nil_r, insert_id by exact Hl. now destruct st.
  - cbn [map fst for_each function_alarm_tags flat_map snd].
    fold (function_alarm_tags suffix).
    assert (Hrest : forall k0 v0, In (k0, v0) suffix -> dict_get tags k0 = Some v0)
      by (intros; apply Hget; now right).
    destruct (PyStr.startswith k "AutoAlarm").
    + erewrite bind_ok; cycle 1.
      { rewrite (Hget k v) by now left. unfold bind, getitem, ret, append_tag.
        rewrite Hl. reflexivity. }
      rewrite (IH (l ++ [{| tag_Key := k; tag_Value := v |}])); [| exact Hrest |].
      * cbn. rewrite insert_insert_eq, <- app_assoc. reflexivity.
      * cbn. apply lookup_insert_eq.
    + erewrite bind_ok by reflexivity. now apply IH.
Qed.

(** The first loop of [process_alarm_tags]. *)
Lemma collect_instance_tags_run (instance_tags : list Tag) (platform : option string)
    (cw_namespace : string) (ec2 agent : list Tag)
    (buckets : gmap (option string) (list Tag)) (st : State) :
  PyStr.startswith cw_namespace "AWS/EC2" = false ->
  namespaces_known cw_namespace instance_tags ->
  default_alarms st !! "AWS/EC2" = Some (TagList ec2) ->
  default_alarms st !! cw_namespace = Some (PerPlatform buckets) ->
  buckets !! platform = Some agent ->
  collect_instance_tags instance_tags platform cw_namespace st
  = (Ok tt,
     with_default_alarms st
       (<[cw_namespace :=
            PerPlatform
              (<[platform := agent ++ instance_alarm_tags cw_namespace instance_tags]>
                 buckets)]>
          (<["AWS/EC2" := TagList (ec2 ++ instance_alarm_tags "AWS/EC2" instance_tags)]>
             (default_alarms st)))).
Proof.
  intros Hcw Hknown. revert ec2 agent buckets st.
  assert (Hne : cw_namespace <> "AWS/EC2") by (intros ->; discriminate).
  unfold collect_instance_tags.
  induction Hknown as [|tag tags Htag _ IH]; intros ec2 agent buckets st Hec2 Hagent Hbucket.
  - cbn. rewrite !app_nil_r.
    rewrite (insert_id buckets) by exact Hbucket.
    rewrite (insert_id (default_alarms st) "AWS/EC2") by exact Hec2.
    rewrite insert_id by exact Hagent. now destruct st.
  - cbn [for_each]. unfold instance_alarm_tags. rewrite !filter_cons.
    fold (instance_alarm_tags cw_namespace tags) (instance_alarm_tags "AWS/EC2" tags).
    destruct (PyStr.startswith (tag_Key tag) "AutoAlarm") eqn:Hauto.
    + destruct (Htag eq_refl) as (ns & Hns & Hcase).
      pose proof Hns as Hnth. unfold custom_namespace in Hnth. rewrite Hauto in Hnth.
      unfold index at 1. rewrite Hnth.
      destruct Hcase as [-> | [-> | Hother]].
      * (* the namespace is AWS/EC2 *)
        erewrite bind_ok; cycle 1.
        { unfold bind, ret, append_tag. cbn. rewrite Hec2. reflexivity. }
        rewrite (decide_True (P := custom_namespace tag = Some "AWS/EC2")) by exact Hns.
        rewrite decide_False by (rewrite Hns; congruence).
        rewrite (IH (ec2 ++ [tag]) agent buckets).
        -- cbn. rewrite insert_insert_eq, <- app_assoc. reflexivity.
        -- cbn. apply lookup_insert_eq.
        -- cbn. now rewrite lookup_insert_ne.
        -- exact Hbucket.
      * (* the namespace is that of the agent *)
        erewrite bind_ok; cycle 1.
        { unfold bind, ret. rewrite Hcw, String.eqb_refl.
          unfold append_platform_tag. rewrite Hagent, Hbucket. reflexivity. }
        rewrite (decide_True (P := custom_namespace tag = Some cw_namespace)) by exact Hns.
        rewrite decide_False by (rewrite Hns; congruence).
        rewrite (IH ec2 (agent ++ [tag]) (<[platform := agent ++ [tag]]> buckets)).
        -- cbn. f_equal. f_equal.
           rewrite (insert_insert_ne _ "AWS/EC2" cw_namespace) by congruence.
           rewrite insert_insert_eq.
           rewrite insert_insert_eq, <- app_assoc. reflexivity.
        -- cbn. now rewrite lookup_insert_ne.
        -- cbn. apply lookup_insert_eq.
        -- apply lookup_insert_eq.
      * (* a namespace that does not start with AWS/EC2 *)
        assert (Hne1 : ns <> "AWS/EC2") by (intros ->; discriminate).
        destruct (String.eqb_spec ns cw_namespace) as [-> | Hne2].
        -- erewrite bind_ok; cycle 1.
           { unfold bind, ret. rewrite Hcw, String.eqb_refl.
             unfold append_platform_tag. rewrite Hagent, Hbucket. reflexivity. }
           rewrite (decide_True (P := custom_namespace tag = Some cw_namespace))
             by exact Hns.
           rewrite decide_False by (rewrite Hns; congruence).
           rewrite (IH ec2 (agent ++ [tag]) (<[platform := agent ++ [tag]]> buckets)).
           ++ cbn. f_equal. f_equal.
              rewrite (insert_insert_ne _ "AWS/EC2" cw_namespace) by congruence.
              rewrite insert_insert_eq.
              rewrite insert_insert_eq, <- app_assoc. reflexivity.
           ++ cbn. now rewrite lookup_insert_ne.
           ++ cbn. apply lookup_insert_eq.
           ++ apply lookup_insert_eq.
        -- erewrite bind_ok; cycle 1.
           { unfold bind, ret. rewrite Hother.
             apply String.eqb_neq in Hne2. rewrite Hne2. reflexivity. }
           rewrite !decide_False by (rewrite Hns; congruence).
           now apply IH.
    + assert (Hnone : custom_namespace tag = None)
        by (unfold custom_namespace; now rewrite Hauto).
      erewrite bind_ok by reflexivity.
      rewrite !decide_False by (rewrite Hnone; discriminate).
      now apply IH.
Qed.

End Collect.

Section Platform.

Variable client : Boto3.Client.

(** The classification does not look at the state. *)
Lemma classify_image_result (response : Boto3.ImagesResponse) (st st' : State) :
  fst (classify_image response st) = fst (classify_image response st').
Proof.
  unfold classify_image, bind, getitem, ret, raise, log.
  repeat first
    [ reflexivity
    | match goal with
      | |- context [match ?x with _ => _ end] =>
          match x with
          | context [match _ with _ => _ end] => fail 1
          | _ => destruct x
          end
      end ]; cbn.
Qed.

(** Nor does the platform depend on more of the state than the calls made
    so far. *)
Lemma determine_platform_result (imageid : string) (st st' : State) :
  calls st = calls st' ->
  fst (determine_platform client imageid st) = fst (determine_platform client imageid st').
Proof.
  intros Hcalls.
  unfold determine_platform, try_except, bind at 1 3, call_describe_images.
  rewrite Hcalls.
  destruct (Boto3.describe_images client (calls st') [imageid]) as [response|e];
    [| reflexivity].
  pose proof (classify_image_result response
                (with_calls st (calls st' ++ [Boto3.DescribeImages [imageid]]))
                (with_calls st' (calls st' ++ [Boto3.DescribeImages [imageid]]))) as H.
  destruct (classify_image response (with_calls st _)) as [[p|e] s1],
           (classify_image response (with_calls st' _)) as [[p'|e'] s2];
    cbn in *; congruence.
Qed.

End Platform.

(** A list grows by what is appended to it. *)
Lemma app_same_nil {A} (l t : list A) : l ++ t = l <-> t = [].
Proof.
  split; [| intros ->; apply app_nil_r].
  intros H. apply (app_inv_head l). now rewrite app_nil_r.
Qed.




(** * Further properties of the module *)

(** ** Periods written in decimal *)

Section Decimal.

Lemma int_digits_uint (d : Decimal.uint) (a : nat) :
  PyNum.int_digits (list_ascii_of_string (NilEmpty.string_of_uint d)) PyNum.AfterDigit
    (N.of_nat a)
  = Some (N.of_nat (Nat.of_uint_acc d a)).
Proof.
  revert a.
  induction d; intros a; cbn -[N.mul N.add Nat.tail_mul]; [reflexivity | ..];
    (rewrite <- IHd; do 2 f_equal; rewrite Nat.tail_mul_spec;
     match goal with
     | |- context [PyNum.digit_val ?c] =>
         let v := eval vm_compute in (PyNum.digit_val c) in
         change (PyNum.digit_val c) with v
     end; lia).
Qed.

Lemma int_digits_start (d : Decimal.uint) :
  d <> Decimal.Nil ->
  PyNum.int_digits (list_ascii_of_string (NilEmpty.string_of_uint d)) PyNum.AtStart 0
  = Some (N.of_nat (Nat.of_uint d)).
Proof.
  intros Hd. unfold Nat.of_uint. rewrite <- (int_digits_uint d 0).
  destruct d; [congruence | reflexivity ..].
Qed.

Lemma digits_no_space (d : Decimal.uint) :
  Forall (fun c => PyNum.is_space c = false)
    (list_ascii_of_string (NilEmpty.string_of_uint d)).
Proof. induction d; cbn; constructor; auto. Qed.

Lemma lstrip_no_space (cs : list ascii) :
  Forall (fun c => PyNum.is_space c = false) cs -> PyNum.lstrip cs = cs.
Proof. intros [|c cs' Hc _]; cbn; [reflexivity | now rewrite Hc]. Qed.

Lemma strip_no_space (cs : list ascii) :
  Forall (fun c => PyNum.is_space c = false) cs -> PyNum.strip cs = cs.
Proof.
  intros H. unfold PyNum.strip. rewrite (lstrip_no_space cs H).
  rewrite lstrip_no_space by (apply Forall_rev; exact H).
  apply rev_involutive.
Qed.

(** [int] reads the decimal digits of a natural number back, with or
    without a minus sign before them. *)
Lemma int_of_digits (d : Decimal.uint) (neg : bool) :
  d <> Decimal.Nil ->
  PyNum.int ((if neg then "-" else "") +:+ NilEmpty.string_of_uint d)
  = Some (if neg then - Z.of_nat (Nat.of_uint d) else Z.of_nat (Nat.of_uint d))%Z.
Proof.
  intros Hd. unfold PyNum.int.
  assert (Hbody : PyNum.take_sign
            (PyNum.strip
               (list_ascii_of_string
                  ((if neg then "-" else "") +:+ NilEmpty.string_of_uint d)))
          = (neg, list_ascii_of_string (NilEmpty.string_of_uint d))).
  { destruct neg.
    - change ("-" +:+ NilEmpty.string_of_uint d)
        with (String "-" (NilEmpty.string_of_uint d)).
      cbn [list_ascii_of_string].
      rewrite strip_no_space by (constructor; [reflexivity | apply digits_no_space]).
      reflexivity.
    - rewrite append_empty, strip_no_space by apply digits_no_space.
      destruct d; [congruence | reflexivity ..]. }
  rewrite Hbody, (int_digits_start d Hd). rewrite nat_N_Z. reflexivity.
Qed.

Lemma int_of_str (z : Z) : PyNum.int (str_of_Z z) = Some z.
Proof.
  unfold str_of_Z, str_of_nat.
  rewrite int_of_digits.
  - rewrite Unsigned.of_to. f_equal. destruct (Z.ltb_spec z 0); lia.
  - intros H. apply (unorm_nonnil (Nat.to_uint (Z.abs_nat z))).
    rewrite <- Unsigned.to_of, Unsigned.of_to. exact H.
Qed.

Lemma but_last_snoc (s : string) (u : ascii) : but_last (s +:+ String u "") = s.
Proof.
  induction s as [|c s IH]; [reflexivity |].
  rewrite append_cons. cbn [but_last]. rewrite IH.
  destruct s; reflexivity.
Qed.

Lemma last_char_snoc (s : string) (u : ascii) : last_char (s +:+ String u "") = Some u.
Proof.
  induction s as [|c s IH]; [reflexivity |].
  rewrite append_cons. cbn [last_char]. rewrite IH.
  destruct s; reflexivity.
Qed.

End Decimal.

(** X1. A period written as [str(z)] followed by one of the units [s], [m],
    [h], [d], [w] converts to [z] times the seconds of the unit, zero and
    negative magnitudes included; nothing is logged. *)
Theorem decimal_period_converts (z k : Z) (u : ascii) (st : State) :
  seconds_per_unit u = Some k ->
  convert_to_seconds (str_of_Z z +:+ String u "") st = (Ok (z * k)%Z, st).
Proof.
  intros Hu. unfold convert_to_seconds, try_except, lift, seconds_of.
  now rewrite but_last_snoc, last_char_snoc, int_of_str, Hu.
Qed.

Lemma decimal_period_converts_witness :
  convert_to_seconds "-15m" (initial_state ∅) = (Ok (-900)%Z, initial_state ∅).
Proof.
  apply (decimal_period_converts (-15) 60 "m" (initial_state ∅)).
  reflexivity.
Defined.

(** ** Which tags share an alarm name *)

Section NameClashes.

Lemma append_cancel_l (s t1 t2 : string) : s +:+ t1 = s +:+ t2 -> t1 = t2.
Proof.
  induction s as [|c s IH]; [now rewrite !append_empty |].
  rewrite !append_cons. intros H. injection H as H. auto.
Qed.

(** Names made of the same resource and of dash-free fields are equal only
    when the fields are. *)
Lemma joined_names_inj (resource : string) (fields1 fields2 : list string) :
  fields1 <> [] -> fields2 <> [] ->
  Forall dash_free fields1 -> Forall dash_free fields2 ->
  PyStr.join "-" ("AutoAlarm" :: resource :: fields1)
  = PyStr.join "-" ("AutoAlarm" :: resource :: fields2) ->
  fields1 = fields2.
Proof.
  intros Hne1 Hne2 Hfree1 Hfree2 Heq.
  rewrite (join_cons "AutoAlarm"), (join_cons resource) in Heq by congruence.
  rewrite (join_cons "AutoAlarm" (resource :: fields2)),
    (join_cons resource fields2) in Heq by congruence.
  do 4 apply append_cancel_l in Heq.
  apply (f_equal (PyStr.split "-")) in Heq.
  now rewrite !split_join in Heq.
Qed.

End NameClashes.

(** X2. For one function, two fixed-arity tags get the same alarm name from
    [process_lambda_alarms] exactly when they agree on namespace, metric
    name, comparator, period and statistic. *)
Theorem lambda_alarm_names_clash
    (function_name : string) (dimensions : list Dimension) (value1 value2 : string)
    (prefix1 Namespace1 MetricName1 ComparisonOperator1 Period1 Statistic1 : string)
    (prefix2 Namespace2 MetricName2 ComparisonOperator2 Period2 Statistic2 : string) :
  Forall dash_free
    [prefix1; Namespace1; MetricName1; ComparisonOperator1; Period1; Statistic1] ->
  Forall dash_free
    [prefix2; Namespace2; MetricName2; ComparisonOperator2; Period2; Statistic2] ->
  exists a1 a2,
    lambda_alarm_args function_name dimensions
      {| tag_Key :=
           PyStr.join "-"
             [prefix1; Namespace1; MetricName1; ComparisonOperator1; Period1; Statistic1];
         tag_Value := value1 |} = Ok a1 /\
    lambda_alarm_args function_name dimensions
      {| tag_Key :=
           PyStr.join "-"
             [prefix2; Namespace2; MetricName2; ComparisonOperator2; Period2; Statistic2];
         tag_Value := value2 |} = Ok a2 /\
    (ac_AlarmName a1 = ac_AlarmName a2 <->
     [Namespace1; MetricName1; ComparisonOperator1; Period1; Statistic1]
     = [Namespace2; MetricName2; ComparisonOperator2; Period2; Statistic2]).
Proof.
  intros H1 H2. unfold lambda_alarm_args; cbn [tag_Key tag_Value].
  rewrite (fixed_arity_split _ _ _ _ _ _ H1), (fixed_arity_split _ _ _ _ _ _ H2).
  cbn [item nth_error rbind]. eexists _, _. split; [reflexivity |].
  split; [reflexivity |]. cbn [ac_AlarmName].
  apply Forall_cons in H1 as [_ H1]. apply Forall_cons in H2 as [_ H2].
  split.
  - intros Heq.
    exact (joined_names_inj function_name
             [Namespace1; MetricName1; ComparisonOperator1; Period1; Statistic1]
             [Namespace2; MetricName2; ComparisonOperator2; Period2; Statistic2]
             ltac:(congruence) ltac:(congruence) H1 H2 Heq).
  - intros Heq. injection Heq as -> -> -> -> ->. reflexivity.
Qed.

Lemma lambda_alarm_names_clash_witness :
  exists a1 a2,
    lambda_alarm_args "my-fn" []
      {| tag_Key := "AutoAlarm-AWS/Lambda-Errors-GreaterThanThreshold-5m-Sum";
         tag_Value := "1" |} = Ok a1 /\
    lambda_alarm_args "my-fn" []
      {| tag_Key := "AutoAlarm-AWS/Lambda-Errors-GreaterThanThreshold-5m-Average";
         tag_Value := "1" |} = Ok a2 /\
    (ac_AlarmName a1 = ac_AlarmName a2 <->
     ["AWS/Lambda"; "Errors"; "GreaterThanThreshold"; "5m"; "Sum"]
     = ["AWS/Lambda"; "Errors"; "GreaterThanThreshold"; "5m"; "Average"]).
Proof.
  apply (lambda_alarm_names_clash "my-fn" [] "1" "1"
           "AutoAlarm" "AWS/Lambda" "Errors" "GreaterThanThreshold" "5m" "Sum"
           "AutoAlarm" "AWS/Lambda" "Errors" "GreaterThanThreshold" "5m" "Average");
    repeat constructor.
Defined.

(** X3. For one instance, two fixed-arity tags with dash-free values get the
    same alarm name from the ['AWS/EC2'] loop of [process_alarm_tags]
    exactly when they agree on namespace, metric name, comparator, tag value
    and period: the statistic plays no part, so two tags that differ in it
    alone are put under one name. *)
Theorem ec2_alarm_names_clash
    (instance_id : string) (dimensions : list Dimension) (value1 value2 : string)
    (prefix1 Namespace1 MetricName1 ComparisonOperator1 Period1 Statistic1 : string)
    (prefix2 Namespace2 MetricName2 ComparisonOperator2 Period2 Statistic2 : string) :
  Forall dash_free
    [prefix1; Namespace1; MetricName1; ComparisonOperator1; Period1; Statistic1] ->
  Forall dash_free
    [prefix2; Namespace2; MetricName2; ComparisonOperator2; Period2; Statistic2] ->
  dash_free value1 -> dash_free value2 ->
  exists a1 a2,
    ec2_alarm_args instance_id dimensions
      {| tag_Key :=
           PyStr.join "-"
             [prefix1; Namespace1; MetricName1; ComparisonOperator1; Period1; Statistic1];
         tag_Value := value1 |} = Ok a1 /\
    ec2_alarm_args instance_id dimensions
      {| tag_Key :=
           PyStr.join "-"
             [prefix2; Namespace2; MetricName2; ComparisonOperator2; Period2; Statistic2];
         tag_Value := value2 |} = Ok a2 /\
    (ac_AlarmName a1 = ac_AlarmName a2 <->
     [Namespace1; MetricName1; ComparisonOperator1; value1; Period1]
     = [Namespace2; MetricName2; ComparisonOperator2; value2; Period2]).
Proof.
  intros H1 H2 Hv1 Hv2. unfold ec2_alarm_args; cbn [tag_Key tag_Value].
  rewrite (fixed_arity_split _ _ _ _ _ _ H1), (fixed_arity_split _ _ _ _ _ _ H2).
  cbn [item nth_error rbind]. eexists _, _. split; [reflexivity |].
  split; [reflexivity |]. cbn [ac_AlarmName].
  repeat match goal with
         | H : Forall dash_free (_ :: _) |- _ => apply Forall_cons in H as [? H]
         end.
  split.
  - intros Heq.
    refine (joined_names_inj instance_id
              [Namespace1; MetricName1; ComparisonOperator1; value1; Period1]
              [Namespace2; MetricName2; ComparisonOperator2; value2; Period2]
              ltac:(congruence) ltac:(congruence) _ _ Heq);
      repeat constructor; assumption.
  - intros Heq. injection Heq as -> -> -> -> ->. reflexivity.
Qed.

Lemma ec2_alarm_names_clash_witness :
  exists a1 a2,
    ec2_alarm_args "i-1" []
      {| tag_Key := "AutoAlarm-AWS/EC2-CPUUtilization-GreaterThanThreshold-5m-Average";
         tag_Value := "80" |} = Ok a1 /\
    ec2_alarm_args "i-1" []
      {| tag_Key := "AutoAlarm-AWS/EC2-CPUUtilization-GreaterThanThreshold-5m-Maximum";
         tag_Value := "80" |} = Ok a2 /\
    (ac_AlarmName a1 = ac_AlarmName a2 <->
     ["AWS/EC2"; "CPUUtilization"; "GreaterThanThreshold"; "80"; "5m"]
     = ["AWS/EC2"; "CPUUtilization"; "GreaterThanThreshold"; "80"; "5m"]).
Proof.
  apply (ec2_alarm_names_clash "i-1" [] "80" "80"
           "AutoAlarm" "AWS/EC2" "CPUUtilization" "GreaterThanThreshold" "5m" "Average"
           "AutoAlarm" "AWS/EC2" "CPUUtilization" "GreaterThanThreshold" "5m" "Maximum");
    repeat constructor.
Defined.

(** ** Keys with too few or ill-paired fields *)

Section Bounds.

Lemma evens_pairs_snoc (pairs : list (string * string)) (n v : string) (rest : list string) :
  evens (pair_tokens ((n, v) :: pairs) ++ rest) = n :: evens (pair_tokens pairs ++ rest).
Proof. reflexivity. Qed.

(** With a token left over after the pairs, the loop over the pairs asks for
    a value beyond the end. *)
Lemma dimension_loop_odd (pairs pre : list (string * string)) (lonely : string)
    (acc : list Dimension * string * nat) :
  dimension_loop (pair_tokens (pre ++ pairs) ++ [lonely])
    (evens (pair_tokens pairs ++ [lonely])) (length pre) acc
  = Raise IndexError.
Proof.
  revert pre acc. induction pairs as [|[n v] pairs IH]; intros pre acc.
  - rewrite app_nil_r. cbn [pair_tokens flat_map app evens dimension_loop].
    replace (nth_error (pair_tokens pre ++ [lonely]) (length pre * 2 + 1))
      with (@None string); [reflexivity |].
    symmetry. apply nth_error_None. rewrite length_app, length_pair_tokens. cbn. lia.
  - rewrite evens_pairs_snoc. cbn [dimension_loop].
    rewrite nth_error_app1
      by (rewrite length_pair_tokens, length_app; cbn [length]; lia).
    rewrite nth_pair_value. destruct acc as [[total name] off].
    replace (pre ++ (n, v) :: pairs) with ((pre ++ [(n, v)]) ++ pairs)
      by now rewrite <- app_assoc.
    replace (S (length pre)) with (length (pre ++ [(n, v)]))
      by (rewrite length_app; simpl; lia).
    apply IH.
Qed.

End Bounds.

(** X4. An agent-namespace key with an odd number of tokens between the
    metric name and the comparator (pairs, then one token without a value)
    makes the agent loop body raise [IndexError]; nothing is logged and no
    alarm is built from the pairs that were complete. *)
Theorem odd_dimension_tokens_raise
    (instance_id prefix Namespace MetricName lonely ComparisonOperator Period Statistic
       value : string)
    (pairs : list (string * string)) (cw_agent_dimensions : list Dimension) (st : State) :
  Forall dash_free
    (prefix :: Namespace :: MetricName
       :: (pair_tokens pairs ++ [lonely]) ++ [ComparisonOperator; Period; Statistic]) ->
  Forall (fun t => is_comparator t = false) (pair_tokens pairs ++ [lonely]) ->
  is_comparator ComparisonOperator = true ->
  agent_alarm_args instance_id cw_agent_dimensions
    {| tag_Key :=
         PyStr.join "-"
           (prefix :: Namespace :: MetricName
              :: (pair_tokens pairs ++ [lonely]) ++ [ComparisonOperator; Period; Statistic]);
       tag_Value := value |} st
  = (Raise IndexError, st).
Proof.
  intros Hfree Hdims Hcmp.
  unfold agent_alarm_args; cbn [tag_Key tag_Value].
  rewrite split_join by (congruence || exact Hfree).
  cbn [drop]. rewrite !drop_0, (find_comparator_first _ _ _ _ Hdims Hcmp).
  unfold bind, index, ret, lift; cbn [nth_error Nat.add Nat.sub].
  rewrite Nat.sub_0_r, take_app_length.
  destruct (pair_tokens pairs ++ [lonely]) as [|t ts] eqn:E;
    [now destruct (pair_tokens pairs) |].
  rewrite <- E.
  now rewrite (dimension_loop_odd pairs [] lonely).
Qed.

Lemma odd_dimension_tokens_raise_witness :
  agent_alarm_args "i-1" []
    {| tag_Key :=
         "AutoAlarm-CWAgent-disk_used_percent-device-xvda1-fstype-GreaterThanThreshold-5m-Average";
       tag_Value := "90" |} (initial_state ∅)
  = (Raise IndexError, initial_state ∅).
Proof.
  apply (odd_dimension_tokens_raise "i-1" "AutoAlarm" "CWAgent" "disk_used_percent" "fstype"
           "GreaterThanThreshold" "5m" "Average" "90" [("device", "xvda1")] []
           (initial_state ∅)).
  - repeat constructor.
  - repeat constructor.
  - reflexivity.
Defined.

(** X5. A tag whose key has fewer than six dash-separated fields makes the
    ['AWS/EC2'] loop of [process_alarm_tags] raise [IndexError] at that tag:
    the tags before it have been processed, those after it are not, and the
    tag itself causes no call and no log line. *)
Theorem short_key_aborts_ec2_loop
    (client : Boto3.Client) (instance_id : string) (dimensions : list Dimension)
    (sns_topic_arn : option string) (before after : list Tag) (tag : Tag)
    (st st' : State) :
  length (PyStr.split "-" (tag_Key tag)) < 6 ->
  ec2_loop client instance_id dimensions sns_topic_arn before st = (Ok tt, st') ->
  ec2_loop client instance_id dimensions sns_topic_arn (before ++ tag :: after) st
  = (Raise IndexError, st').
Proof.
  intros Hshort Hbefore. unfold ec2_loop in *.
  rewrite for_each_app, Hbefore. apply for_each_raise.
  unfold bind, lift, ec2_alarm_args, rbind, item.
  destruct (PyStr.split "-" (tag_Key tag)) as [|t0 [|t1 [|t2 [|t3 [|t4 [|t5 ts]]]]]];
    cbn in Hshort |- *; try reflexivity. lia.
Qed.

Lemma short_key_aborts_ec2_loop_witness :
  ec2_loop (linux_account []) "i-1" [] None
    ([cpu_tag] ++ {| tag_Key := "AutoAlarm-AWS/EC2-CPUUtilization"; tag_Value := "80" |}
       :: [status_tag])
    (initial_state ∅)
  = (Raise IndexError, snd (ec2_loop (linux_account []) "i-1" [] None [cpu_tag] (initial_state ∅))).
Proof.
  apply (short_key_aborts_ec2_loop (linux_account []) "i-1" [] None [cpu_tag] [status_tag]
           {| tag_Key := "AutoAlarm-AWS/EC2-CPUUtilization"; tag_Value := "80" |}
           (initial_state ∅)).
  - vm_compute. lia.
  - reflexivity.
Defined.

(** ** The calls a routine makes *)

Section CallsOnly.

Variable client : Boto3.Client.
Variable P : Boto3.Call -> Prop.

Lemma calls_only_quiet {A} (m : M A) :
  (forall st, calls (snd (m st)) = calls st) -> calls_only P m.
Proof. intros H st. exists []. now rewrite app_nil_r, H. Qed.

Lemma calls_only_ret {A} (a : A) : calls_only P (ret a).
Proof. now apply calls_only_quiet. Qed.

Lemma calls_only_raise {A} (e : PyExc) : calls_only P (@raise A e).
Proof. now apply calls_only_quiet. Qed.

Lemma calls_only_lift {A} (r : Result A) : calls_only P (lift r).
Proof. now apply calls_only_quiet. Qed.

Lemma calls_only_log (lvl : Level) (msg : LogMsg) : calls_only P (log lvl msg).
Proof. now apply calls_only_quiet. Qed.

Lemma calls_only_getitem {A} (o : option A) : calls_only P (getitem o).
Proof. apply calls_only_quiet. intros st. now destruct o. Qed.

Lemma calls_only_index {A} (l : list A) (i : nat) : calls_only P (index l i).
Proof. apply calls_only_quiet. intros st. unfold index. now destruct (nth_error l i). Qed.

Lemma calls_only_tags_of (ns : string) : calls_only P (tags_of ns).
Proof.
  apply calls_only_quiet. intros st. unfold tags_of.
  destruct (default_alarms st !! ns) as [[l|m]|]; try reflexivity.
  now destruct (decide (m = ∅)).
Qed.

Lemma calls_only_platform_tags_of (ns : string) (platform : option string) :
  calls_only P (platform_tags_of ns platform).
Proof.
  apply calls_only_quiet. intros st. unfold platform_tags_of.
  destruct (default_alarms st !! ns) as [[l|m]|]; try reflexivity.
  now destruct (m !! platform).
Qed.

Lemma calls_only_append_tag (ns : string) (tag : Tag) : calls_only P (append_tag ns tag).
Proof.
  apply calls_only_quiet. intros st. unfold append_tag.
  now destruct (default_alarms st !! ns) as [[l|m]|].
Qed.

Lemma calls_only_append_platform_tag (ns : string) (platform : option string) (tag : Tag) :
  calls_only P (append_platform_tag ns platform tag).
Proof.
  apply calls_only_quiet. intros st. unfold append_platform_tag.
  destruct (default_alarms st !! ns) as [[l|m]|]; try reflexivity.
  now destruct (m !! platform).
Qed.

(** Sequencing, with what is known of the value passed on. *)
Lemma calls_only_bind_post {A B} (Q : A -> Prop) (m : M A) (k : A -> M B) :
  calls_only P m ->
  (forall st a st', m st = (Ok a, st') -> Q a) ->
  (forall a, Q a -> calls_only P (k a)) ->
  calls_only P (bind m k).
Proof.
  intros Hm Hpost Hk st. unfold bind.
  destruct (Hm st) as (new1 & Hcalls1 & Hnew1).
  destruct (m st) as [[a|e] st1] eqn:Hrun; cbn [snd] in *.
  - destruct (Hk a (Hpost _ _ _ Hrun) st1) as (new2 & Hcalls2 & Hnew2).
    exists (new1 ++ new2). rewrite Hcalls2, Hcalls1, <- app_assoc.
    split; [reflexivity | now apply Forall_app].
  - now exists new1.
Qed.

Lemma calls_only_bind {A B} (m : M A) (k : A -> M B) :
  calls_only P m -> (forall a, calls_only P (k a)) -> calls_only P (bind m k).
Proof.
  intros Hm Hk. apply (calls_only_bind_post (fun _ => True)); auto.
Qed.

Lemma calls_only_try {A} (m : M A) (h : PyExc -> M A) :
  calls_only P m -> (forall e, calls_only P (h e)) -> calls_only P (try_except m h).
Proof.
  intros Hm Hh st. unfold try_except.
  destruct (Hm st) as (new1 & Hcalls1 & Hnew1).
  destruct (m st) as [[a|e] st1]; cbn [snd] in *.
  - now exists new1.
  - destruct (Hh e st1) as (new2 & Hcalls2 & Hnew2).
    exists (new1 ++ new2). rewrite Hcalls2, Hcalls1, <- app_assoc.
    split; [reflexivity | now apply Forall_app].
Qed.

Lemma calls_only_for_each {A} (l : list A) (body : A -> M unit) :
  (forall x, calls_only P (body x)) -> calls_only P (for_each l body).
Proof.
  intros Hbody. induction l as [|x l IH]; cbn.
  - apply calls_only_ret.
  - apply calls_only_bind; auto.
Qed.

Lemma calls_only_put (alarm : Alarm) :
  P (Boto3.PutMetricAlarm alarm) -> calls_only P (call_put_metric_alarm client alarm).
Proof. intros HP st. exists [Boto3.PutMetricAlarm alarm]. split; [reflexivity | auto]. Qed.

Lemma calls_only_describe_images (ids : list string) :
  P (Boto3.DescribeImages ids) -> calls_only P (call_describe_images client ids).
Proof. intros HP st. exists [Boto3.DescribeImages ids]. split; [reflexivity | auto]. Qed.

End CallsOnly.

#[export] Hint Resolve calls_only_ret calls_only_raise calls_only_lift calls_only_log
  calls_only_getitem calls_only_index calls_only_tags_of calls_only_platform_tags_of
  calls_only_append_tag calls_only_append_platform_tag : frame.

(** Goes through a computation as [frame] does, for the calls it makes. *)
Ltac calls :=
  repeat first
    [ solve [auto with frame]
    | apply calls_only_bind; [| intros ?]
    | apply calls_only_try; [| intros ?]
    | apply calls_only_for_each; intros ?
    | match goal with
      | |- calls_only _ (match ?x with _ => _ end) => destruct x
      end ].

Section CallsOfActions.

Variable client : Boto3.Client.

Lemma prefix_append (p t : string) : String.prefix p (p +:+ t) = true.
Proof.
  induction p as [|c p IH]; [now destruct t |].
  rewrite append_cons. cbn. rewrite IH. now destruct (ascii_dec c c).
Qed.

Lemma prefix_append_r (p s t : string) :
  String.prefix p s = true -> String.prefix p (s +:+ t) = true.
Proof.
  revert s. induction p as [|c p IH]; intros s; [now destruct (s +:+ t) |].
  destruct s as [|d s]; [discriminate |]. rewrite append_cons. cbn.
  destruct (ascii_dec c d); [apply IH | discriminate].
Qed.

(** The calls of [create_alarm]: at most the put of an alarm with the name,
    the namespace and the dimensions it was given. *)
Lemma calls_of_create_alarm (Q : Boto3.Call -> Prop)
    (AlarmName MetricName ComparisonOperator Period Threshold Statistic Namespace : string)
    (Dimensions : list Dimension) (sns_topic_arn : option string) :
  (forall period threshold,
      Q (Boto3.PutMetricAlarm
           (alarm_of AlarmName MetricName ComparisonOperator period threshold Statistic
              Namespace Dimensions sns_topic_arn))) ->
  calls_only Q
    (create_alarm client AlarmName MetricName ComparisonOperator Period Threshold Statistic
       Namespace Dimensions sns_topic_arn).
Proof.
  intros HQ. unfold create_alarm, convert_to_seconds.
  apply calls_only_bind; [calls | intros period].
  apply calls_only_bind; [calls | intros threshold].
  apply calls_only_try; [| intros e; calls].
  apply calls_only_bind; [apply calls_only_put, HQ | intros _; calls].
Qed.

End CallsOfActions.

Section Returns.

Lemma returns_ret {A} (Q : A -> Prop) (a : A) : Q a -> returns_only Q (ret a).
Proof. intros HQ st a' st' H. now inversion H; subst. Qed.

Lemma returns_raise {A} (Q : A -> Prop) (e : PyExc) : returns_only Q (@raise A e).
Proof. intros st a st' H. discriminate. Qed.

Lemma returns_lift {A} (Q : A -> Prop) (r : Result A) :
  (forall a, r = Ok a -> Q a) -> returns_only Q (lift r).
Proof. intros HQ st a st' H. inversion H; subst. now apply HQ. Qed.

Lemma returns_getitem {A} (o : option A) : returns_only (fun a => o = Some a) (getitem o).
Proof. intros st a st' H. destruct o; now inversion H. Qed.

Lemma returns_bind_post {A B} (R : A -> Prop) (Q : B -> Prop) (m : M A) (k : A -> M B) :
  returns_only R m -> (forall a, R a -> returns_only Q (k a)) ->
  returns_only Q (bind m k).
Proof.
  intros Hm Hk st b st' H. unfold bind in H.
  destruct (m st) as [[a|e] st1] eqn:Hrun; [| discriminate].
  exact (Hk a (Hm _ _ _ Hrun) _ _ _ H).
Qed.

Lemma returns_bind {A B} (Q : B -> Prop) (m : M A) (k : A -> M B) :
  (forall a, returns_only Q (k a)) -> returns_only Q (bind m k).
Proof.
  intros Hk. apply (returns_bind_post (fun _ => True)); [now intros ? ? ? _ | auto].
Qed.

End Returns.

Section NamesOfAlarms.

Variable client : Boto3.Client.

Lemma format_alarm_name6_prefix (a b c d e f : string) :
  PyStr.startswith (format_alarm_name6 a b c d e f) ("AutoAlarm-" +:+ a +:+ "-") = true.
Proof.
  unfold PyStr.startswith, format_alarm_name6.
  replace ("AutoAlarm-" +:+ a +:+ "-" +:+ b +:+ "-" +:+ c +:+ "-" +:+ d +:+ "-" +:+ e
             +:+ "-" +:+ f)
    with (("AutoAlarm-" +:+ a +:+ "-") +:+ (b +:+ "-" +:+ c +:+ "-" +:+ d +:+ "-" +:+ e
             +:+ "-" +:+ f))
    by now rewrite !append_assoc.
  apply prefix_append.
Qed.

Lemma lambda_alarm_args_post (function_name : string) (dimensions : list Dimension)
    (tag : Tag) (a : AlarmCall) :
  lambda_alarm_args function_name dimensions tag = Ok a ->
  PyStr.startswith (ac_AlarmName a) ("AutoAlarm-" +:+ function_name +:+ "-") = true /\
  ac_Dimensions a = dimensions.
Proof.
  unfold lambda_alarm_args, rbind, item. intros H.
  repeat match type of H with
         | context [nth_error ?l ?i] => destruct (nth_error l i); try discriminate
         end.
  inversion H; subst; cbn. split; [apply format_alarm_name6_prefix | reflexivity].
Qed.

Lemma ec2_alarm_args_post (instance_id : string) (dimensions : list Dimension)
    (tag : Tag) (a : AlarmCall) :
  ec2_alarm_args instance_id dimensions tag = Ok a ->
  PyStr.startswith (ac_AlarmName a) ("AutoAlarm-" +:+ instance_id +:+ "-") = true /\
  ac_Dimensions a = dimensions.
Proof.
  unfold ec2_alarm_args, rbind, item. intros H.
  repeat match type of H with
         | context [nth_error ?l ?i] => destruct (nth_error l i); try discriminate
         end.
  inversion H; subst; cbn. split; [apply format_alarm_name6_prefix | reflexivity].
Qed.

(** The loop over the pairs only adds to the name. *)
Lemma dimension_loop_prefix (p : string) (additional items : list string) (num : nat)
    (acc acc' : list Dimension * string * nat) :
  dimension_loop additional items num acc = Ok acc' ->
  String.prefix p (snd (fst acc)) = true ->
  String.prefix p (snd (fst acc')) = true.
Proof.
  revert num acc. induction items as [|dim items IH]; intros num acc; cbn.
  - intros H; now inversion H.
  - destruct (nth_error additional (num * 2 + 1)) as [val|]; [| discriminate].
    destruct acc as [[total name] off]. intros H Hp.
    apply (IH _ _ H). cbn. now apply prefix_append_r.
Qed.

Lemma agent_alarm_args_post (instance_id : string) (cw_agent_dimensions : list Dimension)
    (tag : Tag) :
  returns_only
    (fun a =>
       PyStr.startswith (ac_AlarmName a) ("AutoAlarm-" +:+ instance_id +:+ "-") = true)
    (agent_alarm_args instance_id cw_agent_dimensions tag).
Proof.
  unfold agent_alarm_args.
  apply returns_bind; intros Namespace.
  apply returns_bind; intros MetricName.
  apply returns_bind; intros additional.
  apply (returns_bind_post
           (fun acc =>
              String.prefix ("AutoAlarm-" +:+ instance_id +:+ "-") (snd (fst acc)) = true)).
  - apply returns_lift. intros acc Hacc.
    assert (Hbase :
      String.prefix ("AutoAlarm-" +:+ instance_id +:+ "-")
        ("AutoAlarm-" +:+ instance_id +:+ "-" +:+ Namespace +:+ "-" +:+ MetricName) = true).
    { replace ("AutoAlarm-" +:+ instance_id +:+ "-" +:+ Namespace +:+ "-" +:+ MetricName)
        with (("AutoAlarm-" +:+ instance_id +:+ "-") +:+ (Namespace +:+ "-" +:+ MetricName))
        by now rewrite !append_assoc.
      apply prefix_append. }
    destruct additional.
    + now inversion Hacc.
    + exact (dimension_loop_prefix _ _ _ _ _ _ Hacc Hbase).
  - intros [[total name] off] Hname. cbn in Hname.
    apply returns_bind; intros ComparisonOperator.
    apply returns_bind; intros Period.
    apply returns_bind; intros Statistic.
    apply returns_ret. cbn. unfold PyStr.startswith. now apply prefix_append_r.
Qed.

Lemma calls_of_agent_alarm_args (Q : Boto3.Call -> Prop) (instance_id : string)
    (cw_agent_dimensions : list Dimension) (tag : Tag) :
  calls_only Q (agent_alarm_args instance_id cw_agent_dimensions tag).
Proof. unfold agent_alarm_args. calls. Qed.

Lemma calls_of_agent_dimensions (Q : Boto3.Call -> Prop) (instance_id : string)
    (instance_info : InstanceInfo) (instance_tags : list Tag) (names : list string)
    (acc : list Dimension) :
  calls_only Q (agent_dimensions instance_id instance_info instance_tags names acc).
Proof.
  revert acc. induction names as [|n names IH]; intros acc; cbn [agent_dimensions].
  - apply calls_only_ret.
  - destruct (String.eqb n "AutoScalingGroupName").
    + destruct (is_truthy _); apply IH.
    + destruct (is_truthy_value _); [apply IH |].
      apply calls_only_bind; [apply calls_only_log | auto].
Qed.

(** A [create_alarm] call for arguments named after the resource puts, if
    anything, an alarm of the resource. *)
Lemma calls_of_call_create_alarm (resource : string) (sns_topic_arn : option string)
    (a : AlarmCall) :
  PyStr.startswith (ac_AlarmName a) ("AutoAlarm-" +:+ resource +:+ "-") = true ->
  calls_only
    (fun c =>
       puts_alarm_of resource sns_topic_arn c /\
       forall alarm, c = Boto3.PutMetricAlarm alarm -> Dimensions alarm = ac_Dimensions a)
    (call_create_alarm client a sns_topic_arn).
Proof.
  intros Hname. unfold call_create_alarm. apply calls_of_create_alarm.
  intros period threshold. split.
  - eexists. split; [reflexivity |]. cbn. auto.
  - intros alarm H. now inversion H.
Qed.

End NamesOfAlarms.

Lemma calls_only_weaken {A} (P Q : Boto3.Call -> Prop) (m : M A) :
  (forall c, P c -> Q c) -> calls_only P m -> calls_only Q m.
Proof.
  intros HPQ Hm st. destruct (Hm st) as (new & Hcalls & Hnew).
  exists new. split; [exact Hcalls |]. exact (Forall_impl _ _ _ Hnew HPQ).
Qed.

(** X6. Whatever the tags, the defaults and the answers of the store,
    [process_lambda_alarms] calls nothing but [put_metric_alarm], and every
    alarm it puts is named [AutoAlarm-<function_name>-...] (so that
    [delete_alarms function_name] lists it), has the single dimension
    [FunctionName], one evaluation period and the configured topic, if any,
    as its only action. *)
Theorem lambda_puts_only_own_alarms
    (client : Boto3.Client) (function_name activation_tag : string)
    (tags : list (string * string)) (sns_topic_arn : option string) :
  calls_only
    (fun c =>
       puts_alarm_of function_name sns_topic_arn c /\
       forall alarm,
         c = Boto3.PutMetricAlarm alarm ->
         Dimensions alarm = [{| dim_Name := "FunctionName"; dim_Value := function_name |}])
    (process_lambda_alarms client function_name tags activation_tag sns_topic_arn).
Proof.
  unfold process_lambda_alarms.
  destruct (String.eqb _ "not_found"); [calls |].
  apply calls_only_bind; [calls | intros _].
  apply calls_only_bind; [calls | intros _].
  apply calls_only_bind; [calls | intros lambda_tags].
  apply calls_only_bind; [| intros _; calls].
  apply calls_only_for_each. intros tag.
  apply (calls_only_bind_post _
           (fun a =>
              PyStr.startswith (ac_AlarmName a) ("AutoAlarm-" +:+ function_name +:+ "-") = true
              /\ ac_Dimensions a
                 = [{| dim_Name := "FunctionName"; dim_Value := function_name |}])).
  - calls.
  - intros st a st' H. inversion H as [Hargs]. now apply lambda_alarm_args_post in Hargs.
  - intros a [Hname Hdims]. rewrite <- Hdims.
    now apply calls_of_call_create_alarm.
Qed.

(** X7. Whatever the instance, the configuration and the answers of the
    services, [process_alarm_tags] makes no call but [describe_images] for
    the instance's image and [put_metric_alarm], and every alarm it puts is
    named [AutoAlarm-<instance_id>-...] (so that [delete_alarms instance_id]
    lists it), has one evaluation period and the configured topic, if any,
    as its only action. It never lists or deletes alarms. *)
Theorem instance_puts_only_own_alarms
    (client : Boto3.Client) (instance_id : string) (instance_info : InstanceInfo)
    (metric_dimensions_map : gmap string (list string))
    (sns_topic_arn : option string) (cw_namespace : string) :
  calls_only
    (fun c =>
       (exists ImageId,
           dict_get (info_attrs instance_info) "ImageId" = Some ImageId /\
           c = Boto3.DescribeImages [ImageId])
       \/ puts_alarm_of instance_id sns_topic_arn c)
    (process_alarm_tags client instance_id instance_info metric_dimensions_map
       sns_topic_arn cw_namespace).
Proof.
  unfold process_alarm_tags.
  apply calls_only_bind; [calls | intros instance_tags].
  apply (calls_only_bind_post _
           (fun i => dict_get (info_attrs instance_info) "ImageId" = Some i));
    [calls | apply returns_getitem | intros ImageId HImage].
  apply calls_only_bind; [calls | intros _].
  apply calls_only_bind; [| intros platform].
  { unfold determine_platform, classify_image. apply calls_only_try; [| intros e; calls].
    apply calls_only_bind; [| intros response; calls].
    apply calls_only_describe_images. left. eauto. }
  apply calls_only_bind; [calls | intros _].
  apply calls_only_bind; [unfold collect_instance_tags; calls | intros _].
  apply calls_only_bind; [calls | intros ec2_tags].
  apply calls_only_bind; [| intros _].
  { unfold ec2_loop. apply calls_only_for_each. intros tag.
    apply (calls_only_bind_post _
             (fun a =>
                PyStr.startswith (ac_AlarmName a) ("AutoAlarm-" +:+ instance_id +:+ "-")
                = true)).
    - calls.
    - intros st a st' H. inversion H as [Hargs]. now apply ec2_alarm_args_post in Hargs.
    - intros a Hname.
      eapply calls_only_weaken;
        [| exact (calls_of_call_create_alarm client instance_id sns_topic_arn a Hname)].
      intros c [Hput _]. now right. }
  apply calls_only_bind; [apply calls_of_agent_dimensions | intros cw_agent_dimensions].
  apply calls_only_bind; [calls | intros _].
  apply calls_only_bind; [calls | intros agent_tags].
  apply calls_only_bind; [| intros _; calls].
  unfold agent_loop. apply calls_only_for_each. intros tag.
  apply (calls_only_bind_post _
           (fun a =>
              PyStr.startswith (ac_AlarmName a) ("AutoAlarm-" +:+ instance_id +:+ "-")
              = true)).
  - apply calls_of_agent_alarm_args.
  - apply agent_alarm_args_post.
  - intros a Hname.
    eapply calls_only_weaken;
        [| exact (calls_of_call_create_alarm client instance_id sns_topic_arn a Hname)].
    intros c [Hput _]. now right.
Qed.

(** ** [delete_alarms] when a call fails *)

Section DeleteFailures.

Variable client : Boto3.Client.

(** Collecting the names touches nothing, and fails only on an entry
    without ['AlarmName']. *)
Lemma alarm_names_run (alarms : list Boto3.MetricAlarm) (acc : list string) (st : State) :
  (exists names, alarm_names alarms acc st = (Ok names, st)) \/
  alarm_names alarms acc st = (Raise KeyError, st).
Proof.
  revert acc. induction alarms as [|[[n|]] alarms IH]; intros acc; cbn.
  - left. now exists acc.
  - unfold bind, getitem; cbn. apply IH.
  - now right.
Qed.

End DeleteFailures.

(** [delete_alarms] step by step, by the answers it gets. *)
Lemma delete_alarms_steps (client : Boto3.Client) (name : string) (st : State) :
  let prefix := "AutoAlarm-" +:+ name in
  let st1 :=
    {| calls := calls st ++ [Boto3.DescribeAlarms prefix];
       logs := logs st ++ [(INFO, CallingDescribeAlarms prefix)];
       default_alarms := default_alarms st |} in
  let failed e s := (Ok PyNone, with_logs s (logs s ++ [(ERROR, ErrorDeletingAlarms name e)])) in
  delete_alarms client name st
  = match Boto3.describe_alarms client (calls st) prefix with
    | Raise e => failed e st1
    | Ok response =>
        match
          match Boto3.MetricAlarms response with
          | Some alarms => alarm_names alarms []
          | None => ret []
          end (with_logs st1 (logs st1 ++ [(INFO, ResponseFromDescribeAlarms)]))
        with
        | (Raise e, st2) => failed e st2
        | (Ok names, st2) =>
            let st3 :=
              {| calls := calls st2 ++ [Boto3.DeleteAlarms names];
                 logs := logs st2 ++ [(INFO, DeletingAlarms names name)];
                 default_alarms := default_alarms st2 |} in
            match Boto3.delete_alarms client (calls st2) names with
            | Ok _ => (Ok PyTrue, st3)
            | Raise e => failed e st3
            end
        end
    end.
Proof.
  cbv zeta. unfold delete_alarms, try_except.
  unfold bind at 1. unfold log at 1. cbv beta iota.
  unfold bind at 1. unfold call_describe_alarms at 1. cbn [calls with_logs with_calls].
  destruct (Boto3.describe_alarms client (calls st) ("AutoAlarm-" +:+ name))
    as [response|e]; [| reflexivity].
  unfold bind at 1. unfold log at 1. cbv beta iota.
  unfold bind at 1.
  set (names_of := match Boto3.MetricAlarms response with
                   | Some alarms => alarm_names alarms []
                   | None => ret []
                   end).
  unfold with_logs, with_calls; cbn [calls logs default_alarms].
  match goal with
  | |- context [names_of ?s] => destruct (names_of s) as [[names|e] st2]
  end; [| reflexivity].
  unfold bind, log, call_delete_alarms, ret; cbn.
  now destruct (Boto3.delete_alarms client (calls st2) names).
Qed.

(** X8. [delete_alarms] never raises: it returns [True], or it returns
    [None] with 'Error deleting alarms' as its last log line. It always asks
    for the listing under [AutoAlarm-<name>], makes at most one delete call
    after it and no other call. *)
Theorem delete_alarms_never_raises (client : Boto3.Client) (name : string) (st : State) :
  let run := delete_alarms client name st in
  let listing := Boto3.DescribeAlarms ("AutoAlarm-" +:+ name) in
  (fst run = Ok PyTrue \/
   (fst run = Ok PyNone /\
    exists e, last (logs (snd run)) = Some (ERROR, ErrorDeletingAlarms name e))) /\
  (calls (snd run) = calls st ++ [listing] \/
   exists names, calls (snd run) = calls st ++ [listing; Boto3.DeleteAlarms names]).
Proof.
  cbv zeta. rewrite delete_alarms_steps. cbv zeta.
  destruct (Boto3.describe_alarms client (calls st) ("AutoAlarm-" +:+ name))
    as [response|e].
  - set (st1 := with_logs _ _).
    assert (Hnames :
      (exists names,
          match Boto3.MetricAlarms response with
          | Some alarms => alarm_names alarms []
          | None => ret []
          end st1 = (Ok names, st1)) \/
      match Boto3.MetricAlarms response with
      | Some alarms => alarm_names alarms []
      | None => ret []
      end st1 = (Raise KeyError, st1)).
    { destruct (Boto3.MetricAlarms response); [apply alarm_names_run |].
      left. now exists []. }
    destruct Hnames as [[names ->] | ->].
    + destruct (Boto3.delete_alarms client (calls st1) names); cbn.
      * split; [now left |]. right. exists names. now rewrite <- app_assoc.
      * split; [right; split; [reflexivity | exists e; apply last_snoc] |].
        right. exists names. now rewrite <- app_assoc.
    + cbn. split; [right; split; [reflexivity | exists KeyError; apply last_snoc] |].
      now left.
  - cbn. split; [right; split; [reflexivity | exists e; apply last_snoc] |].
    now left.
Qed.

(** X9. When the listing fails, [delete_alarms] deletes nothing: it logs
    the error of the listing and returns [None] after that one call. *)
Theorem failed_listing_deletes_nothing
    (client : Boto3.Client) (name : string) (e : PyExc) (st : State) :
  Boto3.describe_alarms client (calls st) ("AutoAlarm-" +:+ name) = Raise e ->
  delete_alarms client name st
  = (Ok PyNone,
     {| calls := calls st ++ [Boto3.DescribeAlarms ("AutoAlarm-" +:+ name)];
        logs := (logs st ++ [(INFO, CallingDescribeAlarms ("AutoAlarm-" +:+ name))])
                  ++ [(ERROR, ErrorDeletingAlarms name e)];
        default_alarms := default_alarms st |}).
Proof.
  intros Hlist. rewrite delete_alarms_steps. cbv zeta. now rewrite Hlist.
Qed.

Lemma failed_listing_deletes_nothing_witness :
  delete_alarms unlistable_account "i-1" (initial_state ∅)
  = (Ok PyNone,
     {| calls := calls (initial_state ∅) ++ [Boto3.DescribeAlarms ("AutoAlarm-" +:+ "i-1")];
        logs := (logs (initial_state ∅)
                   ++ [(INFO, CallingDescribeAlarms ("AutoAlarm-" +:+ "i-1"))])
                  ++ [(ERROR, ErrorDeletingAlarms "i-1" (ClientError "AccessDenied"))];
        default_alarms := default_alarms (initial_state ∅) |}).
Proof.
  apply (failed_listing_deletes_nothing unlistable_account "i-1"
           (ClientError "AccessDenied") (initial_state ∅)).
  reflexivity.
Defined.

(** X10. A listing with an entry that has no ['AlarmName'] ends
    [delete_alarms] before the delete call, whatever the other entries:
    [KeyError] is logged and the result is [None]. *)
Theorem nameless_alarm_deletes_nothing
    (client : Boto3.Client) (name : string) (response : Boto3.AlarmsResponse)
    (alarms : list Boto3.MetricAlarm) (st : State) :
  Boto3.describe_alarms client (calls st) ("AutoAlarm-" +:+ name) = Ok response ->
  Boto3.MetricAlarms response = Some alarms ->
  In {| Boto3.MetricAlarmName := None |} alarms ->
  let run := delete_alarms client name st in
  fst run = Ok PyNone /\
  calls (snd run) = calls st ++ [Boto3.DescribeAlarms ("AutoAlarm-" +:+ name)] /\
  last (logs (snd run)) = Some (ERROR, ErrorDeletingAlarms name KeyError).
Proof.
  intros Hlist Halarms Hin run. subst run.
  rewrite delete_alarms_steps. cbv zeta. rewrite Hlist, Halarms.
  set (st2 := with_logs _ _).
  assert (Hnames : forall acc, alarm_names alarms acc st2 = (Raise KeyError, st2)).
  { clear -Hin. induction alarms as [|[[n|]] alarms IH]; intros acc; cbn.
    - destruct Hin.
    - unfold bind, getitem; cbn. apply IH. destruct Hin as [H | H]; [discriminate | exact H].
    - reflexivity. }
  rewrite Hnames. cbn. repeat split. apply last_snoc.
Qed.

Lemma nameless_alarm_deletes_nothing_witness :
  let nameless :=
    fixed_client (one_image "Linux/UNIX" "" "") (fun _ => Ok tt)
      (fun _ =>
         Ok {| Boto3.MetricAlarms :=
                 Some [{| Boto3.MetricAlarmName := Some "AutoAlarm-i-1-a" |};
                       {| Boto3.MetricAlarmName := None |}] |})
      (fun _ => Ok tt) in
  let run := delete_alarms nameless "i-1" (initial_state ∅) in
  fst run = Ok PyNone /\
  calls (snd run)
  = calls (initial_state ∅) ++ [Boto3.DescribeAlarms ("AutoAlarm-" +:+ "i-1")] /\
  last (logs (snd run)) = Some (ERROR, ErrorDeletingAlarms "i-1" KeyError).
Proof.
  cbv zeta.
  eapply nameless_alarm_deletes_nothing.
  - reflexivity.
  - reflexivity.
  - right. left. reflexivity.
Defined.

(** ** [determine_platform]: its range and its failures *)

(** Takes a goal about a run apart along the matches of the code. *)
Ltac by_cases :=
  repeat match goal with
         | |- context [match ?x with _ => _ end] =>
             match x with
             | context [match _ with _ => _ end] => fail 1
             | _ => destruct x
             end
         end.

(** X11. Whatever the service answers, [determine_platform] makes exactly
    one call, [describe_images] for the image; what it returns is [None] or
    one of the five platform names; and when it raises, the exception is
    logged as 'Failure describing image' last. *)
Theorem determine_platform_range (client : Boto3.Client) (imageid : string) (st : State) :
  let run := determine_platform client imageid st in
  calls (snd run) = calls st ++ [Boto3.DescribeImages [imageid]] /\
  (forall platform, fst run = Ok (Some platform) -> In platform known_platforms) /\
  (forall e,
      fst run = Raise e ->
      last (logs (snd run)) = Some (ERROR, FailureDescribingImage imageid e)).
Proof.
  cbv zeta.
  unfold determine_platform, classify_image, try_except, call_describe_images,
    getitem, bind, ret, raise, log.
  by_cases; cbn;
    (split; [reflexivity |]; split;
     [intros p Hp; inversion Hp; subst; cbn; tauto
     | intros e' He'; inversion He'; subst; try apply last_snoc]).
Qed.

(** X12. For an image classified by the 'Linux/UNIX' rule the description
    is read first: without a ['Description'] the lookup raises [KeyError]
    whatever the name says, and a description that mentions ubuntu settles
    Ubuntu without the name being read, present or not. *)
Theorem linux_image_description_first
    (client : Boto3.Client) (imageid : string) (st : State)
    (image : Boto3.Image) (others : list Boto3.Image) (platform_details : string) :
  Boto3.describe_images client (calls st) [imageid]
  = Ok {| Boto3.Images := Some (image :: others) |} ->
  Boto3.PlatformDetails image = Some platform_details ->
  is_windows platform_details = false ->
  PyStr.contains "Red Hat" platform_details = false ->
  PyStr.contains "SUSE" platform_details = false ->
  PyStr.contains "Linux/UNIX" platform_details = true ->
  let result := fst (determine_platform client imageid st) in
  (Boto3.Description image = None -> result = Raise KeyError) /\
  (forall description,
      Boto3.Description image = Some description ->
      PyStr.contains "ubuntu" (PyStr.lower description) = true ->
      result = Ok (Some "Ubuntu")).
Proof.
  intros Hcall Hpd Hwin Hred Hsuse Hunix result. subst result.
  rewrite (determine_platform_run _ _ _ _ Hcall).
  unfold classify_image, try_except, is_windows in *. cbn [Boto3.Images].
  rewrite Hpd. unfold bind, getitem, ret, log; cbn.
  rewrite Hwin, Hred, Hsuse, Hunix. split.
  - intros ->. reflexivity.
  - intros description -> ->. reflexivity.
Qed.

Lemma linux_image_description_first_witness :
  fst (determine_platform (undescribed_image_account "Linux/UNIX" "ubuntu-focal-20.04")
         "ami-3" (initial_state ∅))
  = Raise KeyError.
Proof.
  destruct (linux_image_description_first
              (undescribed_image_account "Linux/UNIX" "ubuntu-focal-20.04") "ami-3"
              (initial_state ∅) _ [] "Linux/UNIX" eq_refl eq_refl eq_refl eq_refl eq_refl
              eq_refl) as [Hnone _].
  exact (Hnone eq_refl).
Defined.

(** ** [process_alarm_tags] when the instance cannot be looked up *)

(** X13. When [describe_images] fails, [process_alarm_tags] ends with the
    same exception after that one call: the failure is logged, no alarm is
    put and [default_alarms] is as it was. *)
Theorem image_lookup_failure_is_fatal
    (client : Boto3.Client) (instance_id ImageId cw_namespace : string)
    (instance_info : InstanceInfo) (instance_tags : list Tag)
    (metric_dimensions_map : gmap string (list string))
    (sns_topic_arn : option string) (e : PyExc) (st : State) :
  info_Tags instance_info = Some instance_tags ->
  dict_get (info_attrs instance_info) "ImageId" = Some ImageId ->
  Boto3.describe_images client (calls st) [ImageId] = Raise e ->
  process_alarm_tags client instance_id instance_info metric_dimensions_map sns_topic_arn
    cw_namespace st
  = (Raise e,
     {| calls := calls st ++ [Boto3.DescribeImages [ImageId]];
        logs := (logs st ++ [(INFO, ImageIdIs ImageId)])
                  ++ [(ERROR, FailureDescribingImage ImageId e)];
        default_alarms := default_alarms st |}).
Proof.
  intros Htags Himage Hcall. unfold process_alarm_tags. rewrite Htags, Himage.
  do 3 (erewrite bind_ok by reflexivity).
  unfold bind at 1.
  unfold determine_platform, try_except, bind at 1, call_describe_images.
  cbn [calls with_logs]. now rewrite Hcall.
Qed.

Lemma image_lookup_failure_is_fatal_witness :
  process_alarm_tags imageless_account "i-2" tagged_server ec2_dimension_map None "CWAgent"
    (initial_state (defaults [cpu_tag] []))
  = (Raise (ClientError "InvalidAMIID.NotFound"),
     {| calls := calls (initial_state (defaults [cpu_tag] []))
                   ++ [Boto3.DescribeImages ["ami-1"]];
        logs := (logs (initial_state (defaults [cpu_tag] [])) ++ [(INFO, ImageIdIs "ami-1")])
                  ++ [(ERROR,
                       FailureDescribingImage "ami-1" (ClientError "InvalidAMIID.NotFound"))];
        default_alarms := default_alarms (initial_state (defaults [cpu_tag] [])) |}).
Proof.
  apply (image_lookup_failure_is_fatal imageless_account "i-2" "ami-1" "CWAgent"
           tagged_server
           [{| tag_Key := "Name"; tag_Value := "db" |}; status_tag]);
    reflexivity.
Defined.

(** ** Runs that go through *)

Section Runs.

Variable client : Boto3.Client.

(** A loop that builds the arguments of [create_alarm] from each tag and
    calls it: over well-formed tags it puts every alarm, in order, and
    returns. *)
Lemma create_loop_puts_all (body : Tag -> M AlarmCall) (sns_topic_arn : option string)
    (tags : list Tag) (alarms : list Alarm) :
  Forall2 (built_alarm body sns_topic_arn) tags alarms ->
  forall st, exists st',
    for_each tags (fun tag => a <- body tag ;; call_create_alarm client a sns_topic_arn) st
    = (Ok tt, st') /\
    calls st' = calls st ++ map Boto3.PutMetricAlarm alarms /\
    default_alarms st' = default_alarms st.
Proof.
  induction 1 as [|tag alarm tags alarms (a & x & Hbody & Hx & ->) _ IH]; intros st.
  - exists st. repeat split. cbn. now rewrite app_nil_r.
  - pose proof (create_alarm_returns client a x sns_topic_arn st Hx) as Hone.
    cbv zeta in Hone.
    set (st1 := {| calls := calls st ++ [Boto3.PutMetricAlarm (alarm_for a x sns_topic_arn)];
                   logs := _; default_alarms := _ |}) in Hone.
    destruct (IH st1) as (st' & Hloop & Hcalls & Hdefaults).
    exists st'. split; [| split].
    + cbn [for_each]. unfold bind at 1. unfold bind at 1. rewrite Hbody, Hone. exact Hloop.
    + rewrite Hcalls. cbn [calls st1 map]. now rewrite <- app_assoc.
    + now rewrite Hdefaults.
Qed.

Lemma built_by_lift (args : Tag -> Result AlarmCall) (sns_topic_arn : option string)
    (tags : list Tag) (alarms : list Alarm) :
  Forall2
    (fun tag alarm =>
       exists a x,
         args tag = Ok a /\ PyNum.float (ac_Threshold a) = Some x /\
         alarm = alarm_for a x sns_topic_arn)
    tags alarms ->
  Forall2 (built_alarm (fun tag => lift (args tag)) sns_topic_arn) tags alarms.
Proof.
  intros H. eapply Forall2_impl; [exact H |]. clear H.
  intros tag alarm (a & x & Hargs & Hx & ->).
  exists a, x. repeat split; [| exact Hx]. intros st. unfold lift. now rewrite Hargs.
Qed.

(** The first loop of [process_lambda_alarms] without a list to add to. *)
Lemma collect_function_tags_no_list (tags : list (string * string)) (keys : list string)
    (st : State) :
  default_alarms st !! "AWS/Lambda" = None ->
  let loop :=
    for_each keys
      (fun tag_key =>
         if PyStr.startswith tag_key "AutoAlarm" then
           value <- getitem (dict_get tags tag_key) ;;
           append_tag "AWS/Lambda" {| tag_Key := tag_key; tag_Value := value |}
         else ret tt) st in
  loop = (Ok tt, st) \/ loop = (Raise KeyError, st).
Proof.
  intros Hnone. induction keys as [|k keys IH]; cbn.
  - now left.
  - destruct (PyStr.startswith k "AutoAlarm").
    + right. unfold bind, getitem, append_tag.
      destruct (dict_get tags k); cbn; [now rewrite Hnone | reflexivity].
    + erewrite bind_ok by reflexivity. exact IH.
Qed.

End Runs.





Section InstanceRuns.

Variable client : Boto3.Client.

Lemma determine_platform_calls (imageid : string) (st : State) :
  calls (snd (determine_platform client imageid st))
  = calls st ++ [Boto3.DescribeImages [imageid]].
Proof.
  unfold determine_platform, classify_image, try_except, call_describe_images,
    getitem, bind, ret, raise, log.
  by_cases; reflexivity.
Qed.

(** The loop that builds the agent dimensions returns, with the same list
    whatever the state, and touches only the log. *)
Lemma agent_dimensions_run (instance_id : string) (instance_info : InstanceInfo)
    (instance_tags : list Tag) (names : list string) (acc : list Dimension) :
  exists dims,
    forall st, exists st',
      agent_dimensions instance_id instance_info instance_tags names acc st = (Ok dims, st') /\
      calls st' = calls st /\ default_alarms st' = default_alarms st.
Proof.
  revert acc. induction names as [|n names IH]; intros acc; cbn [agent_dimensions].
  - exists acc. intros st. now exists st.
  - destruct (String.eqb n "AutoScalingGroupName").
    + destruct (is_truthy _); apply IH.
    + destruct (is_truthy_value _); [apply IH |].
      destruct (IH acc) as (dims & Hdims). exists dims. intros st.
      destruct (Hdims (with_logs st (logs st ++ [(WARNING, DimensionWithoutValue n instance_id)])))
        as (st' & Hrun & Hcalls & Hdefaults).
      exists st'. split; [| split; assumption].
      erewrite bind_ok by reflexivity. exact Hrun.
Qed.

(** The first loop of [process_alarm_tags] over tags that are no alarm
    tags. *)
Lemma collect_nothing (instance_tags : list Tag) (platform : option string)
    (cw_namespace : string) (st : State) :
  Forall (fun tag => PyStr.startswith (tag_Key tag) "AutoAlarm" = false) instance_tags ->
  collect_instance_tags instance_tags platform cw_namespace st = (Ok tt, st).
Proof.
  unfold collect_instance_tags. induction 1 as [|tag tags Htag _ IH]; cbn.
  - reflexivity.
  - rewrite Htag. erewrite bind_ok by reflexivity. exact IH.
Qed.

(** [process_alarm_tags] up to its first loop. *)
Lemma process_alarm_tags_start (instance_id ImageId cw_namespace : string)
    (instance_info : InstanceInfo) (instance_tags : list Tag)
    (metric_dimensions_map : gmap string (list string)) (sns_topic_arn : option string)
    (platform : option string) (st : State) :
  info_Tags instance_info = Some instance_tags ->
  dict_get (info_attrs instance_info) "ImageId" = Some ImageId ->
  fst (determine_platform client ImageId st) = Ok platform ->
  exists st3,
    calls st3 = calls st ++ [Boto3.DescribeImages [ImageId]] /\
    default_alarms st3 = default_alarms st /\
    process_alarm_tags client instance_id instance_info metric_dimensions_map
      sns_topic_arn cw_namespace st
    = (collect_instance_tags instance_tags platform cw_namespace ;;
       let dimension_names := default [] (metric_dimensions_map !! "AWS/EC2") in
       let dimensions := static_dimensions instance_info dimension_names in
       ec2_tags <- tags_of "AWS/EC2" ;;
       ec2_loop client instance_id dimensions sns_topic_arn ec2_tags ;;
       cw_agent_dimensions <-
         agent_dimensions instance_id instance_info instance_tags
           (default [] (metric_dimensions_map !! cw_namespace)) [] ;;
       log DEBUG (CwagentDimensions cw_agent_dimensions) ;;
       agent_tags <- platform_tags_of cw_namespace platform ;;
       agent_loop client instance_id cw_agent_dimensions sns_topic_arn agent_tags ;;
       ret PyNone) st3.
Proof.
  intros Htags Himage Hplatform.
  unfold process_alarm_tags. rewrite Htags, Himage.
  do 3 (erewrite bind_ok by reflexivity).
  set (st1 := with_logs st _).
  pose proof (determine_platform_result client ImageId st1 st eq_refl) as Hsame.
  pose proof (keeps_determine_platform client ImageId st1) as Hkept.
  pose proof (determine_platform_calls ImageId st1) as Hcalls.
  rewrite Hplatform in Hsame.
  destruct (determine_platform client ImageId st1) as [r st2] eqn:Hrun.
  cbn [fst snd] in Hsame, Hkept, Hcalls. subst r.
  exists (with_logs st2 (logs st2 ++ [(INFO, PlatformIs platform)])).
  split; [exact Hcalls | split; [exact Hkept |]].
  erewrite bind_ok by exact Hrun.
  erewrite bind_ok by reflexivity. reflexivity.
Qed.

End InstanceRuns.



Lemma bind_raise {A B} (m : M A) (k : A -> M B) (st st1 : State) (e : PyExc) :
  m st = (Raise e, st1) -> bind m k st = (Raise e, st1).
Proof. intros H. unfold bind. now rewrite H. Qed.

(** X17. An instance with no alarm tag of its own whose platform has no
    bucket under the agent namespace of [default_alarms] (as for an image
    that matches no platform rule, whose platform is [None]): the default
    EC2 alarms are put first, and then [process_alarm_tags] raises
    [KeyError]. *)
Theorem missing_platform_bucket_raises
    (client : Boto3.Client) (instance_id ImageId cw_namespace : string)
    (instance_info : InstanceInfo) (instance_tags : list Tag)
    (metric_dimensions_map : gmap string (list string)) (sns_topic_arn : option string)
    (platform : option string) (ec2 : list Tag)
    (buckets : gmap (option string) (list Tag)) (ec2_alarms : list Alarm) (st : State) :
  info_Tags instance_info = Some instance_tags ->
  dict_get (info_attrs instance_info) "ImageId" = Some ImageId ->
  fst (determine_platform client ImageId st) = Ok platform ->
  Forall (fun tag => PyStr.startswith (tag_Key tag) "AutoAlarm" = false) instance_tags ->
  default_alarms st !! "AWS/EC2" = Some (TagList ec2) ->
  default_alarms st !! cw_namespace = Some (PerPlatform buckets) ->
  buckets !! platform = None ->
  Forall2
    (ec2_alarm_of instance_id
       (static_dimensions instance_info (default [] (metric_dimensions_map !! "AWS/EC2")))
       sns_topic_arn)
    ec2 ec2_alarms ->
  let run :=
    process_alarm_tags client instance_id instance_info metric_dimensions_map
      sns_topic_arn cw_namespace st in
  fst run = Raise KeyError /\
  calls (snd run)
  = calls st ++ Boto3.DescribeImages [ImageId] :: map Boto3.PutMetricAlarm ec2_alarms.
Proof.
  intros Htags Himage Hplatform Hplain Hec2 Hagent Hbucket Hec2_alarms run. subst run.
  destruct (process_alarm_tags_start client instance_id ImageId cw_namespace instance_info
              instance_tags metric_dimensions_map sns_topic_arn platform st
              Htags Himage Hplatform) as (st3 & Hcalls3 & Hdefaults3 & ->).
  rewrite <- Hdefaults3 in Hec2, Hagent.
  erewrite bind_ok by exact (collect_nothing instance_tags platform cw_namespace st3 Hplain).
  erewrite bind_ok by (unfold tags_of; rewrite Hec2; reflexivity).
  destruct (create_loop_puts_all client _ _ _ _ (built_by_lift _ _ _ _ Hec2_alarms) st3)
    as (st5 & Hloop5 & Hcalls5 & Hdefaults5).
  erewrite bind_ok by exact Hloop5.
  destruct (agent_dimensions_run instance_id instance_info instance_tags
              (default [] (metric_dimensions_map !! cw_namespace)) [])
    as (dims & Hrun_dims).
  destruct (Hrun_dims st5) as (st6 & Hrun6 & Hcalls6 & Hdefaults6).
  erewrite bind_ok by exact Hrun6.
  erewrite bind_ok by reflexivity.
  erewrite bind_raise; cycle 1.
  { unfold platform_tags_of. cbn [default_alarms with_logs].
    rewrite Hdefaults6, Hdefaults5, Hagent, Hbucket. reflexivity. }
  split; [reflexivity |]. unfold with_logs; cbn [fst snd calls].
  rewrite Hcalls6, Hcalls5, Hcalls3. now rewrite <- app_assoc.
Qed.

Lemma missing_platform_bucket_raises_witness :
  let run :=
    process_alarm_tags bsd_account "i-1" web_server ec2_dimension_map None "CWAgent"
      (initial_state (defaults [cpu_tag] [disk_tag])) in
  fst run = Raise KeyError /\
  calls (snd run)
  = calls (initial_state (defaults [cpu_tag] [disk_tag]))
      ++ Boto3.DescribeImages ["ami-1"]
           :: map Boto3.PutMetricAlarm
                [alarm_of "AutoAlarm-i-1-AWS/EC2-CPUUtilization-GreaterThanThreshold-80-5m"
                   "CPUUtilization" "GreaterThanThreshold" (PeriodSeconds 300)
                   (PyNum.FNum false 80 0) "Average" "AWS/EC2"
                   [{| dim_Name := "InstanceId"; dim_Value := "i-1" |}] None].
Proof.
  cbv zeta.
  eapply (missing_platform_bucket_raises bsd_account "i-1" "ami-1" "CWAgent" web_server _
            ec2_dimension_map None None [cpu_tag]
            (<[Some "Amazon Linux" := [disk_tag] ]> ∅)).
  - reflexivity.
  - reflexivity.
  - reflexivity.
  - repeat constructor.
  - reflexivity.
  - reflexivity.
  - reflexivity.
  - repeat constructor; eexists _, _; repeat split; reflexivity.
Defined.

(** ** The dimensions of an instance *)

Lemma is_truthy_some (o : option string) (v : string) :
  is_truthy o = Some v <-> o = Some v /\ PyStr.truthy v = true.
Proof.
  unfold is_truthy. destruct o as [w|]; [| split; [discriminate | intros [? _]; discriminate]].
  destruct (PyStr.truthy w) eqn:Hw; split.
  - intros H. injection H as <-. auto.
  - intros [H _]. exact H.
  - discriminate.
  - intros [H Hv]. injection H as <-. congruence.
Qed.

Lemma is_truthy_value_some (o : option PyVal) (v : PyVal) :
  is_truthy_value o = Some v <-> o = Some v /\ truthy_value v = true.
Proof.
  unfold is_truthy_value.
  destruct o as [w|]; [| split; [discriminate | intros [? _]; discriminate]].
  destruct (truthy_value w) eqn:Hw; split.
  - intros H. injection H as <-. auto.
  - intros [H _]. exact H.
  - discriminate.
  - intros [H Hv]. injection H as <-. congruence.
Qed.

(** Values that are not strings: a true one becomes the value of the
    dimension as it is, the list of tags included; a false or missing one
    is left out, with a warning in the agent loop. *)
Example dimensions_of_other_values :
  let placement := {| obj_truth := true; obj_repr := "{'AvailabilityZone': 'eu-west-1a'}" |} in
  let name_tag := {| tag_Key := "Name"; tag_Value := "web" |} in
  let instance :=
    {| info_Tags := Some [name_tag];
       info_attrs := [("ImageId", "ami-1"); ("InstanceId", "i-4")];
       info_objects :=
         [("Placement", placement);
          ("AmiLaunchIndex", {| obj_truth := false; obj_repr := "0" |})] |} in
  let names := ["InstanceId"; "Placement"; "AmiLaunchIndex"; "Tags"; "KeyName"] in
  let dimensions :=
    [{| dim_Name := "InstanceId"; dim_Value := "i-4" |};
     {| dim_Name := "Placement"; dim_Value := VObject placement |};
     {| dim_Name := "Tags"; dim_Value := VTags [name_tag] |}] in
  static_dimensions instance names = dimensions /\
  agent_dimensions "i-4" instance [name_tag] names [] (initial_state ∅)
  = (Ok dimensions,
     {| calls := [];
        logs := [(WARNING, DimensionWithoutValue "AmiLaunchIndex" "i-4");
                 (WARNING, DimensionWithoutValue "KeyName" "i-4")];
        default_alarms := ∅ |}).
Proof. split; reflexivity. Qed.

(** X18. The default dimensions of an instance are exactly the configured
    names for which [instance_info.get] gives a value that counts as true
    (a non-empty string, a non-empty list of tags, an object that is true),
    each with that value: a name without value or with a false value is
    left out, and the names keep the configured order. *)
Theorem static_dimensions_resolved (instance_info : InstanceInfo)
    (dimension_names : list string) :
  (forall d,
      In d (static_dimensions instance_info dimension_names) <->
      In (dim_Name d) dimension_names /\
      info_get instance_info (dim_Name d) = Some (dim_Value d) /\
      truthy_value (dim_Value d) = true) /\
  sublist (map dim_Name (static_dimensions instance_info dimension_names)) dimension_names.
Proof.
  split.
  - intros [n v]; cbn [dim_Name dim_Value].
    induction dimension_names as [|dim names IH]; cbn [static_dimensions].
    + cbn. tauto.
    + destruct (info_get instance_info dim) as [w|] eqn:Hget;
        [destruct (truthy_value w) eqn:Hw |]; cbn [In]; rewrite IH; clear IH.
      * split.
        -- intros H. destruct H as [Heq | H].
           ++ inversion Heq; subst. auto.
           ++ destruct H as (Hin & Hv & Hne). auto.
        -- intros (Hin & Hv & Hne). destruct Hin as [<- | Hin]; [| auto].
           left. rewrite Hget in Hv. now inversion Hv.
      * split; [intros (Hin & Hv & Hne); auto |].
        intros (Hin & Hv & Hne). destruct Hin as [<- | Hin]; [| auto].
        exfalso. rewrite Hget in Hv. inversion Hv; subst. congruence.
      * split; [intros (Hin & Hv & Hne); auto |].
        intros (Hin & Hv & Hne). destruct Hin as [<- | Hin]; [congruence | auto].
  - induction dimension_names as [|dim names IH]; cbn [static_dimensions].
    + constructor.
    + destruct (info_get instance_info dim) as [w|].
      * destruct (truthy_value w); cbn; now constructor.
      * now constructor.
Qed.

(** X19. The loop over the agent's dimension names never raises and calls
    nothing. Each dimension it adds has a configured name and the value the
    instance has for it, which counts as true ([instance_info.get] for a
    name other than the autoscaling group, whose value is read from the tag
    [aws:autoscaling:groupName]); it warns once for each other name whose
    value is missing or false, in order, and says nothing of a missing
    autoscaling group. *)
Theorem agent_dimensions_resolved
    (instance_id : string) (instance_info : InstanceInfo) (instance_tags : list Tag)
    (dimension_names : list string) (acc : list Dimension) (st : State) :
  exists dims,
    agent_dimensions instance_id instance_info instance_tags dimension_names acc st
    = (Ok (acc ++ dims),
       with_logs st
         (logs st
            ++ map (fun n => (WARNING, DimensionWithoutValue n instance_id))
                 (unresolved_names instance_info dimension_names))) /\
    Forall
      (fun d =>
         In (dim_Name d) dimension_names /\
         agent_dimension_value instance_info instance_tags (dim_Name d) = Some (dim_Value d) /\
         truthy_value (dim_Value d) = true)
      dims.
Proof.
  revert acc st.
  induction dimension_names as [|n names IH]; intros acc st;
    cbn [agent_dimensions unresolved_names List.filter].
  - exists []. rewrite !app_nil_r. split; [now destruct st | constructor].
  - assert (Hweaken : forall dims,
      Forall (fun d =>
                In (dim_Name d) names /\
                agent_dimension_value instance_info instance_tags (dim_Name d)
                = Some (dim_Value d) /\ truthy_value (dim_Value d) = true) dims ->
      Forall (fun d =>
                In (dim_Name d) (n :: names) /\
                agent_dimension_value instance_info instance_tags (dim_Name d)
                = Some (dim_Value d) /\ truthy_value (dim_Value d) = true) dims).
    { intros dims H. eapply Forall_impl; [exact H |].
      intros d (Hin & Hv & Hne). cbn. auto. }
    fold (unresolved_names instance_info names).
    destruct (String.eqb n "AutoScalingGroupName") eqn:Hasg; cbn [negb andb].
    + destruct (is_truthy (first_tag_value instance_tags "aws:autoscaling:groupName"))
        as [v|] eqn:Hv.
      * destruct (IH (acc ++ [{| dim_Name := n; dim_Value := v |}]) st) as (dims & Hrun & Hdims).
        exists ({| dim_Name := n; dim_Value := v |} :: dims).
        split; [rewrite Hrun; now rewrite <- app_assoc |].
        constructor; [| now apply Hweaken]. cbn.
        apply is_truthy_some in Hv as [Hv Hne].
        unfold agent_dimension_value. rewrite Hasg, Hv. auto.
      * destruct (IH acc st) as (dims & Hrun & Hdims).
        exists dims. split; [exact Hrun | now apply Hweaken].
    + destruct (is_truthy_value (info_get instance_info n)) as [v|] eqn:Hv.
      * destruct (IH (acc ++ [{| dim_Name := n; dim_Value := v |}]) st) as (dims & Hrun & Hdims).
        exists ({| dim_Name := n; dim_Value := v |} :: dims).
        split; [rewrite Hrun; now rewrite <- app_assoc |].
        constructor; [| now apply Hweaken]. cbn.
        apply is_truthy_value_some in Hv as [Hv Hne].
        unfold agent_dimension_value. rewrite Hasg. auto.
      * destruct (IH acc
                    (with_logs st
                       (logs st ++ [(WARNING, DimensionWithoutValue n instance_id)])))
          as (dims & Hrun & Hdims).
        exists dims. split; [| now apply Hweaken].
        erewrite bind_ok by reflexivity. rewrite Hrun.
        unfold with_logs; cbn. now rewrite <- app_assoc.
Qed.

(** ** [check_alarm_tag] *)

Section CheckAlarmTagProperties.

Variable client : Ec2.Client.
Variable utcnow : string.
Variables instance_id tag_key : string.
Variable st : Ec2.State.

Let described : list Ec2.Call :=
  Ec2.calls st ++ [Ec2.DescribeInstances [tag_key] [instance_id]].

Let stamp : list Tag := [{| tag_Key := tag_key; tag_Value := utcnow |}].

(** X20. [check_alarm_tag] returns an instance exactly when the listing
    answered, the instance is the first of the first reservation and the
    tag could be written; an instance that was found but could not be
    tagged is not returned. *)
Theorem check_alarm_tag_returns_tagged (instance : InstanceInfo) :
  (Ec2.check_alarm_tag client utcnow instance_id tag_key st).1 = Ok (Ec2.Instance instance)
  <->
  exists response,
    Ec2.describe_instances client (Ec2.calls st) [tag_key] [instance_id] = Ok response /\
    Ec2.first_instance response = Some instance /\
    Ec2.create_tags client described [instance_id] stamp = Ok tt.
Proof.
  unfold Ec2.check_alarm_tag, Ec2.first_instance, Ec2.log_and_reraise.
  subst described stamp. cbn [Ec2.calls Ec2.logs].
  destruct (Ec2.describe_instances client (Ec2.calls st) [tag_key] [instance_id])
    as [response|e].
  - destruct (Ec2.Reservations response) as [[|reservation others]|] eqn:Hres.
    + split; [discriminate |]. intros (r & Hr & Hfirst & _).
      injection Hr as <-. rewrite Hres in Hfirst. discriminate.
    + destruct (Ec2.Instances reservation) as [[|first rest]|] eqn:Hinst.
      * split; [discriminate |]. intros (r & Hr & Hfirst & _).
        injection Hr as <-. rewrite Hres, Hinst in Hfirst. discriminate.
      * destruct (Ec2.create_tags client _ [instance_id] _) as [[]|e] eqn:Htag.
        -- split.
           ++ intros H. injection H as <-. exists response.
              rewrite Hres, Hinst. auto.
           ++ intros (r & Hr & Hfirst & _). injection Hr as <-.
              rewrite Hres, Hinst in Hfirst. now injection Hfirst as <-.
        -- split; [discriminate |]. intros (r & _ & _ & Hno). discriminate.
      * split; [discriminate |]. intros (r & Hr & Hfirst & _).
        injection Hr as <-. rewrite Hres, Hinst in Hfirst. discriminate.
    + split; [discriminate |]. intros (r & Hr & Hfirst & _).
      injection Hr as <-. rewrite Hres in Hfirst. discriminate.
  - split; [discriminate |]. intros (r & Hr & _). discriminate.
Qed.

(** X21. [check_alarm_tag] first lists the instance, by its id and the tag
    key. It writes a tag exactly when the listing shows an instance, and
    then one tag only: the key it was asked about, with the time as value,
    on that instance. It calls nothing else. *)
Theorem check_alarm_tag_calls :
  Ec2.calls (Ec2.check_alarm_tag client utcnow instance_id tag_key st).2
  = described
      ++ match Ec2.describe_instances client (Ec2.calls st) [tag_key] [instance_id] with
         | Ok response =>
             match Ec2.first_instance response with
             | Some _ => [Ec2.CreateTags [instance_id] stamp]
             | None => []
             end
         | Raise _ => []
         end.
Proof.
  unfold Ec2.check_alarm_tag, Ec2.first_instance, Ec2.log_and_reraise.
  subst described stamp. cbn [Ec2.calls Ec2.logs].
  destruct (Ec2.describe_instances client (Ec2.calls st) [tag_key] [instance_id])
    as [response|e]; [| now rewrite app_nil_r].
  destruct (Ec2.Reservations response) as [[|reservation others]|];
    [now rewrite app_nil_r | | now rewrite app_nil_r].
  destruct (Ec2.Instances reservation) as [[|first rest]|];
    [now rewrite app_nil_r | | now rewrite app_nil_r].
  now destruct (Ec2.create_tags client _ [instance_id] _).
Qed.

(** X22. [check_alarm_tag] swallows no exception and invents none: it raises
    exactly when the listing fails, when the first reservation of the answer
    has no ['Instances'] (a [KeyError]) or when the tag cannot be written,
    and it raises that exception; it then logs the one error that names it,
    and logs nothing when it returns. *)
Theorem check_alarm_tag_reraises :
  let run := Ec2.check_alarm_tag client utcnow instance_id tag_key st in
  Ec2.logs run.2
  = Ec2.logs st
      ++ match run.1 with
         | Raise e => [(ERROR, Ec2.FailureDescribingInstance instance_id tag_key e)]
         | Ok _ => []
         end
  /\
  forall e,
    run.1 = Raise e <->
    Ec2.describe_instances client (Ec2.calls st) [tag_key] [instance_id] = Raise e \/
    (exists response,
        Ec2.describe_instances client (Ec2.calls st) [tag_key] [instance_id] = Ok response /\
        (Ec2.without_instances response /\ e = KeyError \/
         (exists instance, Ec2.first_instance response = Some instance) /\
         Ec2.create_tags client described [instance_id] stamp = Raise e)).
Proof.
  unfold Ec2.check_alarm_tag, Ec2.first_instance, Ec2.without_instances,
    Ec2.log_and_reraise.
  subst described stamp. cbn [Ec2.calls Ec2.logs].
  destruct (Ec2.describe_instances client (Ec2.calls st) [tag_key] [instance_id])
    as [response|e0].
  - destruct (Ec2.Reservations response) as [[|reservation others]|] eqn:Hres.
    + cbn. split; [now rewrite app_nil_r |]. intros e. split; [discriminate |].
      intros [H | (r & Hr & [((x & xs & Hx & _) & _) | ((i & Hi) & _)])];
        [discriminate | injection Hr as <- ..].
      * rewrite Hres in Hx. discriminate.
      * rewrite Hres in Hi. discriminate.
    + destruct (Ec2.Instances reservation) as [[|first rest]|] eqn:Hinst.
      * cbn. split; [now rewrite app_nil_r |]. intros e. split; [discriminate |].
        intros [H | (r & Hr & [((x & xs & Hx & Hnone) & _) | ((i & Hi) & _)])];
          [discriminate | injection Hr as <- ..].
        -- rewrite Hres in Hx. injection Hx as <- <-. congruence.
        -- rewrite Hres, Hinst in Hi. discriminate.
      * destruct (Ec2.create_tags client _ [instance_id] _) as [[]|e1] eqn:Htag.
        -- cbn. split; [now rewrite app_nil_r |]. intros e. split; [discriminate |].
           intros [H | (r & Hr & [((x & xs & Hx & Hnone) & _) | (_ & Hno)])];
             [discriminate | injection Hr as <- | discriminate].
           rewrite Hres in Hx. injection Hx as <- <-. congruence.
        -- cbn. split; [reflexivity |]. intros e. split.
           ++ intros H. injection H as <-. right. exists response.
              split; [reflexivity |]. right. rewrite Hres, Hinst. eauto.
           ++ intros [H | (r & Hr & [((x & xs & Hx & Hnone) & _) | (_ & Hno)])];
                [discriminate | injection Hr as <- | congruence].
              rewrite Hres in Hx. injection Hx as <- <-. congruence.
      * cbn. split; [reflexivity |]. intros e. split.
        -- intros H. injection H as <-. right. exists response.
           split; [reflexivity |]. left. split; [| reflexivity].
           exists reservation, others. auto.
        -- intros [H | (r & Hr & [(_ & ->) | ((i & Hi) & _)])];
             [discriminate | reflexivity | injection Hr as <-].
           rewrite Hres, Hinst in Hi. discriminate.
    + cbn. split; [now rewrite app_nil_r |]. intros e. split; [discriminate |].
      intros [H | (r & Hr & [((x & xs & Hx & _) & _) | ((i & Hi) & _)])];
        [discriminate | injection Hr as <- ..].
      * rewrite Hres in Hx. discriminate.
      * rewrite Hres in Hi. discriminate.
  - cbn. split; [reflexivity |]. intros e. split.
    + intros H. injection H as <-. now left.
    + intros [H | (r & Hr & _)]; [now injection H as <- | discriminate].
Qed.

End CheckAlarmTagProperties.
